(** * cbfs node: the HTTP request handlers of http.go

    A shallow embedding of the handlers of [http.go].  Go [int], [int64]
    and [time.Duration] values are integers of [Z] with their ranges
    written out, Go strings and byte streams are [string], Go maps are
    [gmap].  A handler is a computation over the response writer and the
    node's surroundings (metadata store, blob directory, fetch queue). *)

From Stdlib Require Import ZArith Lia Ascii.
From stdpp Require Import base option list gmap strings pretty.

Local Open Scope Z_scope.

(** ** Strings *)

Module Str.

(** [strings.HasPrefix(s, prefix)] *)
Fixpoint HasPrefix (s prefix : string) {struct prefix} : bool :=
  match prefix, s with
  | EmptyString, _ => true
  | String c p, String d s' => if Ascii.eqb c d then HasPrefix s' p else false
  | String _ _, EmptyString => false
  end.

(** [strings.Contains(s, substr)] *)
Fixpoint Contains (s substr : string) : bool :=
  HasPrefix s substr ||
  match s with
  | EmptyString => false
  | String _ s' => Contains s' substr
  end.

(** [s[n:]] for [n <= len(s)] *)
Fixpoint drop (n : nat) (s : string) : string :=
  match n, s with
  | O, _ => s
  | S n', String _ s' => drop n' s'
  | S _, EmptyString => EmptyString
  end.

(** [s[1 : len(s)-1]] for [len(s) >= 2] *)
Fixpoint init (s : string) : string :=
  match s with
  | EmptyString => EmptyString
  | String c EmptyString => EmptyString
  | String c s' => String c (init s')
  end.

Definition inner (s : string) : string := init (drop 1 s).
#[global] Arguments inner : simpl never.

Definition len (s : string) : Z := Z.of_nat (String.length s).

(** last byte of a non-empty string *)
Fixpoint last (s : string) : option ascii :=
  match s with
  | EmptyString => None
  | String c EmptyString => Some c
  | String _ s' => last s'
  end.

End Str.

(** ** Integers: [strconv.Atoi] and the 64-bit conversions *)

Definition minInt64 : Z := - 2 ^ 63.
Definition maxInt64 : Z := 2 ^ 63 - 1.

(** [uint64(x)] of an [int64] *)
Definition uint64 (x : Z) : Z := x mod 2 ^ 64.

Module Strconv.

Definition digit (c : ascii) : option Z :=
  let n := Z.of_N (Ascii.N_of_ascii c) in
  if (48 <=? n) && (n <=? 57) then Some (n - 48) else None.

(** the decimal value of a string of digits, most significant first *)
Fixpoint digits (acc : Z) (s : string) : option Z :=
  match s with
  | EmptyString => Some acc
  | String c s' =>
      match digit c with
      | Some d => digits (acc * 10 + d) s'
      | None => None
      end
  end.

Definition unsigned (s : string) : option Z :=
  match s with
  | EmptyString => None
  | _ => digits 0 s
  end.

(** [strconv.Atoi]: an optional sign, at least one decimal digit, and a
    value that fits the 64-bit [int]; [None] is the syntax or range
    error. *)
Definition Atoi (s : string) : option Z :=
  let v :=
    match s with
    | String "-"%char s' => Z.opp <$> unsigned s'
    | String "+"%char s' => unsigned s'
    | _ => unsigned s
    end in
  match v with
  | Some n => if (minInt64 <=? n) && (n <=? maxInt64) then Some n else None
  | None => None
  end.

(** [strconv.Itoa] *)
Definition Itoa (n : Z) : string := pretty n.

End Strconv.

(** ** HTTP headers, requests and the response writer *)

Module Http.

(** [http.Header], a [map[string][]string] *)
Abbreviation Header := (gmap string (list string)).

Definition is_lower (c : ascii) : bool :=
  let n := Ascii.N_of_ascii c in ((97 <=? n) && (n <=? 122))%N.
Definition is_upper (c : ascii) : bool :=
  let n := Ascii.N_of_ascii c in ((65 <=? n) && (n <=? 90))%N.
Definition is_digit (c : ascii) : bool :=
  let n := Ascii.N_of_ascii c in ((48 <=? n) && (n <=? 57))%N.
Definition to_upper (c : ascii) : ascii :=
  if is_lower c then Ascii.ascii_of_N (Ascii.N_of_ascii c - 32) else c.
Definition to_lower (c : ascii) : ascii :=
  if is_upper c then Ascii.ascii_of_N (Ascii.N_of_ascii c + 32) else c.

(** the bytes allowed in a header field name *)
Definition validHeaderFieldByte (c : ascii) : bool :=
  is_lower c || is_upper c || is_digit c ||
  Str.Contains "!#$%&'*+-.^_`|~" (String c EmptyString).

Fixpoint all_valid (s : string) : bool :=
  match s with
  | EmptyString => true
  | String c s' => validHeaderFieldByte c && all_valid s'
  end.

Fixpoint canon (upper : bool) (s : string) : string :=
  match s with
  | EmptyString => EmptyString
  | String c s' =>
      String (if upper then to_upper c else to_lower c)
             (canon (Ascii.eqb c "-"%char) s')
  end.

(** [textproto.CanonicalMIMEHeaderKey] *)
Definition CanonicalHeaderKey (s : string) : string :=
  if all_valid s then canon true s else s.

(** [h.Get(key)]: the first value stored under the canonical key *)
Definition Get (h : Header) (key : string) : string :=
  match h !! CanonicalHeaderKey key with
  | Some (v :: _) => v
  | _ => ""
  end.

(** [h.Set(key, value)] *)
Definition Set_ (h : Header) (key value : string) : Header :=
  <[CanonicalHeaderKey key := [value]]> h.

(** [*http.Request], as far as the handlers read it.  [Form] is the
    parsed query, what [req.FormValue] looks into. *)
Record Request := {
  Method : string;
  URLPath : string;
  ReqHeader : Header;
  Form : gmap string (list string);
  Body : string;
}.

(** [req.FormValue(key)] *)
Definition FormValue (req : Request) (key : string) : string :=
  match Form req !! key with
  | Some (v :: _) => v
  | _ => ""
  end.

(** What a call of [http.ServeContent(w, req, name, modtime, content)] was
    handed. *)
Record Served := {
  srvName : string;
  srvModtime : Z;
  srvContent : string;
}.

(** [http.ResponseWriter].  [status] is [None] until the header is
    written; the first [WriteHeader] wins and a [Write] before it
    implies 200.  [served] records the call of [http.ServeContent], if
    there was one, beside the response that the call wrote. *)
Record ResponseWriter := {
  status : option Z;
  header : Header;
  body : string;
  served : option Served;
}.

Definition emptyResponse : ResponseWriter :=
  {| status := None; header := ∅; body := ""; served := None |}.

Definition WriteHeader (code : Z) (w : ResponseWriter) : ResponseWriter :=
  match status w with
  | Some _ => w
  | None => {| status := Some code; header := header w;
               body := body w; served := served w |}
  end.

Definition Write (b : string) (w : ResponseWriter) : ResponseWriter :=
  let w' := WriteHeader 200 w in
  {| status := status w'; header := header w';
     body := body w' +:+ b; served := served w' |}.

Definition SetHeader (key value : string) (w : ResponseWriter) : ResponseWriter :=
  {| status := status w; header := Set_ (header w) key value;
     body := body w; served := served w |}.

(** the request headers that [http.ServeContent] acts on: the
    preconditions and the range *)
Definition conditionalHeaders : list string :=
  ["If-Match"; "If-Unmodified-Since"; "If-None-Match"; "If-Modified-Since";
   "Range"].

(** the request carries none of them *)
Definition unconditional (req : Request) : Prop :=
  Forall (λ k, Get (ReqHeader req) k = "") conditionalHeaders.

End Http.

(** ** Data model *)

(** time.Time as nanoseconds since the Unix epoch; [time.Duration] is a
    64-bit count of nanoseconds. *)
Module Time.
Definition Hour : Z := 3600 * 1000000000.
(** [time.Time{}], January 1 of year 1 *)
Definition zero : Z := -62135596800 * 1000000000.
(** [t.Sub(u)]: the difference, saturated to the range of a Duration *)
Definition Sub (t u : Z) : Z := Z.max minInt64 (Z.min maxInt64 (t - u)).
(** [time.Since(t)] at the instant [now] *)
Definition Since (now t : Z) : Z := Sub now t.
End Time.

(** One retained former revision of a path, an element of
    [fileMeta.Previous]. *)
Module Rev.
Record t := {
  Headers : Http.Header;
  OID : string;
  Modified : Z;
  Revno : Z;
}.
End Rev.

(** [fileMeta], the File Metadata document stored under a user path *)
Record fileMeta := {
  Headers : Http.Header;
  OID : string;
  Length : Z;
  Userdata : option string;
  Modified : Z;
  Revno : Z;
  Previous : list Rev.t;
}.

(** [BlobOwnership], the Ownership Record stored under ["/" + oid] *)
Module Ownership.
Record t := {
  Length : Z;
  Nodes : gmap string Z;
}.
End Ownership.

(** [cbfsconfig.CBFSConfig], the fields the handlers read *)
Record CBFSConfig := {
  DefaultVersionCount : Z;
  MinReplicas : Z;
}.

(** [storInfo]: what the replication task reports; [err = None] is Go's
    [nil] error. *)
Record storInfo := {
  node : string;
  hs : string;
  err : option string;
}.

(** [*hashRecord]: the handle on a Digest Writer; its temp file lives in
    the blob directory of the [World] under the name [tmpf]. *)
Record hashRecord := {
  tmpf : nat;
  hashin : string;
}.

(** The calls a handler makes to the node's other components, in order.
    [Go_] marks a task started with [go] and not waited for. *)
Inductive Call :=
| NewHashRecord_ (expected : string)
| Process_ (tmp : nat)
| Finish_ (tmp : nat)
| Close_ (tmp : nat)
| RecordBlobOwnership_ (h : string) (length : Z)
| AwaitPeer_ (si : option storInfo)
| StoreMeta_ (path : string) (revs : Z)
| AvailableSpace_
| RandIntn_
| QueueBlobFetch_ (oid prevnode : string)
| RemoveObject_ (oid : string)
| Go_RecordBlobOwnership (h : string) (length : Z)
| Go_RecordBlobAccess (oid : string)
| Go_IncreaseReplicaCount (h : string) (length : Z) (n : Z)
| RemoveBlobOwnershipRecord_ (oid node : string).

(** The node's surroundings: the shared metadata store (File Metadata by
    path, Ownership Records by ["/" + oid], the configuration document),
    the cached configuration, the blob directory (canonical files by
    digest, temp files by name), the fetch queue, and the calls made. *)
Record World := {
  files : gmap string fileMeta;
  owners : gmap string Ownership.t;
  storedConfig : option CBFSConfig;
  globalConfig : CBFSConfig;
  blobs : gmap string string;
  tmpfiles : gmap nat string;
  fetchQueue : list (string * string);
  calls : list Call;
}.

Definition with_files (f : gmap string fileMeta) (σ : World) : World :=
  {| files := f; owners := owners σ; storedConfig := storedConfig σ;
     globalConfig := globalConfig σ; blobs := blobs σ;
     tmpfiles := tmpfiles σ; fetchQueue := fetchQueue σ; calls := calls σ |}.
Definition with_owners (o : gmap string Ownership.t) (σ : World) : World :=
  {| files := files σ; owners := o; storedConfig := storedConfig σ;
     globalConfig := globalConfig σ; blobs := blobs σ;
     tmpfiles := tmpfiles σ; fetchQueue := fetchQueue σ; calls := calls σ |}.
Definition with_storedConfig (c : option CBFSConfig) (σ : World) : World :=
  {| files := files σ; owners := owners σ; storedConfig := c;
     globalConfig := globalConfig σ; blobs := blobs σ;
     tmpfiles := tmpfiles σ; fetchQueue := fetchQueue σ; calls := calls σ |}.
Definition with_globalConfig (c : CBFSConfig) (σ : World) : World :=
  {| files := files σ; owners := owners σ; storedConfig := storedConfig σ;
     globalConfig := c; blobs := blobs σ;
     tmpfiles := tmpfiles σ; fetchQueue := fetchQueue σ; calls := calls σ |}.
Definition with_blobs (b : gmap string string) (σ : World) : World :=
  {| files := files σ; owners := owners σ; storedConfig := storedConfig σ;
     globalConfig := globalConfig σ; blobs := b;
     tmpfiles := tmpfiles σ; fetchQueue := fetchQueue σ; calls := calls σ |}.
Definition with_tmpfiles (t : gmap nat string) (σ : World) : World :=
  {| files := files σ; owners := owners σ; storedConfig := storedConfig σ;
     globalConfig := globalConfig σ; blobs := blobs σ;
     tmpfiles := t; fetchQueue := fetchQueue σ; calls := calls σ |}.
Definition with_fetchQueue (q : list (string * string)) (σ : World) : World :=
  {| files := files σ; owners := owners σ; storedConfig := storedConfig σ;
     globalConfig := globalConfig σ; blobs := blobs σ;
     tmpfiles := tmpfiles σ; fetchQueue := q; calls := calls σ |}.
Definition with_calls (c : list Call) (σ : World) : World :=
  {| files := files σ; owners := owners σ; storedConfig := storedConfig σ;
     globalConfig := globalConfig σ; blobs := blobs σ;
     tmpfiles := tmpfiles σ; fetchQueue := fetchQueue σ; calls := c |}.

(** What a peer answers to the replication [POST <peer>/.cbfs/blob/]. *)
Record PostResponse := {
  postStatusCode : Z;
  postStatus : string;
  postHash : string;              (* its X-CBFS-Hash header, "" if unset *)
  postBodyErr : option string;    (* reading its body failed *)
}.

(** What a peer answers to [GET <peer>/.cbfs/blob/<oid>]: the bytes its
    body delivers and the error that ends the body early, if any. *)
Record GetResponse := {
  getStatusCode : Z;
  getStatus : string;
  getBody : string;
  getBodyErr : option string;
}.

(** What the outside decides during one request: the clock, the random
    draw, the disk, the peers and the failures of the metadata store. *)
Record Env := {
  now : Z;                                   (* time.Now() *)
  randIntn100 : Z;                           (* rand.Intn(100) *)
  freeSpace : Z;                             (* availableSpace(), a uint64 *)
  tmpErr : option string;                    (* creating a temp file fails *)
  copyErr : option string;                   (* streaming the body fails *)
  linkErr : option string;                   (* the rename fails *)
  getErr : option string;                    (* a read of the store fails *)
  ownershipErr : option string;              (* recordBlobOwnership fails *)
  storeMetaErr : option string;              (* storeMeta fails *)
  setErr : option string;                    (* the CAS SET of putMeta fails *)
  deleteErr : option string;                 (* couchbase.Delete fails *)
  storeConfigErr : option string;            (* conf.StoreConfig fails *)
  updateConfigErr : option string;           (* updateConfig fails *)
  remoteNodes : string + list string;        (* findRemoteNodes() *)
  newRequestErr : option string;             (* http.NewRequest fails *)
  peerPost : string + PostResponse;          (* client.Do(preq) *)
  liveNodes : list string;                   (* live nodes, shuffled *)
  peerGet : string → string + GetResponse;   (* http.Get on a node *)
}.

(** ** Handlers as computations *)

Record St := { w : Http.ResponseWriter; σ : World }.

Definition M (A : Type) : Type := St → A * St.

#[global] Instance M_ret : MRet M := λ A a s, (a, s).
#[global] Instance M_bind : MBind M :=
  λ A B f m s, let '(a, s') := m s in f a s'.

Definition getWorld : M World := λ s, (σ s, s).
Definition world (f : World → World) : M unit :=
  λ s, (tt, {| w := w s; σ := f (σ s) |}).
Definition resp (f : Http.ResponseWriter → Http.ResponseWriter) : M unit :=
  λ s, (tt, {| w := f (w s); σ := σ s |}).
Definition call (c : Call) : M unit :=
  world (λ σ, with_calls (calls σ ++ [c]) σ).

Definition WriteHeader (code : Z) : M unit := resp (Http.WriteHeader code).
Definition Write (b : string) : M unit := resp (Http.Write b).
Definition SetHeader (k v : string) : M unit := resp (Http.SetHeader k v).

(** Run a handler on a fresh response writer. *)
Definition run {A} (m : M A) (σ0 : World) : St :=
  (m {| w := Http.emptyResponse; σ := σ0 |}).2.

(** ** The node *)

Definition blobPrefix : string := "/.cbfs/blob/".
Definition nodePrefix : string := "/.cbfs/nodes/".
Definition metaPrefix : string := "/.cbfs/meta/".
Definition proxyPrefix : string := "/.cbfs/viewproxy/".
Definition fetchPrefix : string := "/.cbfs/fetch/".
Definition listPrefix : string := "/.cbfs/list/".
Definition configPrefix : string := "/.cbfs/config/".
Definition zipPrefix : string := "/.cbfs/zip/".
Definition fsckPrefix : string := "/.cbfs/fsck/".

Definition newline : string := String (Ascii.ascii_of_nat 10) EmptyString.

(** a value between double quotes, as in an entity tag *)
Definition dquote : string := String (Ascii.ascii_of_nat 34) EmptyString.
Definition quoted (s : string) : string := dquote +:+ s +:+ dquote.

(** [%v] of a Go [error] *)
Definition fmtErr (e : option string) : string := default "<nil>" e.

(** the key of the Ownership Record of [oid] *)
Definition oidkey (oid : string) : string := "/" +:+ oid.

(** keep the last [n] elements *)
Definition keepLast {A} (n : nat) (l : list A) : list A :=
  drop (length l - n)%nat l.

(** ** Sample data *)

Module Sample.

(** a stand-in digest: the length of the content behind a letter *)
Definition hashOf (s : string) : string :=
  "d" +:+ pretty (Z.of_nat (String.length s)).

Definition serverId : string := "n1".

Definition decodeRaw (s : string) : string + string :=
  if bool_decide (s = "") then inl "EOF" else inr s.

Definition decodeConfig (s : string) : string + CBFSConfig :=
  if bool_decide (s = "") then inl "EOF"
  else inr {| DefaultVersionCount := 3; MinReplicas := 2 |}.

Definition formatTime (t : Z) : string := pretty t.

Definition detectContentType (name content : string) : string :=
  "application/octet-stream".

(** nothing fails, no peers *)
Definition quiet : Env :=
  {| now := 7200 * 1000000000; randIntn100 := 0; freeSpace := 1000;
     tmpErr := None; copyErr := None; linkErr := None; getErr := None;
     ownershipErr := None; storeMetaErr := None; setErr := None;
     deleteErr := None; storeConfigErr := None; updateConfigErr := None;
     remoteNodes := inr []; newRequestErr := None;
     peerPost := inl "no peer"; liveNodes := [];
     peerGet := λ _, inl "no peer" |}.

(** one peer, whose answer to the replication POST is [p] *)
Definition withPeer (p : string + PostResponse) : Env :=
  {| now := now quiet; randIntn100 := 0; freeSpace := 1000;
     tmpErr := None; copyErr := None; linkErr := None; getErr := None;
     ownershipErr := None; storeMetaErr := None; setErr := None;
     deleteErr := None; storeConfigErr := None; updateConfigErr := None;
     remoteNodes := inr ["n2:8484"]; newRequestErr := None;
     peerPost := p; liveNodes := ["n2:8484"];
     peerGet := λ _, inl "no peer" |}.

(** a read miss: the peer [n2] serves five bytes; the draw and the free
    space are given *)
Definition miss (draw space : Z) : Env :=
  {| now := now quiet; randIntn100 := draw; freeSpace := space;
     tmpErr := None; copyErr := None; linkErr := None; getErr := None;
     ownershipErr := None; storeMetaErr := None; setErr := None;
     deleteErr := None; storeConfigErr := None; updateConfigErr := None;
     remoteNodes := inr []; newRequestErr := None;
     peerPost := inl "no peer"; liveNodes := ["n2"];
     peerGet := λ _, inr {| getStatusCode := 200; getStatus := "200 OK";
                            getBody := "hello"; getBodyErr := None |} |}.

(** a peer that answers the replication POST with 500 *)
Definition peerRefuses : PostResponse :=
  {| postStatusCode := 500; postStatus := "500 Internal Server Error";
     postHash := ""; postBodyErr := None |}.

(** what the replication task then reports first *)
Definition refused : storInfo :=
  {| node := "n2:8484"; hs := ""; err := Some "500 Internal Server Error" |}.

(** every request with a precondition or a range is taken as not
    modified *)
Definition serveConditional (req : Http.Request) (name : string) (modtime : Z)
    (content : string) (w : Http.ResponseWriter) : Http.ResponseWriter :=
  Http.WriteHeader 304 w.

(** the handlers left out answer nothing *)
Definition elsewhere : Http.Request → M unit := λ _, mret tt.
Definition elsewhere2 : Http.Request → string → M unit := λ _ _, mret tt.

Definition config : CBFSConfig :=
  {| DefaultVersionCount := 3; MinReplicas := 1 |}.

Definition empty : World :=
  {| files := ∅; owners := ∅; storedConfig := None; globalConfig := config;
     blobs := ∅; tmpfiles := ∅; fetchQueue := []; calls := [] |}.

Definition request (method path : string) (hdr : Http.Header)
    (form : gmap string (list string)) (body : string) : Http.Request :=
  {| Http.Method := method; Http.URLPath := path; Http.ReqHeader := hdr;
     Http.Form := form; Http.Body := body |}.

Definition rev1 : Rev.t :=
  {| Rev.Headers := {[ "Content-Type" := ["text/plain"] ]};
     Rev.OID := "d3"; Rev.Modified := 10; Rev.Revno := 1 |}.

(** the record of a path at its second revision *)
Definition meta2 : fileMeta :=
  {| Headers := {[ "Content-Type" := ["text/html"] ]}; OID := "d5";
     Length := 5; Userdata := None; Modified := 20; Revno := 2;
     Previous := [rev1] |}.

(** a world where path [p] is at revision 2 and both blobs are local *)
Definition stored : World :=
  with_blobs {[ "d5" := "hello"; "d3" := "abc" ]}
    (with_files {[ "p" := meta2 ]} empty).

(** the Ownership Record of digest [d5]: five bytes, node [n2] at [t] *)
Definition ownedAt (t : Z) : World :=
  with_owners
    {[ "/d5" := {| Ownership.Length := 5;
                   Ownership.Nodes := {[ "n2" := t ]} |} ]} stored.

(** the same, on a node that does not hold the blob *)
Definition missing : World := with_blobs ∅ (ownedAt 0).

(** a read miss whose peer [n2] breaks off after two bytes *)
Definition broken (draw space : Z) : Env :=
  {| now := now quiet; randIntn100 := draw; freeSpace := space;
     tmpErr := None; copyErr := None; linkErr := None; getErr := None;
     ownershipErr := None; storeMetaErr := None; setErr := None;
     deleteErr := None; storeConfigErr := None; updateConfigErr := None;
     remoteNodes := inr []; newRequestErr := None;
     peerPost := inl "no peer"; liveNodes := ["n2"];
     peerGet := λ _, inr {| getStatusCode := 200; getStatus := "200 OK";
                            getBody := "he";
                            getBodyErr := Some "unexpected EOF" |} |}.

(** a peer that stored the upload under the digest [h] *)
Definition peerStored (h : string) : PostResponse :=
  {| postStatusCode := 201; postStatus := "201 Created";
     postHash := h; postBodyErr := None |}.

(** an empty node under a configuration that asks for three replicas *)
Definition threefold : World :=
  with_globalConfig {| DefaultVersionCount := 3; MinReplicas := 3 |} empty.

End Sample.

Section Node.

(** the outcome of what the outside decides during the request *)
Variable ρ : Env.
(** [getHash()]: the digest of a byte string, in lowercase hex *)
Variable hashOf : string → string.
(** this node's id *)
Variable serverId : string.
(** the flags [*cachePercentage] and [*enableViewProxy] *)
Variable cachePercentage : Z.
Variable enableViewProxy : bool.
(** [json.Decoder.Decode] into a [json.RawMessage] and into a config *)
Variable decodeRaw : string → string + string.
Variable decodeConfig : string → string + CBFSConfig.
(** [t.UTC().Format(http.TimeFormat)] *)
Variable formatTime : Z → string.
(** the content type that net/http deduces for a response without one:
    [mime.TypeByExtension] of the name's extension and, failing that,
    [http.DetectContentType] of the first block of the content *)
Variable detectContentType : string → string → string.
(** what [http.ServeContent] answers to a request with a precondition or
    a range (304, 412, 206, 416, or the content), given the response
    prepared so far; net/http decides it, from the entity tag and the
    modification time *)
Variable serveConditional
  : Http.Request → string → Z → string →
    Http.ResponseWriter → Http.ResponseWriter.

(** *** The metadata store, as the handlers use it *)

(** [couchbase.Get(path, &got)] and [couchbase.Gets] on a File Metadata
    document: an error when the read fails or the key is absent. *)
Definition couchbase_Get (path : string) : M (string + fileMeta) :=
  σ ← getWorld;
  mret (match getErr ρ with
        | Some e => inl e
        | None => match files σ !! path with
                  | Some got => inr got
                  | None => inl "Not found"
                  end
        end).

(** [couchbase.Get(oidkey, &ownership)] on an Ownership Record *)
Definition couchbase_GetOwnership (key : string) : M (string + Ownership.t) :=
  σ ← getWorld;
  mret (match getErr ρ with
        | Some e => inl e
        | None => match owners σ !! key with
                  | Some o => inr o
                  | None => inl "Not found"
                  end
        end).

(** the CAS SET of [putMeta] *)
Definition couchbase_Set (path : string) (got : fileMeta) : M (option string) :=
  match setErr ρ with
  | Some e => mret (Some e)
  | None => world (λ σ, with_files (<[path := got]> (files σ)) σ);; mret None
  end.

(** [couchbase.Delete(path)] *)
Definition couchbase_Delete (path : string) : M (option string) :=
  σ ← getWorld;
  match deleteErr ρ with
  | Some e => mret (Some e)
  | None =>
      match files σ !! path with
      | None => mret (Some "Not found")
      | Some _ =>
          world (λ σ, with_files (delete path (files σ)) σ);; mret None
      end
  end.

(** *** Digest Writer *)

Definition dropTmp (f : hashRecord) : M unit :=
  world (λ σ, with_tmpfiles (delete (tmpf f) (tmpfiles σ)) σ).

(** Modelled from the spec: [NewHashRecord(root, expected)] of the Digest
    Writer, which is not in http.go (section 4.1, [new]): opens a fresh
    temp file under the blob root. *)
Definition NewHashRecord (expected : string) : M (string + hashRecord) :=
  call (NewHashRecord_ expected);;
  match tmpErr ρ with
  | Some e => mret (inl e)
  | None =>
      σ ← getWorld;
      let name := fresh (dom (tmpfiles σ)) in
      world (λ σ, with_tmpfiles (<[name := ""]> (tmpfiles σ)) σ);;
      mret (inr {| tmpf := name; hashin := expected |})
  end.

(** Modelled from the spec: a write into the Digest Writer, which is not in
    http.go: the bytes go to the temp file and into the running hash. *)
Definition hashRecord_Write (f : hashRecord) (b : string) : M unit :=
  world (λ σ, with_tmpfiles (alter (λ c, c +:+ b) (tmpf f) (tmpfiles σ)) σ).

(** Modelled from the spec: [Finish] of the Digest Writer, which is not in
    http.go (section 4.1, [finish]): when the computed digest matches the
    expected one, or none was given, the temp file is renamed to the
    canonical path of the digest, or discarded when that path exists;
    on a mismatch the temp file is deleted and the call fails; an I/O
    error removes the temp file. *)
Definition Finish (f : hashRecord) : M (string * option string) :=
  call (Finish_ (tmpf f));;
  σ ← getWorld;
  match tmpfiles σ !! tmpf f with
  | None => mret ("", Some "no temp file")
  | Some content =>
      let hs := hashOf content in
      if bool_decide (hashin f ≠ "" ∧ hashin f ≠ hs) then
        dropTmp f;; mret ("", Some "DigestMismatch")
      else if bool_decide (is_Some (blobs σ !! hs)) then
        dropTmp f;; mret (hs, None)
      else
        match linkErr ρ with
        | Some e => dropTmp f;; mret ("", Some e)
        | None =>
            world (λ σ, with_blobs (<[hs := content]> (blobs σ)) σ);;
            dropTmp f;;
            mret (hs, None)
        end
  end.

(** Modelled from the spec: [Process(r)] of the Digest Writer, which is not
    in http.go (section 4.1, [process] then [finish]): streams [r] to the
    temp file under the running hash and, at EOF, finishes.  The put
    handlers call no [Finish] of their own, so the rename is part of
    [Process]; an I/O error removes the temp file. *)
Definition Process (f : hashRecord) (r : string) : M (string * Z * option string) :=
  call (Process_ (tmpf f));;
  match copyErr ρ with
  | Some e => dropTmp f;; mret ("", 0, Some e)
  | None =>
      hashRecord_Write f r;;
      '(hs, e) ← Finish f;
      mret (hs, Str.len r, e)
  end.

(** Modelled from the spec: [Close] of the Digest Writer, which is not in
    http.go (section 4.1, [close]): idempotent; if the writer was not
    finished, the temp file is deleted. *)
Definition Close (f : hashRecord) : M unit :=
  call (Close_ (tmpf f));; dropTmp f.

(** *** Blob Store *)

(** [os.Open(hashFilename(root, oid))]: the canonical file, if any *)
Definition openBlob (oid : string) : M (option string) :=
  σ ← getWorld; mret (blobs σ !! oid).

(** [availableSpace()] *)
Definition availableSpace : M Z :=
  call AvailableSpace_;; mret (freeSpace ρ).

(** [rand.Intn(100)] *)
Definition randIntn : M Z :=
  call RandIntn_;; mret (randIntn100 ρ).

(** Modelled from the spec: [removeObject(oid)], which is not in http.go
    (section 4.2, [delete]): removes the canonical file, [NotFound] if
    absent. *)
Definition removeObject (oid : string) : M (option string) :=
  call (RemoveObject_ oid);;
  σ ← getWorld;
  match blobs σ !! oid with
  | None => mret (Some "NotFound")
  | Some _ => world (λ σ, with_blobs (delete oid (blobs σ)) σ);; mret None
  end.

(** *** Ownership Ledger *)

(** Modelled from the spec: [recordBlobOwnership(h, length, self)], which is
    not in http.go (section 4.4, [record]): an upsert of the Ownership
    Record that adds this node with the timestamp [now] and sets
    [length]. *)
Definition recordBlobOwnership (h : string) (length : Z) (self : bool)
  : M (option string) :=
  call (RecordBlobOwnership_ h length);;
  match ownershipErr ρ with
  | Some e => mret (Some e)
  | None =>
      world (λ σ,
        let nodes := default ∅ (Ownership.Nodes <$> owners σ !! oidkey h) in
        with_owners
          (<[oidkey h :=
               {| Ownership.Length := length;
                  Ownership.Nodes :=
                    if self then <[serverId := now ρ]> nodes else nodes |}]>
             (owners σ)) σ);;
      mret None
  end.

(** [getBlobOwnership(oid)] *)
Definition getBlobOwnership (oid : string) : M (string + Ownership.t) :=
  couchbase_GetOwnership (oidkey oid).

(** Modelled from the spec: [mostRecent()], which is not in http.go
    (section 3, Ownership Record): the (node, time) pair with the
    greatest time; the zero time when no node is listed. *)
Definition mostRecent (ob : Ownership.t) : string * Z :=
  map_fold (λ n t acc, if bool_decide (acc.2 < t) then (n, t) else acc)
           ("", Time.zero) (Ownership.Nodes ob).

(** Modelled from the spec: [ResolveRemoteNodes()], which is not in http.go
    (section 4.3, [owners_of]): the record's nodes that are live, this
    node excluded, in the shuffled order of the live set. *)
Definition ResolveRemoteNodes (o : Ownership.t) : list string :=
  filter (λ n, is_Some (Ownership.Nodes o !! n) ∧ n ≠ serverId) (liveNodes ρ).

(** Modelled from the spec: [removeBlobOwnershipRecord(oid, node)], which is
    not in http.go (section 4.4, [forget]): removes one node from the
    record and deletes the record once no node is left. *)
Definition removeBlobOwnershipRecord (oid nodeid : string) : M unit :=
  call (RemoveBlobOwnershipRecord_ oid nodeid);;
  world (λ σ,
    match owners σ !! oidkey oid with
    | None => σ
    | Some o =>
        let nodes := delete nodeid (Ownership.Nodes o) in
        if bool_decide (nodes = ∅)
        then with_owners (delete (oidkey oid) (owners σ)) σ
        else with_owners
               (<[oidkey oid := {| Ownership.Length := Ownership.Length o;
                                   Ownership.Nodes := nodes |}]> (owners σ)) σ
    end).

(** *** Path metadata, fetch queue, configuration *)

Definition asPrevious (m : fileMeta) : Rev.t :=
  {| Rev.Headers := Headers m; Rev.OID := OID m;
     Rev.Modified := Modified m; Rev.Revno := Revno m |}.

(** Modelled from the spec: the record that [storeMeta] writes, which is
    not in http.go (section 3 and section 4.5 step 7): the first record
    of a path has revno 1 and no history; a later one has the next revno
    and the former record appended to [previous], trimmed to the newest
    [revs - 1] entries. *)
Definition nextMeta (old : option fileMeta) (fm : fileMeta) (revs : Z)
  : fileMeta :=
  {| Headers := Headers fm; OID := OID fm; Length := Length fm;
     Userdata := Userdata fm; Modified := Modified fm;
     Revno := match old with
              | None => 1
              | Some old => Revno old + 1
              end;
     Previous := match old with
                 | None => []
                 | Some old =>
                     keepLast (Z.to_nat (revs - 1))
                              (Previous old ++ [asPrevious old])
                 end |}.

(** Modelled from the spec: [storeMeta(path, fm, revs)], which is not in
    http.go (section 4.5 step 7): reads the existing File Metadata of
    the path and writes the next record. *)
Definition storeMeta (path : string) (fm : fileMeta) (revs : Z)
  : M (option string) :=
  call (StoreMeta_ path revs);;
  match storeMetaErr ρ with
  | Some e => mret (Some e)
  | None =>
      world (λ σ,
        with_files
          (<[path := nextMeta (files σ !! path) fm revs]> (files σ)) σ);;
      mret None
  end.

(** Modelled from the spec: [queueBlobFetch(oid, prevnode)], which is not in
    http.go (section 4.8, [enqueue]). *)
Definition queueBlobFetch (oid prevnode : string) : M unit :=
  call (QueueBlobFetch_ oid prevnode);;
  world (λ σ, with_fetchQueue (fetchQueue σ ++ [(oid, prevnode)]) σ).

(** Modelled from the spec: [conf.StoreConfig(couchbase)], which is not in
    http.go: writes the configuration document. *)
Definition StoreConfig (conf : CBFSConfig) : M (option string) :=
  match storeConfigErr ρ with
  | Some e => mret (Some e)
  | None => world (with_storedConfig (Some conf));; mret None
  end.

(** Modelled from the spec: [updateConfig()], which is not in http.go
    (section 4.9): refreshes the cached configuration from the stored
    document. *)
Definition updateConfig : M (option string) :=
  σ ← getWorld;
  match updateConfigErr ρ, storedConfig σ with
  | Some e, _ => mret (Some e)
  | None, None => mret (Some "Not found")
  | None, Some c => world (with_globalConfig c);; mret None
  end.

(** *** Replication during an upload *)

(** [altStoreFile(r)]: the reader to consume and what the replication
    task sends on its channel, in order, before closing it.  The channel
    closes empty when there is no remote node.  After a response other
    than 201 the task reports the status as an error and then, falling
    through, reports once more. *)
Definition altStoreFile (r : string) : string * list storInfo :=
  match remoteNodes ρ with
  | inr (n0 :: _) =>
      (r,
       match newRequestErr ρ with
       | Some e => [ {| node := n0; hs := ""; err := Some e |} ]
       | None =>
           match peerPost ρ with
           | inr presp =>
               (if bool_decide (postStatusCode presp ≠ 201)
                then [ {| node := n0; hs := "";
                          err := Some (postStatus presp) |} ]
                else []) ++
               [ {| node := n0;
                    hs := match postBodyErr presp with
                          | None => postHash presp
                          | Some _ => ""
                          end;
                    err := None |} ]
           | inl e => [ {| node := n0; hs := ""; err := Some e |} ]
           end
       end)
  | _ => (r, [])
  end.

(** [si, hasStuff := <-bgch] *)
Definition recv (bgch : list storInfo) : M (option storInfo) :=
  call (AwaitPeer_ (head bgch));; mret (head bgch).

(** *** Serving content *)

(** [http.ServeContent(w, req, name, modtime, content)], as net/http
    documents it.  To a request without If-Match, If-Unmodified-Since,
    If-None-Match, If-Modified-Since and Range it sends the content
    with status 200 (to a HEAD, the headers only), after setting
    Last-Modified unless [modtime] is the zero time or the Unix epoch,
    the deduced Content-Type when the response has none, Accept-Ranges,
    and Content-Length unless a Content-Encoding is set.  Its answer to
    a request with one of those headers is [serveConditional]. *)
Definition ServeContent (req : Http.Request) (name : string) (modtime : Z)
    (content : string) : M unit :=
  resp (λ w,
    let w' :=
      if bool_decide (Http.unconditional req) then
        let w1 :=
          if bool_decide (modtime = Time.zero ∨ modtime = 0) then w
          else Http.SetHeader "Last-Modified" (formatTime modtime) w in
        let w2 :=
          if bool_decide (is_Some (Http.header w1 !! "Content-Type")) then w1
          else Http.SetHeader "Content-Type"
                 (detectContentType name content) w1 in
        let w3 := Http.SetHeader "Accept-Ranges" "bytes" w2 in
        let w4 :=
          if bool_decide (Http.Get (Http.header w3) "Content-Encoding" = "")
          then Http.SetHeader "Content-Length"
                 (Strconv.Itoa (Str.len content)) w3
          else w3 in
        let w5 := Http.WriteHeader 200 w4 in
        if bool_decide (Http.Method req = "HEAD") then w5
        else Http.Write content w5
      else serveConditional req name modtime content w in
    {| Http.status := Http.status w'; Http.header := Http.header w';
       Http.body := Http.body w';
       Http.served := Some {| Http.srvName := name;
                              Http.srvModtime := modtime;
                              Http.srvContent := content |} |}).
#[global] Arguments ServeContent : simpl never.

(** *** Helpers of the handlers *)

Definition minusPrefix (s prefix : string) : string :=
  Str.drop (String.length prefix) s.

Definition isResponseHeader (s : string) : bool :=
  bool_decide (s = "Content-Type") || bool_decide (s = "Content-Length").

(** [for k, v := range hdr { if isResponseHeader(k) { w.Header()[k] = v } }] *)
Definition copyResponseHeaders (hdr : Http.Header) : M unit :=
  resp (λ w, {| Http.status := Http.status w;
                Http.header :=
                  filter (λ kv, isResponseHeader kv.1 = true) hdr ∪ Http.header w;
                Http.body := Http.body w;
                Http.served := Http.served w |}).

Fixpoint stripSlashes (path : string) : string :=
  match path with
  | String "/"%char rest => stripSlashes rest
  | _ => path
  end.

Definition resolvePath (req : Http.Request) : string :=
  let path := stripSlashes (Http.URLPath req) in
  if bool_decide (Str.last path = Some "/"%char) then path +:+ "index.html"
  else if bool_decide (path = "") then "index.html"
  else path.

(** *** PUT *)

Definition doPostRawBlob (req : Http.Request) : M unit :=
  f ← NewHashRecord "";
  match f with
  | inl e => WriteHeader 500;; Write e
  | inr f =>
      ('(sh, length, err) ← Process f (Http.Body req);
       match err with
       | Some e => WriteHeader 500;; Write e
       | None =>
           err ← recordBlobOwnership sh length true;
           match err with
           | Some e =>
               WriteHeader 500;;
               Write ("Error recording blob ownership: " +:+ e)
           | None => SetHeader "X-CBFS-Hash" sh;; WriteHeader 201
           end
       end);;
      Close f
  end.

Definition putUserFile (req : Http.Request) : M unit :=
  if Str.Contains (Http.URLPath req) "//" then
    WriteHeader 400;;
    Write ("Too many slashes in the path name: " +:+ Http.URLPath req)
  else
    f ← NewHashRecord (Http.Get (Http.ReqHeader req) "X-CBFS-Hash");
    match f with
    | inl e => WriteHeader 500
    | inr f =>
        (let '(r, bgch) := altStoreFile (Http.Body req) in
         '(h, length, perr) ← Process f r;
         match perr with
         | Some e =>
             WriteHeader 500;;
             Write ("Error completing blob write: " +:+ e)
         | None =>
             let fm := {| Headers := Http.ReqHeader req; OID := h;
                          Length := length; Userdata := None;
                          Modified := now ρ; Revno := 0;
                          Previous := [] |} in
             (* after the check of the replication result *)
             let commit : M unit :=
               σ ← getWorld;
               let revs :=
                 let rheader := Http.Get (Http.ReqHeader req) "X-CBFS-KeepRevs" in
                 if bool_decide (rheader ≠ "") then
                   default (DefaultVersionCount (globalConfig σ))
                           (Strconv.Atoi rheader)
                 else DefaultVersionCount (globalConfig σ) in
               merr ← storeMeta (resolvePath req) fm revs;
               match merr with
               | Some e =>
                   WriteHeader 500;;
                   Write ("Error recording blob ownership: " +:+ e)
               | None =>
                   (if bool_decide (MinReplicas (globalConfig σ) > 2) then
                      call (Go_IncreaseReplicaCount h length
                              (MinReplicas (globalConfig σ) - 2))
                    else mret tt);;
                   WriteHeader 201
               end in
             oerr ← recordBlobOwnership h length true;
             match oerr with
             | Some e =>
                 WriteHeader 500;;
                 Write ("Error recording blob ownership: " +:+ e)
             | None =>
                 si ← recv bgch;
                 match si with
                 | Some si =>
                     if bool_decide (err si ≠ None ∨ hs si ≠ h) then
                       WriteHeader 500;;
                       Write ("Error creating secondary copy: "
                                +:+ fmtErr (err si) +:+ newline +:+ hs si)
                     else commit
                 | None => commit
                 end
             end
         end);;
        Close f
    end.

Definition putRawHash (req : Http.Request) : M unit :=
  let inputhash := minusPrefix (Http.URLPath req) blobPrefix in
  if bool_decide (inputhash = "") then
    WriteHeader 400;; Write "No oid specified"
  else
    f ← NewHashRecord inputhash;
    match f with
    | inl e => WriteHeader 500;; Write e
    | inr f =>
        ('(sh, length, err) ← Process f (Http.Body req);
         match err with
         | Some e => WriteHeader 500;; Write e
         | None =>
             err ← recordBlobOwnership inputhash length true;
             match err with
             | Some e =>
                 WriteHeader 500;;
                 Write ("Error recording blob ownership: " +:+ e)
             | None => SetHeader "X-CBFS-Hash" sh;; WriteHeader 201
             end
         end);;
        Close f
    end.

Definition putConfig (req : Http.Request) : M unit :=
  match decodeConfig (Http.Body req) with
  | inl e => WriteHeader 500;; Write ("Error reading config: " +:+ e)
  | inr conf =>
      err ← StoreConfig conf;
      match err with
      | Some e => WriteHeader 500;; Write ("Error writing config: " +:+ e)
      | None => updateConfig;; WriteHeader 204
      end
  end.

Definition putMeta (req : Http.Request) (path : string) : M unit :=
  got ← couchbase_Get path;
  match got with
  | inl e => WriteHeader 404;; Write e
  | inr got =>
      match decodeRaw (Http.Body req) with
      | inl e => WriteHeader 400;; Write e
      | inr r =>
          let got := {| Headers := Headers got; OID := OID got;
                        Length := Length got; Userdata := Some r;
                        Modified := Modified got; Revno := Revno got;
                        Previous := Previous got |} in
          err ← couchbase_Set path got;
          match err with
          | None => WriteHeader 201
          | Some e => WriteHeader 500;; Write e
          end
      end
  end.

Definition doPut (req : Http.Request) : M unit :=
  if bool_decide (Http.URLPath req = configPrefix) then putConfig req
  else if Str.HasPrefix (Http.URLPath req) blobPrefix then putRawHash req
  else if Str.HasPrefix (Http.URLPath req) metaPrefix then
    putMeta req (minusPrefix (Http.URLPath req) metaPrefix)
  else if Str.HasPrefix (Http.URLPath req) "/.cbfs/" then WriteHeader 400
  else putUserFile req.

(** *** HEAD and GET *)

Definition oldestRevOf (got : fileMeta) : Z :=
  match Previous got with
  | p :: _ => Rev.Revno p
  | [] => Revno got
  end.

Definition doHead (req : Http.Request) : M unit :=
  let path := resolvePath req in
  got ← couchbase_Get path;
  match got with
  | inl e => WriteHeader 404;; Write e
  | inr got =>
      if bool_decide (Http.FormValue req "rev" ≠ "") then WriteHeader 400
      else
        copyResponseHeaders (Headers got);;
        SetHeader "X-CBFS-Revno" (Strconv.Itoa (Revno got));;
        SetHeader "X-CBFS-OldestRev" (Strconv.Itoa (oldestRevOf got));;
        SetHeader "Last-Modified" (formatTime (Modified got));;
        SetHeader "Etag" (quoted (OID got));;
        SetHeader "Content-Length" (Strconv.Itoa (Length got));;
        WriteHeader 200
  end.

(** the test of [getBlobFromRemote] that decides whether the blob is
    kept: [cachePerc == 100 || (cachePerc > rand.Intn(100) &&
    availableSpace() > uint64(ownership.Length))], evaluated left to
    right *)
Definition cacheAdmission (cachePerc : Z) (ownership : Ownership.t) : M bool :=
  if bool_decide (cachePerc = 100) then mret true
  else
    r ← randIntn;
    if bool_decide (cachePerc > r) then
      space ← availableSpace;
      mret (bool_decide (space > uint64 (Ownership.Length ownership)))
    else mret false.

(** what [getBlobFromRemote] does with the body of the peer that
    answered, after the headers: with [cache] a Digest Writer for [oid]
    is opened and, if that worked, fed along with the client; a complete
    copy is then finished and its ownership recorded in the background *)
Definition copyFromPeer (oid : string) (presp : GetResponse) (cache : bool)
  : M (option string) :=
  hw ←
    (if cache then
       f ← NewHashRecord oid;
       mret (match f with inr hw => Some hw | inl _ => None end)
     else mret None);
  (* io.Copy(writeTo, resp.Body) *)
  (match hw with
   | Some hw => hashRecord_Write hw (getBody presp)
   | None => mret tt
   end);;
  Write (getBody presp);;
  match getBodyErr presp with
  | Some e => mret (Some e)
  | None =>
      match hw with
      | Some hw =>
          '(_, ferr) ← Finish hw;
          match ferr with
          | None =>
              call (Go_RecordBlobOwnership oid (Str.len (getBody presp)))
          | Some _ => mret tt
          end
      | None => mret tt
      end;;
      mret None
  end.

(** the loop over the owners in [getBlobFromRemote] *)
Fixpoint tryNodes (oid : string) (ownership : Ownership.t)
    (respHeader : Http.Header) (cachePerc : Z) (nl : list string)
  : M (option string) :=
  match nl with
  | [] =>
      WriteHeader 500;;
      Write ("Cannot locate blob " +:+ oid);;
      mret (Some ("Can't locate blob " +:+ oid))
  | sid :: nl' =>
      match peerGet ρ sid with
      | inl _ => tryNodes oid ownership respHeader cachePerc nl'
      | inr presp =>
          if bool_decide (getStatusCode presp ≠ 200) then
            tryNodes oid ownership respHeader cachePerc nl'
          else
            copyResponseHeaders respHeader;;
            WriteHeader 200;;
            cache ← cacheAdmission cachePerc ownership;
            copyFromPeer oid presp cache
      end
  end.

Definition getBlobFromRemote (oid : string) (respHeader : Http.Header)
    (cachePerc : Z) : M (option string) :=
  ownership ← couchbase_GetOwnership (oidkey oid);
  match ownership with
  | inl e => WriteHeader 404;; mret (Some e)
  | inr ownership =>
      tryNodes oid ownership respHeader cachePerc
               (ResolveRemoteNodes ownership)
  end.

(** the revision of [got.Previous] that the loop of [doGetUserDoc] stops
    at: the first with the revno asked for *)
Definition findRev (revno : Z) (previous : list Rev.t) : option Rev.t :=
  find (λ rev, bool_decide (Rev.Revno rev = revno)) previous.

(** the end of [doGetUserDoc], from [os.Open] on: the blob [oid] is
    served from the local file, or from a peer when it is not there *)
Definition serveBlob (req : Http.Request) (path oid : string)
    (respHeaders : Http.Header) (modified : Z) : M unit :=
  f ← openBlob oid;
  match f with
  | None => getBlobFromRemote oid respHeaders cachePercentage;; mret tt
  | Some content =>
      copyResponseHeaders respHeaders;;
      SetHeader "Etag" (quoted oid);;
      call (Go_RecordBlobAccess oid);;
      ServeContent req path modified content
  end.

Definition doGetUserDoc (req : Http.Request) : M unit :=
  let path := resolvePath req in
  got ← couchbase_Get path;
  match got with
  | inl e => WriteHeader 404;; Write e
  | inr got =>
      let oldestRev := oldestRevOf got in
      (* what follows the selection of the revision *)
      let answer (oid : string) (respHeaders : Http.Header)
                 (modified revno : Z) : M unit :=
        SetHeader "X-CBFS-Revno" (Strconv.Itoa revno);;
        SetHeader "X-CBFS-OldestRev" (Strconv.Itoa oldestRev);;
        let inm := Http.Get (Http.ReqHeader req) "If-None-Match" in
        if bool_decide (Str.len inm > 2) && bool_decide (OID got = Str.inner inm)
        then WriteHeader 304
        else serveBlob req path oid respHeaders modified in
      let revnoStr := Http.FormValue req "rev" in
      if bool_decide (revnoStr ≠ "") then
        match Strconv.Atoi revnoStr with
        | None => WriteHeader 400;; Write "Invalid revno"
        | Some revno =>
            let found := findRev revno (Previous got) in
            let oid := default "" (Rev.OID <$> found) in
            if bool_decide (oid = "") then
              WriteHeader 410;;
              Write ("Don't have this file with rev " +:+ Strconv.Itoa revno)
            else
              answer oid
                     (default (Headers got) (Rev.Headers <$> found))
                     (default (Modified got) (Rev.Modified <$> found))
                     revno
        end
      else answer (OID got) (Headers got) (Modified got) (Revno got)
  end.

Definition doServeRawBlob (req : Http.Request) (oid : string) : M unit :=
  f ← openBlob oid;
  match f with
  | None =>
      WriteHeader 404;;
      Write "Error opening blob: no such file";;
      removeBlobOwnershipRecord oid serverId
  | Some content =>
      SetHeader "Content-Type" "application/octet-stream";;
      call (Go_RecordBlobAccess oid);;
      ServeContent req "" Time.zero content
  end.

Definition doGetMeta (req : Http.Request) (path : string) : M unit :=
  got ← couchbase_Get path;
  match got with
  | inl e => WriteHeader 404;; Write e
  | inr got =>
      SetHeader "Content-Type" "application/json";;
      WriteHeader 200;;
      Write (default "{}" (Userdata got))
  end.

Definition doFetchDoc (req : Http.Request) (path : string) : M unit :=
  ownership ← couchbase_GetOwnership (oidkey path);
  match ownership with
  | inl _ => WriteHeader 404
  | inr ownership =>
      space ← availableSpace;
      if bool_decide (space < uint64 (Ownership.Length ownership)) then
        WriteHeader 500;; Write "No free space available."
      else
        queueBlobFetch path (Http.Get (Http.ReqHeader req) "X-Prevnode");;
        WriteHeader 202
  end.

(** The handlers of GET that the properties below do not look into:
    [doList], [doListNodes], [doGetConfig], [proxyViewRequest],
    [doListDocs], [doZipDocs], [dofsck]. *)
Variable doList doListNodes doGetConfig : Http.Request → M unit.
Variable proxyViewRequest doListDocs doZipDocs dofsck
  : Http.Request → string → M unit.

Definition doGet (req : Http.Request) : M unit :=
  let p := Http.URLPath req in
  if bool_decide (p = blobPrefix) then doList req
  else if bool_decide (p = nodePrefix) then doListNodes req
  else if bool_decide (p = configPrefix) then doGetConfig req
  else if Str.HasPrefix p fetchPrefix then
    doFetchDoc req (minusPrefix p fetchPrefix)
  else if Str.HasPrefix p metaPrefix then
    doGetMeta req (minusPrefix p metaPrefix)
  else if Str.HasPrefix p blobPrefix then
    doServeRawBlob req (minusPrefix p blobPrefix)
  else if enableViewProxy && Str.HasPrefix p proxyPrefix then
    proxyViewRequest req (minusPrefix p proxyPrefix)
  else if Str.HasPrefix p listPrefix then
    doListDocs req (minusPrefix p listPrefix)
  else if Str.HasPrefix p zipPrefix then
    doZipDocs req (minusPrefix p zipPrefix)
  else if Str.HasPrefix p fsckPrefix then
    dofsck req (minusPrefix p fsckPrefix)
  else if Str.HasPrefix p "/.cbfs/" then WriteHeader 400
  else doGetUserDoc req.

(** *** DELETE and POST *)

Definition doDeleteOID (req : Http.Request) : M unit :=
  let oid := minusPrefix (Http.URLPath req) blobPrefix in
  ob ← getBlobOwnership oid;
  let recent :=
    match ob with
    | inr ob =>
        let '(n, t) := mostRecent ob in
        bool_decide (Time.Since (now ρ) t < Time.Hour)
    | inl _ => false
    end in
  if recent then WriteHeader 400
  else
    rerr ← removeObject oid;
    match rerr with
    | None => WriteHeader 204
    | Some e => WriteHeader 404;; Write e
    end.

Definition doDeleteUserDoc (req : Http.Request) : M unit :=
  derr ← couchbase_Delete (resolvePath req);
  match derr with
  | None => WriteHeader 204
  | Some e => WriteHeader 404;; Write e
  end.

Definition doDelete (req : Http.Request) : M unit :=
  if Str.HasPrefix (Http.URLPath req) blobPrefix then doDeleteOID req
  else if Str.HasPrefix (Http.URLPath req) "/.cbfs/" then WriteHeader 400
  else doDeleteUserDoc req.

Definition StatusMethodNotAllowed : Z := 405.

Definition doPost (req : Http.Request) : M unit :=
  if bool_decide (Http.URLPath req = blobPrefix) then doPostRawBlob req
  else WriteHeader StatusMethodNotAllowed.

Definition httpHandler (req : Http.Request) : M unit :=
  if bool_decide (Http.Method req = "PUT") then doPut req
  else if bool_decide (Http.Method req = "POST") then doPost req
  else if bool_decide (Http.Method req = "GET") then doGet req
  else if bool_decide (Http.Method req = "HEAD") then doHead req
  else if bool_decide (Http.Method req = "DELETE") then doDelete req
  else WriteHeader StatusMethodNotAllowed.

(** *** Notions used by the properties *)

(** the calls made by [m] when started in [σ0] *)
Definition callsOf {A} (m : M A) (σ0 : World) : list Call :=
  drop (length (calls σ0)) (calls (σ (run m σ0))).

(** what a collaborator leaves alone: the response and the metadata *)
Definition frame (s s' : St) : Prop :=
  w s' = w s ∧ files (σ s') = files (σ s) ∧ owners (σ s') = owners (σ s) ∧
  storedConfig (σ s') = storedConfig (σ s) ∧
  globalConfig (σ s') = globalConfig (σ s) ∧
  fetchQueue (σ s') = fetchQueue (σ s).

(** the request's entity tag names the record's current digest *)
Definition inmMatches (req : Http.Request) (got : fileMeta) : Prop :=
  Str.len (Http.Get (Http.ReqHeader req) "If-None-Match") > 2 ∧
  OID got = Str.inner (Http.Get (Http.ReqHeader req) "If-None-Match").

(** the local write of [body] under the expected digest [x] goes
    through: no I/O error, the digest is the expected one if one was
    given, and the rename works or the blob is there already *)
Definition localWriteOK (x body : string) (σ0 : World) : Prop :=
  tmpErr ρ = None ∧ copyErr ρ = None ∧
  (x = "" ∨ x = hashOf body) ∧
  (is_Some (blobs σ0 !! hashOf body) ∨ linkErr ρ = None).

(** the replication result, if the task sent one, is free of error
    and carries the digest of [body] *)
Definition replicaOK (body : string) : Prop :=
  ∀ si, head (altStoreFile body).2 = Some si →
        err si = None ∧ hs si = hashOf body.

(** *** Properties *)

(** **** Dispatch *)

Lemma HasPrefix_trans p q r :
  Str.HasPrefix p q = true → Str.HasPrefix q r = true →
  Str.HasPrefix p r = true.
Proof.
  revert p q. induction r as [|c r IH]; intros p q Hpq Hqr; [done|].
  destruct q as [|d q]; simpl in Hpq, Hqr |- *; [done|].
  destruct p as [|e p]; simpl in Hpq |- *; [done|].
  destruct (Ascii.eqb_spec c d) as [->|]; [|done].
  destruct (Ascii.eqb_spec d e) as [->|]; [|done].
  eauto.
Qed.

Lemma HasPrefix_refl s t : Str.HasPrefix (s +:+ t) s = true.
Proof.
  induction s as [|c s IH]; simpl; [done|].
  by rewrite Ascii.eqb_refl.
Qed.

Lemma HasPrefix_self s : Str.HasPrefix s s = true.
Proof.
  induction s as [|c s IH]; simpl; [done|].
  by rewrite Ascii.eqb_refl.
Qed.

(** a user path starts with none of the reserved prefixes *)
Lemma user_path_not_reserved p q :
  Str.HasPrefix q "/.cbfs/" = true →
  Str.HasPrefix p "/.cbfs/" = false →
  Str.HasPrefix p q = false.
Proof.
  intros Hq Hp. destruct (Str.HasPrefix p q) eqn:E; [|done].
  rewrite (HasPrefix_trans _ _ _ E Hq) in Hp. done.
Qed.

Lemma user_path_neq p q :
  Str.HasPrefix q "/.cbfs/" = true →
  Str.HasPrefix p "/.cbfs/" = false →
  p ≠ q.
Proof.
  intros Hq Hp ->. congruence.
Qed.

Lemma minusPrefix_app prefix s : minusPrefix (prefix +:+ s) prefix = s.
Proof. unfold minusPrefix. induction prefix; simpl; auto. Qed.

Lemma httpHandler_PUT req :
  Http.Method req = "PUT" → httpHandler req = doPut req.
Proof. unfold httpHandler. intros ->. done. Qed.

Lemma httpHandler_GET req :
  Http.Method req = "GET" → httpHandler req = doGet req.
Proof. unfold httpHandler. intros ->. done. Qed.

Lemma httpHandler_HEAD req :
  Http.Method req = "HEAD" → httpHandler req = doHead req.
Proof. unfold httpHandler. intros ->. done. Qed.

Lemma httpHandler_DELETE req :
  Http.Method req = "DELETE" → httpHandler req = doDelete req.
Proof. unfold httpHandler. intros ->. done. Qed.

Lemma doPut_user req :
  Str.HasPrefix (Http.URLPath req) "/.cbfs/" = false →
  doPut req = putUserFile req.
Proof.
  intros Hp. unfold doPut.
  rewrite bool_decide_eq_false_2 by (by apply user_path_neq).
  rewrite (user_path_not_reserved _ blobPrefix eq_refl Hp).
  rewrite (user_path_not_reserved _ metaPrefix eq_refl Hp).
  by rewrite Hp.
Qed.

Lemma doPut_blob req h :
  Http.URLPath req = blobPrefix +:+ h → doPut req = putRawHash req.
Proof.
  intros Hp. unfold doPut. rewrite Hp.
  rewrite bool_decide_eq_false_2 by discriminate.
  by rewrite HasPrefix_refl.
Qed.

Lemma doPut_meta req path :
  Http.URLPath req = metaPrefix +:+ path → doPut req = putMeta req path.
Proof.
  intros Hp. unfold doPut. rewrite Hp.
  rewrite bool_decide_eq_false_2 by discriminate.
  rewrite HasPrefix_refl, minusPrefix_app. done.
Qed.

Lemma doPut_config req :
  Http.URLPath req = configPrefix → doPut req = putConfig req.
Proof.
  intros Hp. unfold doPut. by rewrite bool_decide_eq_true_2.
Qed.

Lemma doGet_user req :
  Str.HasPrefix (Http.URLPath req) "/.cbfs/" = false →
  doGet req = doGetUserDoc req.
Proof.
  intros Hp. unfold doGet.
  rewrite !bool_decide_eq_false_2 by (by apply user_path_neq).
  rewrite (user_path_not_reserved _ fetchPrefix eq_refl Hp).
  rewrite (user_path_not_reserved _ metaPrefix eq_refl Hp).
  rewrite (user_path_not_reserved _ blobPrefix eq_refl Hp).
  rewrite (user_path_not_reserved _ proxyPrefix eq_refl Hp).
  rewrite (user_path_not_reserved _ listPrefix eq_refl Hp).
  rewrite (user_path_not_reserved _ zipPrefix eq_refl Hp).
  rewrite (user_path_not_reserved _ fsckPrefix eq_refl Hp).
  by rewrite Hp, andb_false_r.
Qed.

Lemma doGet_fetch req oid :
  Http.URLPath req = fetchPrefix +:+ oid →
  doGet req = doFetchDoc req oid.
Proof.
  intros Hp. unfold doGet. rewrite Hp.
  rewrite !bool_decide_eq_false_2 by discriminate.
  by rewrite HasPrefix_refl, minusPrefix_app.
Qed.

Lemma doDelete_blob req oid :
  Http.URLPath req = blobPrefix +:+ oid → doDelete req = doDeleteOID req.
Proof.
  intros Hp. unfold doDelete. by rewrite Hp, HasPrefix_refl.
Qed.

(** **** Digest Writer *)

(** forget the parameters of the node that the statement does not
    mention *)
Ltac forget_unused :=
  repeat match goal with
         | v : _ |- _ => clear v
         end.

(** run the computation in the goal, or in a hypothesis, as far as it
    is determined *)
Ltac exec :=
  repeat progress
    (cbn;
     unfold mbind, mret, M_bind, M_ret, WriteHeader, Write, SetHeader,
       resp, world, call, getWorld).

Ltac exec_in H :=
  repeat progress
    (cbn in H;
     unfold mbind, mret, M_bind, M_ret, WriteHeader, Write, SetHeader,
       resp, world, call, getWorld in H).

Ltac case_bd_goal :=
  match goal with
  | |- context [bool_decide ?P] =>
      let E := fresh "E" in
      destruct (bool_decide_reflect P) as [E|E]
  end.

Ltac case_bd H :=
  match goal with
  | |- context [bool_decide ?P] =>
      destruct (bool_decide_reflect P) as [H|H]
  end.

Lemma fresh_tmp (T : gmap nat string) : T !! fresh (dom T) = None.
Proof. apply not_elem_of_dom, is_fresh. Qed.

Lemma NewHashRecord_ok x s :
  tmpErr ρ = None →
  NewHashRecord x s =
    (inr {| tmpf := fresh (dom (tmpfiles (σ s))); hashin := x |},
     {| w := w s;
        σ := with_tmpfiles (<[fresh (dom (tmpfiles (σ s))) := ""]> (tmpfiles (σ s)))
               (with_calls (calls (σ s) ++ [NewHashRecord_ x]) (σ s)) |}).
Proof. intros E. unfold NewHashRecord. rewrite E. reflexivity. Qed.

Lemma NewHashRecord_err x s e :
  tmpErr ρ = Some e →
  NewHashRecord x s =
    (inl e, {| w := w s; σ := with_calls (calls (σ s) ++ [NewHashRecord_ x]) (σ s) |}).
Proof. intros E. unfold NewHashRecord. rewrite E. reflexivity. Qed.

Lemma Process_spec n x r s :
  tmpfiles (σ s) !! n = Some "" →
  ∃ hs len oerr s',
    Process {| tmpf := n; hashin := x |} r s = ((hs, len, oerr), s') ∧
    frame s s' ∧
    tmpfiles (σ s') = delete n (tmpfiles (σ s)) ∧
    match oerr with
    | None =>
        hs = hashOf r ∧ len = Str.len r ∧ (x = "" ∨ x = hashOf r) ∧
        blobs (σ s') !! hashOf r =
          Some (default r (blobs (σ s) !! hashOf r)) ∧
        calls (σ s') = calls (σ s) ++ [Process_ n; Finish_ n]
    | Some _ =>
        blobs (σ s') = blobs (σ s) ∧
        (calls (σ s') = calls (σ s) ++ [Process_ n] ∨
         calls (σ s') = calls (σ s) ++ [Process_ n; Finish_ n])
    end.
Proof.
  intros Hn. unfold Process, Finish, hashRecord_Write, dropTmp, frame. exec.
  destruct (copyErr ρ) as [e|]; exec.
  { eexists _, _, _, _. split; [reflexivity|]. cbn.
    repeat split. by left. }
  rewrite lookup_alter_eq, Hn. exec. change ("" +:+ r) with r.
  case_bd Hx; exec.
  { eexists _, _, _, _. split; [reflexivity|]. cbn.
    rewrite delete_alter_eq.
    rewrite <- app_assoc. repeat split. by right. }
  case_bd Hb; exec.
  { eexists _, _, _, _. split; [reflexivity|]. cbn.
    rewrite delete_alter_eq. destruct Hb as [c Hb]. rewrite Hb.
    rewrite <- app_assoc.
    repeat split; try done.
    destruct (decide (x = "")); [by left|right].
    destruct (decide (x = hashOf r)); [done|]. destruct Hx. done. }
  destruct (linkErr ρ) as [e|]; exec.
  { eexists _, _, _, _. split; [reflexivity|]. cbn.
    rewrite delete_alter_eq.
    rewrite <- app_assoc. repeat split. by right. }
  eexists _, _, _, _. split; [reflexivity|]. cbn.
  rewrite delete_alter_eq, lookup_insert_eq, <- app_assoc.
  apply eq_None_not_Some in Hb. rewrite Hb.
  repeat split; try done.
  destruct (decide (x = "")); [by left|right].
  destruct (decide (x = hashOf r)); [done|]. destruct Hx. done.
Qed.

Lemma Close_spec f s :
  Close f s =
    (tt, {| w := w s;
            σ := with_tmpfiles (delete (tmpf f) (tmpfiles (σ s)))
                   (with_calls (calls (σ s) ++ [Close_ (tmpf f)]) (σ s)) |}).
Proof. reflexivity. Qed.


(** **** Raw blob upload *)

Lemma tmp_restored (T : gmap nat string) :
  delete (fresh (dom T)) (delete (fresh (dom T)) (<[fresh (dom T) := ""]> T)) = T.
Proof.
  rewrite delete_delete_eq, delete_insert_eq.
  apply delete_id, fresh_tmp.
Qed.

(** C2: a PUT to /.cbfs/blob/<h> whose body does not hash to h is answered
    500, leaves no temp file behind, and writes no Ownership Record (nor
    a canonical blob). *)
Theorem put_blob_digest_mismatch req σ0 h :
  Http.Method req = "PUT" →
  Http.URLPath req = blobPrefix +:+ h →
  h ≠ "" →
  hashOf (Http.Body req) ≠ h →
  let st := run (httpHandler req) σ0 in
  Http.status (w st) = Some 500 ∧
  tmpfiles (σ st) = tmpfiles σ0 ∧
  owners (σ st) = owners σ0 ∧
  blobs (σ st) = blobs σ0.
Proof.
  intros Hm Hp Hh Hne. cbv zeta. unfold run.
  rewrite (httpHandler_PUT _ Hm), (doPut_blob _ _ Hp).
  unfold putRawHash. rewrite Hp, minusPrefix_app.
  rewrite bool_decide_eq_false_2 by done. exec.
  destruct (tmpErr ρ) as [e|] eqn:Et.
  { rewrite (NewHashRecord_err _ _ _ Et). exec. done. }
  rewrite (NewHashRecord_ok _ _ Et). exec.
  match goal with
  | |- context [Process {| tmpf := ?n; hashin := _ |} ?r ?s] =>
      destruct (Process_spec n h r s) as (hs & len & oerr & s' & HP & Hfr & Htmp & Hres);
        [cbn; apply lookup_insert_eq|]
  end.
  rewrite HP. destruct Hfr as (Hw & Hf & Ho & _).
  destruct oerr as [e|]; exec.
  - rewrite Close_spec. cbn. rewrite Hw, Htmp. cbn.
    destruct Hres as [Hb _]. rewrite Ho, Hb. cbn.
    rewrite tmp_restored. done.
  - destruct Hres as (_ & _ & [?|?] & _); congruence.
Qed.

(** **** User-path upload *)

Lemma recordBlobOwnership_spec h len s :
  recordBlobOwnership h len true s =
    match ownershipErr ρ with
    | Some e =>
        (Some e,
         {| w := w s;
            σ := with_calls (calls (σ s) ++ [RecordBlobOwnership_ h len]) (σ s) |})
    | None =>
        (None,
         {| w := w s;
            σ := with_owners
                   (<[oidkey h :=
                        {| Ownership.Length := len;
                           Ownership.Nodes :=
                             <[serverId := now ρ]>
                               (default ∅ (Ownership.Nodes <$> owners (σ s) !! oidkey h)) |}]>
                      (owners (σ s)))
                   (with_calls (calls (σ s) ++ [RecordBlobOwnership_ h len]) (σ s)) |})
    end.
Proof. unfold recordBlobOwnership. destruct (ownershipErr ρ); reflexivity. Qed.

Lemma altStoreFile_reader r : (altStoreFile r).1 = r.
Proof.
  unfold altStoreFile. destruct (remoteNodes ρ) as [?|[|? ?]]; reflexivity.
Qed.

Ltac case_bd_in H :=
  match type of H with
  | context [bool_decide ?P] =>
      let E := fresh "E" in
      destruct (bool_decide_reflect P) as [E|E]
  end.

Ltac absent H :=
  repeat (apply elem_of_cons in H as [H|H]; [discriminate H|]);
  by apply elem_of_nil in H.

(** the outcome of a user-path PUT whose replication result, received
    from the peer task, is an error or a different digest *)
Lemma putUserFile_peer_failure req σ0 si :
  AwaitPeer_ (Some si) ∈ callsOf (putUserFile req) σ0 →
  err si ≠ None ∨ hs si ≠ hashOf (Http.Body req) →
  let st := run (putUserFile req) σ0 in
  let h := hashOf (Http.Body req) in
  let n := fresh (dom (tmpfiles σ0)) in
  Http.status (w st) = Some 500 ∧
  files (σ st) = files σ0 ∧
  blobs (σ st) !! h = Some (default (Http.Body req) (blobs σ0 !! h)) ∧
  tmpfiles (σ st) = tmpfiles σ0 ∧
  owners (σ st) =
    <[oidkey h :=
        {| Ownership.Length := Str.len (Http.Body req);
           Ownership.Nodes :=
             <[serverId := now ρ]>
               (default ∅ (Ownership.Nodes <$> owners σ0 !! oidkey h)) |}]>
      (owners σ0) ∧
  callsOf (putUserFile req) σ0 =
    [NewHashRecord_ (Http.Get (Http.ReqHeader req) "X-CBFS-Hash");
     Process_ n; Finish_ n;
     RecordBlobOwnership_ h (Str.len (Http.Body req));
     AwaitPeer_ (Some si); Close_ n].
Proof.
  intros Hin Hbad. cbv zeta.
  unfold callsOf in Hin |- *. unfold run in Hin |- *.
  unfold putUserFile in Hin |- *.
  destruct (Str.Contains (Http.URLPath req) "//").
  { exec_in Hin. rewrite drop_all in Hin. absent Hin. }
  exec. exec_in Hin.
  destruct (tmpErr ρ) as [e|] eqn:Et.
  { rewrite (NewHashRecord_err _ _ _ Et) in Hin. exec_in Hin.
    rewrite drop_app_length in Hin. absent Hin. }
  rewrite (NewHashRecord_ok _ _ Et) in Hin |- *. exec. exec_in Hin.
  pose proof (altStoreFile_reader (Http.Body req)) as Hr.
  destruct (altStoreFile (Http.Body req)) as [r bgch]. cbn in Hr. subst r.
  match goal with
  | |- context [Process {| tmpf := ?n; hashin := ?x |} ?r ?s] =>
      destruct (Process_spec n x r s)
        as (hs & len & oerr & s' & HP & Hfr & Htmp & Hres);
        [cbn; apply lookup_insert_eq|]
  end.
  rewrite HP in Hin |- *. clear HP.
  destruct Hfr as (Hw & Hf & Ho & Hsc & Hgc & Hfq).
  cbn in Hw, Hf, Ho, Hsc, Hgc, Hfq, Htmp, Hres.
  destruct oerr as [e|]; exec; exec_in Hin.
  { rewrite Close_spec in Hin. cbn in Hin.
    destruct Hres as [_ [Hc|Hc]]; rewrite Hc in Hin; cbn in Hin;
      rewrite <- !app_assoc, drop_app_length in Hin; absent Hin. }
  destruct Hres as (-> & -> & Hx & Hb & Hc).
  rewrite recordBlobOwnership_spec in Hin |- *.
  destruct (ownershipErr ρ) as [e|]; exec; exec_in Hin.
  { rewrite Close_spec in Hin. cbn in Hin. rewrite Hc in Hin. cbn in Hin.
    rewrite <- !app_assoc, drop_app_length in Hin. absent Hin. }
  rewrite Hc in Hin |- *. cbn in Hin |- *.
  unfold recv in Hin |- *. exec. exec_in Hin.
  destruct (head bgch) as [si'|]; exec; exec_in Hin.
  - case_bd Hsi; exec; exec_in Hin.
    + rewrite Close_spec in Hin |- *. cbn in Hin |- *.
      rewrite <- !app_assoc, drop_app_length in Hin |- *. cbn in Hin |- *.
      assert (si' = si) as ->.
      { repeat (apply elem_of_cons in Hin as [Hin|Hin];
                [congruence || discriminate Hin|]).
        by apply elem_of_nil in Hin. }
      rewrite Hw, Hf, Ho, Htmp, Hb. cbn.
      rewrite tmp_restored. done.
    + exfalso. clear -Hin Hbad Hsi Hc.
      unfold storeMeta in Hin. exec_in Hin.
      destruct (storeMetaErr ρ); exec_in Hin;
        repeat (case_bd_in Hin; exec_in Hin);
        rewrite Close_spec in Hin; cbn in Hin;
        rewrite <- !app_assoc, drop_app_length in Hin; cbn in Hin;
        repeat (apply elem_of_cons in Hin as [Hin|Hin];
                [try discriminate Hin; try (injection Hin as <-; tauto)|]);
        by apply elem_of_nil in Hin.
  - exfalso. clear -Hin Hc.
    unfold storeMeta in Hin. exec_in Hin.
    destruct (storeMetaErr ρ); exec_in Hin;
      repeat (case_bd_in Hin; exec_in Hin);
      rewrite Close_spec in Hin; cbn in Hin;
      rewrite <- !app_assoc, drop_app_length in Hin; cbn in Hin;
      absent Hin.
Qed.

(** C1: in a user-path PUT whose replication result reaches the handler
    with an error, or with a digest other than the locally computed one,
    the request fails with 500, no path metadata is written ([storeMeta]
    is not called and the File Metadata is unchanged), and the canonical
    blob of the local digest stays on disk. *)
Theorem put_user_replica_failure req σ0 si :
  Http.Method req = "PUT" →
  Str.HasPrefix (Http.URLPath req) "/.cbfs/" = false →
  AwaitPeer_ (Some si) ∈ callsOf (httpHandler req) σ0 →
  err si ≠ None ∨ hs si ≠ hashOf (Http.Body req) →
  let st := run (httpHandler req) σ0 in
  Http.status (w st) = Some 500 ∧
  files (σ st) = files σ0 ∧
  (∀ path revs, StoreMeta_ path revs ∉ callsOf (httpHandler req) σ0) ∧
  is_Some (blobs (σ st) !! hashOf (Http.Body req)).
Proof.
  intros Hm Hp Hin Hbad. cbv zeta.
  rewrite (httpHandler_PUT _ Hm), (doPut_user _ Hp) in Hin |- *.
  destruct (putUserFile_peer_failure req σ0 si Hin Hbad)
    as (Hs & Hf & Hb & _ & _ & Hc).
  rewrite Hc. repeat split; [done|done| |by eexists].
  intros path revs H. absent H.
Qed.

(** C9: in a user-path PUT the Ownership Record of the local digest is
    written before the replication result is awaited: when the request
    fails on that result, the calls made are exactly the Digest Writer's,
    [recordBlobOwnership], the receive and the deferred [Close], and the
    record lists this node, at the time of the request, in the end. *)
Theorem put_user_ownership_precedes_replica req σ0 si :
  Http.Method req = "PUT" →
  Str.HasPrefix (Http.URLPath req) "/.cbfs/" = false →
  AwaitPeer_ (Some si) ∈ callsOf (httpHandler req) σ0 →
  err si ≠ None ∨ hs si ≠ hashOf (Http.Body req) →
  let st := run (httpHandler req) σ0 in
  let h := hashOf (Http.Body req) in
  let n := fresh (dom (tmpfiles σ0)) in
  Http.status (w st) = Some 500 ∧
  callsOf (httpHandler req) σ0 =
    [NewHashRecord_ (Http.Get (Http.ReqHeader req) "X-CBFS-Hash");
     Process_ n; Finish_ n;
     RecordBlobOwnership_ h (Str.len (Http.Body req));
     AwaitPeer_ (Some si); Close_ n] ∧
  ∃ o, owners (σ st) !! oidkey h = Some o ∧
       Ownership.Nodes o !! serverId = Some (now ρ) ∧
       Ownership.Length o = Str.len (Http.Body req).
Proof.
  intros Hm Hp Hin Hbad. cbv zeta.
  rewrite (httpHandler_PUT _ Hm), (doPut_user _ Hp) in Hin |- *.
  destruct (putUserFile_peer_failure req σ0 si Hin Hbad)
    as (Hs & _ & _ & _ & Ho & Hc).
  rewrite Hc, Ho. repeat split; [done|].
  eexists. rewrite lookup_insert_eq. split; [reflexivity|]. cbn.
  by rewrite lookup_insert_eq.
Qed.

(** **** HEAD *)

(** C10: a HEAD request with a non-empty rev parameter on a path without
    File Metadata is answered 404; HEAD answers 400 only when the path
    has a record (and then only for a non-empty rev). *)
Theorem head_rev_on_missing_path req σ0 :
  Http.Method req = "HEAD" →
  let st := run (httpHandler req) σ0 in
  (Http.FormValue req "rev" ≠ "" →
   files σ0 !! resolvePath req = None →
   Http.status (w st) = Some 404) ∧
  (Http.status (w st) = Some 400 →
   is_Some (files σ0 !! resolvePath req) ∧ Http.FormValue req "rev" ≠ "").
Proof.
  intros Hm. cbv zeta. rewrite (httpHandler_HEAD _ Hm).
  unfold run, doHead, couchbase_Get. exec.
  destruct (getErr ρ) as [e|]; exec.
  { split; [done|discriminate]. }
  destruct (files σ0 !! resolvePath req) as [got|]; exec.
  - case_bd Hrev; exec; split; done.
  - split; [done|discriminate].
Qed.

(** **** DELETE of a blob *)

Lemma Since_lt_Hour now t :
  Time.Since now t < Time.Hour ↔ now - t < Time.Hour.
Proof.
  unfold Time.Since, Time.Sub, Time.Hour, minInt64, maxInt64.
  change (2 ^ 63) with 9223372036854775808. lia.
Qed.

(** C8: a DELETE on /.cbfs/blob/<digest> whose Ownership Record has a
    most recent timestamp less than one hour old is answered 400; the
    blob store is not asked to remove anything and the blob directory is
    unchanged. *)
Theorem delete_recent_blob_refused req σ0 oid ob :
  Http.Method req = "DELETE" →
  Http.URLPath req = blobPrefix +:+ oid →
  getErr ρ = None →
  owners σ0 !! oidkey oid = Some ob →
  now ρ - (mostRecent ob).2 < Time.Hour →
  let st := run (httpHandler req) σ0 in
  Http.status (w st) = Some 400 ∧
  blobs (σ st) = blobs σ0 ∧
  callsOf (httpHandler req) σ0 = [].
Proof.
  intros Hm Hp Hg Ho Hage. cbv zeta.
  rewrite (httpHandler_DELETE _ Hm), (doDelete_blob _ _ Hp).
  apply Since_lt_Hour in Hage.
  unfold callsOf, run, doDeleteOID, getBlobOwnership, couchbase_GetOwnership.
  rewrite Hp, minusPrefix_app, Hg. exec. rewrite Ho.
  destruct (mostRecent ob) as [n t]. cbn in Hage.
  rewrite bool_decide_eq_true_2 by done. exec.
  by rewrite drop_all.
Qed.

(** **** Fetch requests *)

(** C4, as the code has it: for a GET on /.cbfs/fetch/<oid> whose
    Ownership Record exists, the handler itself asks for the available
    space; with less space than the record's length it answers 500 and
    queues nothing, otherwise it queues the fetch and answers 202. *)
Theorem fetch_space_checked_by_handler req σ0 oid o :
  Http.Method req = "GET" →
  Http.URLPath req = fetchPrefix +:+ oid →
  getErr ρ = None →
  owners σ0 !! oidkey oid = Some o →
  let st := run (httpHandler req) σ0 in
  AvailableSpace_ ∈ callsOf (httpHandler req) σ0 ∧
  (freeSpace ρ < uint64 (Ownership.Length o) →
   Http.status (w st) = Some 500 ∧ fetchQueue (σ st) = fetchQueue σ0) ∧
  (uint64 (Ownership.Length o) ≤ freeSpace ρ →
   Http.status (w st) = Some 202 ∧
   fetchQueue (σ st) =
     fetchQueue σ0 ++ [(oid, Http.Get (Http.ReqHeader req) "X-Prevnode")]).
Proof.
  intros Hm Hp Hg Ho. cbv zeta.
  rewrite (httpHandler_GET _ Hm), (doGet_fetch _ _ Hp).
  unfold callsOf, run, doFetchDoc, couchbase_GetOwnership, availableSpace,
    queueBlobFetch.
  rewrite Hg. exec. rewrite Ho. exec.
  case_bd Hsp; exec.
  - rewrite drop_app_length. split; [set_solver|]. split; [done|lia].
  - rewrite <- app_assoc, drop_app_length.
    split; [set_solver|]. split; [lia|done].
Qed.

(** **** PUT of user data and of the configuration *)

(** C5, as the code has it: a successful PUT to /.cbfs/meta/<path> is
    answered 201 and replaces the record's userdata; a successful PUT to
    /.cbfs/config/ is answered 204 and stores the configuration. *)
Theorem put_meta_201_put_config_204 req σ0 :
  Http.Method req = "PUT" →
  let st := run (httpHandler req) σ0 in
  (∀ path got r,
     Http.URLPath req = metaPrefix +:+ path →
     getErr ρ = None →
     files σ0 !! path = Some got →
     decodeRaw (Http.Body req) = inr r →
     setErr ρ = None →
     Http.status (w st) = Some 201 ∧
     Userdata <$> files (σ st) !! path = Some (Some r)) ∧
  (∀ conf,
     Http.URLPath req = configPrefix →
     decodeConfig (Http.Body req) = inr conf →
     storeConfigErr ρ = None →
     Http.status (w st) = Some 204 ∧
     storedConfig (σ st) = Some conf).
Proof.
  intros Hm. cbv zeta. rewrite (httpHandler_PUT _ Hm). split.
  - intros path got r Hp Hg Hf Hd Hs. rewrite (doPut_meta _ _ Hp).
    unfold run, putMeta, couchbase_Get, couchbase_Set.
    rewrite Hg, Hd, Hs. exec. rewrite Hf. exec.
    by rewrite lookup_insert_eq.
  - intros conf Hp Hd Hs. rewrite (doPut_config _ Hp).
    unfold run, putConfig, StoreConfig, updateConfig.
    rewrite Hd, Hs. exec.
    destruct (updateConfigErr ρ); exec; done.
Qed.

(** **** Read miss served by a peer *)

Lemma Finish_calls f s :
  calls (σ (Finish f s).2) = calls (σ s) ++ [Finish_ (tmpf f)].
Proof.
  forget_unused.
  unfold Finish, dropTmp. exec.
  destruct (tmpfiles (σ s) !! tmpf f); exec; [|done].
  repeat (case_bd_goal; exec; [done|]).
  destruct (linkErr ρ); done.
Qed.

(** with [cache] set, [copyFromPeer] opens a Digest Writer *)
Lemma copyFromPeer_opens oid presp s :
  NewHashRecord_ oid ∈
    drop (length (calls (σ s)))
         (calls (σ (copyFromPeer oid presp true s).2)).
Proof.
  forget_unused.
  unfold copyFromPeer, NewHashRecord, hashRecord_Write. exec.
  destruct (tmpErr ρ); exec.
  - destruct (getBodyErr presp); exec;
      rewrite drop_app_length; apply list_elem_of_here.
  - destruct (getBodyErr presp); exec.
    + rewrite drop_app_length. apply list_elem_of_here.
    + match goal with
      | |- context [Finish ?hw ?s1] =>
          pose proof (Finish_calls hw s1) as HF;
            destruct (Finish hw s1) as [[x [e|]] s2]
      end; exec; cbn in HF; rewrite HF; cbn;
        rewrite <- !app_assoc, drop_app_length; apply list_elem_of_here.
Qed.

(** without it, [copyFromPeer] calls nobody *)
Lemma copyFromPeer_plain oid presp s :
  calls (σ (copyFromPeer oid presp false s).2) = calls (σ s).
Proof.
  forget_unused.
  unfold copyFromPeer. exec. destruct (getBodyErr presp); reflexivity.
Qed.

Lemma copyFromPeer_calls oid presp cache s :
  ∃ tr, calls (σ (copyFromPeer oid presp cache s).2) = calls (σ s) ++ tr ∧
        (NewHashRecord_ oid ∈ tr ↔ cache = true).
Proof.
  forget_unused.
  destruct cache.
  - pose proof (copyFromPeer_opens oid presp s) as H.
    unfold copyFromPeer, NewHashRecord, hashRecord_Write in H |- *.
    exec. exec_in H.
    destruct (tmpErr ρ); exec; exec_in H.
    + destruct (getBodyErr presp); exec; exec_in H;
        eexists; (split; [reflexivity|]);
        rewrite drop_app_length in H; done.
    + destruct (getBodyErr presp); exec; exec_in H.
      * eexists; split; [reflexivity|]. by rewrite drop_app_length in H.
      * match goal with
        | |- context [Finish ?hw ?s1] =>
            pose proof (Finish_calls hw s1) as HF;
              destruct (Finish hw s1) as [[x [e|]] s2]
        end; exec; exec_in H; cbn in HF; rewrite HF in H |- *;
          cbn in H |- *;
          rewrite <- !app_assoc in H |- *; rewrite drop_app_length in H;
          eexists; (split; [reflexivity|]); done.
  - exists []. rewrite copyFromPeer_plain, app_nil_r. split; [done|].
    split; [intros H; by apply elem_of_nil in H|done].
Qed.

(** the outcome of the admission test *)
Lemma cacheAdmission_spec cachePerc o s :
  ∃ tr, cacheAdmission cachePerc o s =
          (bool_decide (cachePerc = 100 ∨
                        (randIntn100 ρ < cachePerc ∧
                         freeSpace ρ > uint64 (Ownership.Length o))),
           {| w := w s; σ := with_calls (calls (σ s) ++ tr) (σ s) |}) ∧
        (∀ oid, NewHashRecord_ oid ∉ tr).
Proof.
  forget_unused.
  unfold cacheAdmission, randIntn, availableSpace. exec.
  case_bd H100; exec.
  { exists []. rewrite app_nil_r. rewrite bool_decide_eq_true_2 by (by left).
    destruct s as [? []]; cbn. split; [done|]. intros oid H. absent H. }
  case_bd Hdraw; exec.
  - exists [RandIntn_; AvailableSpace_]. rewrite <- app_assoc. split.
    + f_equal. apply bool_decide_ext. split; [intros; right; lia|].
      intros [?|[? ?]]; [done|lia].
    + intros oid H; absent H.
  - exists [RandIntn_]. split.
    + f_equal. symmetry. apply bool_decide_eq_false_2.
      intros [?|[? ?]]; [done|lia].
    + intros oid H; absent H.
Qed.

Lemma tryNodes_admission oid o hdr cachePerc nl s :
  (∃ sid presp, sid ∈ nl ∧ peerGet ρ sid = inr presp ∧
                getStatusCode presp = 200) →
  NewHashRecord_ oid ∈
    drop (length (calls (σ s)))
         (calls (σ (tryNodes oid o hdr cachePerc nl s).2)) ↔
  cachePerc = 100 ∨
  (randIntn100 ρ < cachePerc ∧ freeSpace ρ > uint64 (Ownership.Length o)).
Proof.
  forget_unused.
  induction nl as [|sid nl IH]; intros (sid' & presp & Hin & Hget & H200).
  { by apply elem_of_nil in Hin. }
  cbn [tryNodes].
  destruct (peerGet ρ sid) as [e|presp0] eqn:Hsid.
  { apply IH. apply elem_of_cons in Hin as [->|Hin]; [congruence|eauto]. }
  case_bd Hst.
  { apply IH. apply elem_of_cons in Hin as [->|Hin]; [|eauto].
    rewrite Hget in Hsid. by injection Hsid as ->. }
  clear IH Hin Hget H200 sid' presp.
  unfold copyResponseHeaders. exec.
  match goal with
  | |- context [cacheAdmission cachePerc o ?s1] =>
      destruct (cacheAdmission_spec cachePerc o s1) as (tr & -> & Htr)
  end.
  match goal with
  | |- context [copyFromPeer oid presp0 ?c ?s1] =>
      destruct (copyFromPeer_calls oid presp0 c s1) as (tr' & -> & Htr')
  end.
  cbn. rewrite <- app_assoc, drop_app_length.
  rewrite elem_of_app, Htr', bool_decide_eq_true.
  specialize (Htr oid). tauto.
Qed.

(** C3, as the code has it: on a read miss that a peer serves, a local
    Digest Writer for the digest is opened ([NewHashRecord] is called) if
    and only if the cache percentage is 100, or the draw is below the
    cache percentage and the available space is strictly greater than the
    blob's length in the Ownership Record. *)
Theorem remote_read_cache_admission oid hdr cachePerc σ0 o :
  getErr ρ = None →
  owners σ0 !! oidkey oid = Some o →
  (∃ sid presp, sid ∈ ResolveRemoteNodes o ∧ peerGet ρ sid = inr presp ∧
                getStatusCode presp = 200) →
  NewHashRecord_ oid ∈ callsOf (getBlobFromRemote oid hdr cachePerc) σ0 ↔
  cachePerc = 100 ∨
  (randIntn100 ρ < cachePerc ∧ freeSpace ρ > uint64 (Ownership.Length o)).
Proof.
  forget_unused.
  intros Hg Ho Hserved.
  unfold callsOf, run, getBlobFromRemote, couchbase_GetOwnership.
  rewrite Hg. exec. rewrite Ho. exec.
  apply (tryNodes_admission oid o hdr cachePerc _
           {| w := Http.emptyResponse; σ := σ0 |} Hserved).
Qed.

(** **** GET of a user path *)

Lemma init_snoc s c : Str.init (s +:+ String c EmptyString) = s.
Proof.
  induction s as [|d s IH]; [reflexivity|].
  change (String d s +:+ String c EmptyString)
    with (String d (s +:+ String c EmptyString)).
  cbn [Str.init]. rewrite IH.
  destruct s; reflexivity.
Qed.

Lemma inner_quoted s : Str.inner (quoted s) = s.
Proof. unfold Str.inner, quoted, dquote. simpl. apply init_snoc. Qed.

Lemma length_snoc s c :
  String.length (s +:+ String c EmptyString) = S (String.length s).
Proof. induction s as [|d s IH]; simpl; [done|by rewrite IH]. Qed.

Lemma len_quoted s : s ≠ "" → Str.len (quoted s) > 2.
Proof.
  intros Hs. unfold Str.len, quoted, dquote.
  destruct s as [|c s]; [done|]. simpl. rewrite length_snoc. lia.
Qed.


Lemma findRev_Some r previous e :
  findRev r previous = Some e → e ∈ previous ∧ Rev.Revno e = r.
Proof.
  unfold findRev. induction previous as [|p ps IH]; cbn; [done|].
  case_bd_goal.
  - intros [= ->]. split; [apply list_elem_of_here|done].
  - intros [H1 H2]%IH. split; [by apply list_elem_of_further|done].
Qed.

(** the response of [doGetUserDoc] once a revision is selected *)
Lemma doGetUserDoc_rev req σ0 got r :
  getErr ρ = None →
  files σ0 !! resolvePath req = Some got →
  Http.FormValue req "rev" ≠ "" →
  Strconv.Atoi (Http.FormValue req "rev") = Some r →
  run (doGetUserDoc req) σ0 =
    match findRev r (Previous got) with
    | Some e =>
        if bool_decide (Rev.OID e = "") then
          {| w := Http.Write ("Don't have this file with rev " +:+ Strconv.Itoa r)
                    (Http.WriteHeader 410 Http.emptyResponse);
             σ := σ0 |}
        else
          let w1 := Http.SetHeader "X-CBFS-OldestRev"
                      (Strconv.Itoa (oldestRevOf got))
                      (Http.SetHeader "X-CBFS-Revno" (Strconv.Itoa r)
                         Http.emptyResponse) in
          if bool_decide (inmMatches req got) then
            {| w := Http.WriteHeader 304 w1; σ := σ0 |}
          else
            (serveBlob req (resolvePath req) (Rev.OID e) (Rev.Headers e)
               (Rev.Modified e) {| w := w1; σ := σ0 |}).2
    | None =>
        {| w := Http.Write ("Don't have this file with rev " +:+ Strconv.Itoa r)
                  (Http.WriteHeader 410 Http.emptyResponse);
           σ := σ0 |}
    end.
Proof.
  intros Hg Hf Hrev Hr. unfold run, doGetUserDoc, couchbase_Get, inmMatches.
  rewrite Hg. exec. rewrite Hf. exec.
  rewrite bool_decide_eq_true_2 by done. rewrite Hr.
  destruct (findRev r (Previous got)) as [e|]; exec; [|done].
  case_bd_goal; exec; [done|].
  destruct (bool_decide_reflect
              (Str.len (Http.Get (Http.ReqHeader req) "If-None-Match") > 2))
    as [H1|H1];
  destruct (bool_decide_reflect
              (OID got = Str.inner (Http.Get (Http.ReqHeader req) "If-None-Match")))
    as [H2|H2]; cbn.
  - by rewrite bool_decide_eq_true_2.
  - by rewrite bool_decide_eq_false_2 by tauto.
  - by rewrite bool_decide_eq_false_2 by tauto.
  - by rewrite bool_decide_eq_false_2 by tauto.
Qed.

Lemma doGetUserDoc_current req σ0 got :
  getErr ρ = None →
  files σ0 !! resolvePath req = Some got →
  Http.FormValue req "rev" = "" →
  run (doGetUserDoc req) σ0 =
    let w1 := Http.SetHeader "X-CBFS-OldestRev"
                (Strconv.Itoa (oldestRevOf got))
                (Http.SetHeader "X-CBFS-Revno" (Strconv.Itoa (Revno got))
                   Http.emptyResponse) in
    if bool_decide (inmMatches req got) then
      {| w := Http.WriteHeader 304 w1; σ := σ0 |}
    else
      (serveBlob req (resolvePath req) (OID got) (Headers got)
         (Modified got) {| w := w1; σ := σ0 |}).2.
Proof.
  intros Hg Hf Hrev. unfold run, doGetUserDoc, couchbase_Get, inmMatches.
  rewrite Hg. exec. rewrite Hf. exec.
  rewrite bool_decide_eq_false_2 by (by intros []). exec.
  destruct (bool_decide_reflect
              (Str.len (Http.Get (Http.ReqHeader req) "If-None-Match") > 2))
    as [H1|H1];
  destruct (bool_decide_reflect
              (OID got = Str.inner (Http.Get (Http.ReqHeader req) "If-None-Match")))
    as [H2|H2]; cbn.
  - by rewrite bool_decide_eq_true_2.
  - by rewrite bool_decide_eq_false_2 by tauto.
  - by rewrite bool_decide_eq_false_2 by tauto.
  - by rewrite bool_decide_eq_false_2 by tauto.
Qed.


Lemma unconditional_no_match req got :
  Http.unconditional req → ¬ inmMatches req got.
Proof.
  intros Hu [Hlen _].
  assert (Http.Get (Http.ReqHeader req) "If-None-Match" = "") as E.
  { revert Hu. unfold Http.unconditional. rewrite Forall_forall.
    intros Hu. apply Hu. unfold Http.conditionalHeaders.
    do 2 apply list_elem_of_further. apply list_elem_of_here. }
  rewrite E in Hlen. vm_compute in Hlen. discriminate Hlen.
Qed.

Lemma Get_Set h k v : Http.Get (Http.Set_ h k v) k = v.
Proof. unfold Http.Get, Http.Set_. by rewrite lookup_insert_eq. Qed.

Lemma Get_Set_ne h k k' v :
  Http.CanonicalHeaderKey k ≠ Http.CanonicalHeaderKey k' →
  Http.Get (Http.Set_ h k' v) k = Http.Get h k.
Proof.
  intros Hk. unfold Http.Get, Http.Set_. by rewrite lookup_insert_ne.
Qed.

(** the headers that [copyResponseHeaders] lets through *)
Lemma copied_lookup (hdr h0 : Http.Header) k :
  isResponseHeader k = true → h0 !! k = None →
  (filter (λ kv, isResponseHeader kv.1 = true) hdr ∪ h0) !! k = hdr !! k.
Proof.
  intros Hk Hnone.
  destruct (hdr !! k) as [v|] eqn:Hv.
  - apply lookup_union_Some_l, map_lookup_filter_Some. done.
  - apply lookup_union_None. split; [|done].
    apply map_lookup_filter_None. left. done.
Qed.

(** they hold no other key *)
Lemma copied_other (hdr h0 : Http.Header) k :
  isResponseHeader k = false →
  (filter (λ kv, isResponseHeader kv.1 = true) hdr ∪ h0) !! k = h0 !! k.
Proof.
  intros Hk. apply lookup_union_r, map_lookup_filter_None.
  right. intros v _. cbn. by rewrite Hk.
Qed.

Ltac other_header := rewrite Get_Set_ne by (vm_compute; discriminate).

(** the response of [http.ServeContent] to a GET without precondition
    and range, on a response [w0] without status, body and
    Content-Encoding *)
Lemma ServeContent_unconditional req name modtime content s :
  Http.unconditional req →
  Http.Method req ≠ "HEAD" →
  Http.status (w s) = None → Http.body (w s) = "" →
  Http.Get (Http.header (w s)) "Content-Encoding" = "" →
  let st := (ServeContent req name modtime content s).2 in
  let rh := Http.header (w st) in
  σ st = σ s ∧
  Http.status (w st) = Some 200 ∧
  Http.body (w st) = content ∧
  Http.served (w st) =
    Some {| Http.srvName := name; Http.srvModtime := modtime;
            Http.srvContent := content |} ∧
  Http.Get rh "Content-Length" = Strconv.Itoa (Str.len content) ∧
  rh !! "Content-Type" =
    match Http.header (w s) !! "Content-Type" with
    | Some v => Some v
    | None => Some [detectContentType name content]
    end ∧
  Http.Get rh "Last-Modified" =
    (if bool_decide (modtime = Time.zero ∨ modtime = 0)
     then Http.Get (Http.header (w s)) "Last-Modified"
     else formatTime modtime) ∧
  (∀ k, Http.CanonicalHeaderKey k ≠ "Content-Length" →
        Http.CanonicalHeaderKey k ≠ "Content-Type" →
        Http.CanonicalHeaderKey k ≠ "Last-Modified" →
        Http.CanonicalHeaderKey k ≠ "Accept-Ranges" →
        Http.Get rh k = Http.Get (Http.header (w s)) k).
Proof.
  intros Hu Hm Hst Hbody Hce. cbv zeta. unfold ServeContent. exec.
  rewrite (bool_decide_eq_true_2 _ Hu).
  rewrite (bool_decide_eq_false_2 _ Hm).
  set (w1 := if bool_decide (modtime = Time.zero ∨ modtime = 0) then w s
             else Http.SetHeader "Last-Modified" (formatTime modtime) (w s)).
  assert (Http.status w1 = None ∧ Http.body w1 = "" ∧
          Http.header w1 !! "Content-Type" = Http.header (w s) !! "Content-Type" ∧
          Http.Get (Http.header w1) "Content-Encoding" = "" ∧
          Http.Get (Http.header w1) "Last-Modified" =
            (if bool_decide (modtime = Time.zero ∨ modtime = 0)
             then Http.Get (Http.header (w s)) "Last-Modified"
             else formatTime modtime) ∧
          (∀ k, Http.CanonicalHeaderKey k ≠ "Last-Modified" →
                Http.Get (Http.header w1) k = Http.Get (Http.header (w s)) k))
    as (Hst1 & Hb1 & Hct1 & Hce1 & Hlm1 & Hoth1).
  { unfold w1. case_bd_goal; cbn; [done|].
    split_and!; try done.
    - unfold Http.Set_. by rewrite lookup_insert_ne.
    - by other_header.
    - apply Get_Set.
    - intros k Hk. by rewrite Get_Set_ne. }
  clearbody w1.
  set (w2 := if bool_decide (is_Some (Http.header w1 !! "Content-Type"))
             then w1
             else Http.SetHeader "Content-Type"
                    (detectContentType name content) w1).
  assert (Http.status w2 = None ∧ Http.body w2 = "" ∧
          Http.header w2 !! "Content-Type" =
            match Http.header (w s) !! "Content-Type" with
            | Some v => Some v
            | None => Some [detectContentType name content]
            end ∧
          (∀ k, Http.CanonicalHeaderKey k ≠ "Content-Type" →
                Http.Get (Http.header w2) k = Http.Get (Http.header w1) k))
    as (Hst2 & Hb2 & Hct2 & Hoth2).
  { unfold w2. rewrite Hct1.
    destruct (Http.header (w s) !! "Content-Type") as [v|] eqn:Hct.
    - rewrite bool_decide_eq_true_2 by (by eexists). done.
    - rewrite bool_decide_eq_false_2 by (by intros [? ?]). cbn.
      split_and!; try done.
      + unfold Http.Set_. apply lookup_insert_eq.
      + intros k Hk. by rewrite Get_Set_ne. }
  clearbody w2.
  rewrite Get_Set_ne by (vm_compute; discriminate).
  rewrite Hoth2 by (vm_compute; discriminate).
  rewrite Hce1. rewrite bool_decide_eq_true_2 by done.
  unfold Http.Write, Http.WriteHeader. cbn. rewrite Hst2. cbn.
  rewrite Hb2. split_and!; try done.
  - apply Get_Set.
  - unfold Http.Set_. rewrite !lookup_insert_ne by (vm_compute; discriminate).
    done.
  - do 2 other_header. rewrite Hoth2 by (vm_compute; discriminate). done.
  - intros k H1 H2 H3 H4. rewrite !Get_Set_ne by done.
    rewrite Hoth2 by done. by apply Hoth1.
Qed.

(** serving a blob that is on the local disk, to a GET without
    precondition and range *)
Lemma serveBlob_local req path oid hdr modified s content :
  blobs (σ s) !! oid = Some content →
  Http.unconditional req →
  Http.Method req ≠ "HEAD" →
  Http.status (w s) = None → Http.body (w s) = "" →
  Http.header (w s) !! "Content-Type" = None →
  Http.Get (Http.header (w s)) "Content-Encoding" = "" →
  let st := (serveBlob req path oid hdr modified s).2 in
  let rh := Http.header (w st) in
  σ st = with_calls (calls (σ s) ++ [Go_RecordBlobAccess oid]) (σ s) ∧
  Http.status (w st) = Some 200 ∧
  Http.body (w st) = content ∧
  Http.served (w st) =
    Some {| Http.srvName := path; Http.srvModtime := modified;
            Http.srvContent := content |} ∧
  Http.Get rh "Etag" = quoted oid ∧
  Http.Get rh "Content-Length" = Strconv.Itoa (Str.len content) ∧
  rh !! "Content-Type" =
    match hdr !! "Content-Type" with
    | Some v => Some v
    | None => Some [detectContentType path content]
    end ∧
  Http.Get rh "Last-Modified" =
    (if bool_decide (modified = Time.zero ∨ modified = 0)
     then Http.Get (Http.header (w s)) "Last-Modified"
     else formatTime modified) ∧
  (∀ k, Http.CanonicalHeaderKey k ≠ "Content-Length" →
        Http.CanonicalHeaderKey k ≠ "Content-Type" →
        Http.CanonicalHeaderKey k ≠ "Last-Modified" →
        Http.CanonicalHeaderKey k ≠ "Accept-Ranges" →
        Http.CanonicalHeaderKey k ≠ "Etag" →
        Http.Get rh k = Http.Get (Http.header (w s)) k).
Proof.
  intros Hb Hu Hm Hst Hbody Hct Hce. cbv zeta.
  unfold serveBlob, openBlob, copyResponseHeaders. exec.
  rewrite Hb. exec.
  match goal with
  | |- context [ServeContent req path modified content ?s1] =>
      pose proof (ServeContent_unconditional req path modified content s1
                    Hu Hm) as H;
        cbv zeta in H;
        destruct H as (Hσ & H200 & Hbd & Hsv & Hcl & Hty & Hlm & Hoth);
        [done|done| |]
  end.
  { cbn. other_header. unfold Http.Get in Hce |- *.
    change (Http.CanonicalHeaderKey "Content-Encoding")
      with "Content-Encoding" in Hce |- *.
    by rewrite copied_other. }
  split_and!; try done.
  - rewrite Hoth by (vm_compute; discriminate). cbn. apply Get_Set.
  - rewrite Hty. cbn. unfold Http.Set_.
    rewrite lookup_insert_ne by (vm_compute; discriminate).
    rewrite copied_lookup by done. done.
  - rewrite Hlm. case_bd_goal; [|done]. cbn. other_header.
    unfold Http.Get.
    change (Http.CanonicalHeaderKey "Last-Modified") with "Last-Modified".
    by rewrite copied_other.
  - intros k H1 H2 H3 H4 H5. rewrite Hoth by done. cbn.
    rewrite Get_Set_ne by done. unfold Http.Get.
    apply (f_equal (λ o, match o with Some (v :: _) => v | _ => "" end)).
    apply copied_other. unfold isResponseHeader.
    destruct (bool_decide_reflect (Http.CanonicalHeaderKey k = "Content-Type"));
      [done|].
    destruct (bool_decide_reflect (Http.CanonicalHeaderKey k = "Content-Length"));
      done.
Qed.


(** C7, as the code has it: a GET of an existing user path whose
    If-None-Match header is the quoted current digest is answered 304
    with no body, provided the rev parameter is absent or selects a
    retained revision. *)
Theorem get_if_none_match_304 req σ0 got :
  Http.Method req = "GET" →
  Str.HasPrefix (Http.URLPath req) "/.cbfs/" = false →
  getErr ρ = None →
  files σ0 !! resolvePath req = Some got →
  OID got ≠ "" →
  Http.Get (Http.ReqHeader req) "If-None-Match" = quoted (OID got) →
  (Http.FormValue req "rev" = "" ∨
   ∃ r e, Strconv.Atoi (Http.FormValue req "rev") = Some r ∧
          findRev r (Previous got) = Some e ∧ Rev.OID e ≠ "") →
  let st := run (httpHandler req) σ0 in
  Http.status (w st) = Some 304 ∧
  Http.body (w st) = "" ∧
  Http.served (w st) = None.
Proof.
  intros Hm Hp Hg Hf Hoid Hinm Hrev. cbv zeta.
  rewrite (httpHandler_GET _ Hm), (doGet_user _ Hp).
  assert (inmMatches req got) as Hmatch.
  { unfold inmMatches. rewrite Hinm, inner_quoted.
    split; [by apply len_quoted|done]. }
  destruct (decide (Http.FormValue req "rev" = "")) as [E|E].
  - rewrite (doGetUserDoc_current req σ0 got Hg Hf E). cbv zeta.
    by rewrite bool_decide_eq_true_2.
  - destruct Hrev as [?|(r & e & Hr & He & Hne)]; [done|].
    rewrite (doGetUserDoc_rev req σ0 got r Hg Hf E Hr), He.
    rewrite bool_decide_eq_false_2 by done. cbv zeta.
    by rewrite bool_decide_eq_true_2.
Qed.

(** *** Further properties of the handlers *)

(** **** User-path upload: every outcome *)

Lemma keepRevs_default (d : Z) rheader :
  (if bool_decide (rheader ≠ "") then default d (Strconv.Atoi rheader) else d)
  = default d (Strconv.Atoi rheader).
Proof.
  case_bd_goal; [done|].
  destruct (decide (rheader = "")) as [->|]; [reflexivity|done].
Qed.

(** when [Process] succeeds *)
Lemma Process_ok_iff n x r s :
  tmpfiles (σ s) !! n = Some "" →
  (Process {| tmpf := n; hashin := x |} r s).1.2 = None ↔
  copyErr ρ = None ∧ (x = "" ∨ x = hashOf r) ∧
  (is_Some (blobs (σ s) !! hashOf r) ∨ linkErr ρ = None).
Proof.
  intros Hn. unfold Process, Finish, hashRecord_Write, dropTmp. exec.
  destruct (copyErr ρ) as [e|]; exec.
  { split; [done|]. by intros [? _]. }
  rewrite lookup_alter_eq, Hn. exec. change ("" +:+ r) with r.
  case_bd Hx; exec.
  { split; [done|]. intros (_ & [-> | ->] & _); by destruct Hx. }
  case_bd Hb; exec.
  { split; [intros _|done]. split_and!; [done| |by left].
    destruct (decide (x = "")); [by left|right].
    destruct (decide (x = hashOf r)); [done|]. by destruct Hx. }
  destruct (linkErr ρ) as [e|]; exec.
  { split; [done|]. intros (_ & _ & [?|?]); done. }
  split; [intros _|done]. split_and!; [done| |by right].
  destruct (decide (x = "")); [by left|right].
  destruct (decide (x = hashOf r)); [done|]. by destruct Hx.
Qed.

Ltac none_in :=
  repeat intro;
  match goal with
  | H : _ ∈ _ |- _ => absent H
  end.

(** the outcomes of [putUserFile]: refused for its path, failed before
    the path is written, failed in writing it, or committed *)
Lemma putUserFile_outcome req σ0 :
  let st := run (putUserFile req) σ0 in
  let tr := callsOf (putUserFile req) σ0 in
  let h := hashOf (Http.Body req) in
  let len := Str.len (Http.Body req) in
  let n := fresh (dom (tmpfiles σ0)) in
  let path := resolvePath req in
  let revs := default (DefaultVersionCount (globalConfig σ0))
                (Strconv.Atoi (Http.Get (Http.ReqHeader req) "X-CBFS-KeepRevs")) in
  let fm := {| Headers := Http.ReqHeader req; OID := h; Length := len;
               Userdata := None; Modified := now ρ; Revno := 0;
               Previous := [] |} in
  let mr := MinReplicas (globalConfig σ0) in
  (Str.Contains (Http.URLPath req) "//" = true ∧
   Http.status (w st) = Some 400 ∧ σ st = σ0) ∨
  (Str.Contains (Http.URLPath req) "//" = false ∧
   Http.status (w st) = Some 500 ∧ files (σ st) = files σ0 ∧
   tmpfiles (σ st) = tmpfiles σ0 ∧
   (∀ p r, StoreMeta_ p r ∈ tr → p = path ∧ r = revs ∧ is_Some (storeMetaErr ρ)) ∧
   (∀ a b c, Go_IncreaseReplicaCount a b c ∉ tr) ∧
   ¬ (localWriteOK (Http.Get (Http.ReqHeader req) "X-CBFS-Hash")
        (Http.Body req) σ0 ∧
      ownershipErr ρ = None ∧ replicaOK (Http.Body req) ∧
      storeMetaErr ρ = None)) ∨
  (Str.Contains (Http.URLPath req) "//" = false ∧
   Http.status (w st) = Some 201 ∧
   files (σ st) = <[path := nextMeta (files σ0 !! path) fm revs]> (files σ0) ∧
   tmpfiles (σ st) = tmpfiles σ0 ∧
   blobs (σ st) !! h = Some (default (Http.Body req) (blobs σ0 !! h)) ∧
   (localWriteOK (Http.Get (Http.ReqHeader req) "X-CBFS-Hash")
      (Http.Body req) σ0 ∧
    ownershipErr ρ = None ∧ replicaOK (Http.Body req) ∧
    storeMetaErr ρ = None) ∧
   (∃ o, tr = [NewHashRecord_ (Http.Get (Http.ReqHeader req) "X-CBFS-Hash");
               Process_ n; Finish_ n; RecordBlobOwnership_ h len;
               AwaitPeer_ o; StoreMeta_ path revs] ++
              (if bool_decide (mr > 2)
               then [Go_IncreaseReplicaCount h len (mr - 2)] else []) ++
              [Close_ n] ∧
          o = head (altStoreFile (Http.Body req)).2 ∧
          ∀ si, o = Some si → err si = None ∧ hs si = h)).
Proof.
  cbv zeta. unfold callsOf, run, putUserFile, localWriteOK, replicaOK.
  destruct (Str.Contains (Http.URLPath req) "//") eqn:Hsl.
  { left. exec. split_and!; try done. }
  right. exec.
  destruct (tmpErr ρ) as [e|] eqn:Et.
  { left. rewrite (NewHashRecord_err _ _ _ Et). exec.
    rewrite drop_app_length.
    split_and!; try done; try none_in.
    by intros ((? & _) & _). }
  rewrite (NewHashRecord_ok _ _ Et). exec.
  pose proof (altStoreFile_reader (Http.Body req)) as Hr.
  destruct (altStoreFile (Http.Body req)) as [r bgch]. cbn in Hr. subst r.
  cbn [snd].
  match goal with
  | |- context [Process {| tmpf := ?n; hashin := ?x |} ?r ?s] =>
      assert (tmpfiles (σ s) !! n = Some "") as Hn
        by (cbn; apply lookup_insert_eq);
      destruct (Process_spec n x r s Hn)
        as (hs & len & oerr & s' & HP & Hfr & Htmp & Hres);
      pose proof (Process_ok_iff n x r s Hn) as Hok
  end.
  rewrite HP in Hok |- *. clear HP Hn. cbn in Hok.
  destruct Hfr as (Hw & Hf & Ho & Hsc & Hgc & Hfq).
  cbn in Hw, Hf, Ho, Hsc, Hgc, Hfq, Htmp, Hres.
  destruct oerr as [e|]; exec.
  { left. rewrite Close_spec. cbn. rewrite Hw, Hf, Htmp. cbn.
    rewrite tmp_restored.
    destruct Hres as [_ [Hc|Hc]]; rewrite Hc; cbn;
      rewrite <- !app_assoc, drop_app_length;
      (split_and!; try done; try none_in);
      intros ((_ & Hce & HP') & _); destruct Hok as [_ Hok];
      by specialize (Hok (conj Hce HP')). }
  assert (copyErr ρ = None ∧
          (Http.Get (Http.ReqHeader req) "X-CBFS-Hash" = "" ∨
           Http.Get (Http.ReqHeader req) "X-CBFS-Hash" = hashOf (Http.Body req)) ∧
          (is_Some (blobs σ0 !! hashOf (Http.Body req)) ∨ linkErr ρ = None))
    as (Hl1 & Hl2 & Hl3) by (by apply Hok).
  clear Hok.
  destruct Hres as (-> & -> & Hx & Hb & Hc).
  rewrite recordBlobOwnership_spec.
  destruct (ownershipErr ρ) as [e|] eqn:Eo; exec.
  { left. rewrite Close_spec. cbn. rewrite Hw, Hf, Htmp, Hc. cbn.
    rewrite tmp_restored, <- !app_assoc, drop_app_length.
    split_and!; try done; try none_in.
    by intros (_ & ? & _). }
  rewrite Hc. cbn. unfold recv. exec.
  destruct (head bgch) as [si|] eqn:Hhd; exec; [case_bd Hsi; exec|].
  - left. rewrite Close_spec. cbn. rewrite Hw, Hf, Htmp. cbn.
    rewrite tmp_restored, <- !app_assoc, drop_app_length.
    split_and!; try done; try none_in.
    intros (_ & _ & Hrep & _). destruct (Hrep si eq_refl) as [H1 H2].
    destruct Hsi; done.
  - rewrite keepRevs_default, Hgc. unfold storeMeta. exec.
    destruct (storeMetaErr ρ) as [e|] eqn:Hsm; exec.
    + left. rewrite Close_spec. cbn. rewrite Hw, Hf, Htmp. cbn.
      rewrite tmp_restored, <- !app_assoc, drop_app_length.
      split_and!; try done; [|none_in|by intros (_ & _ & _ & ?)].
      intros p r H.
      repeat (apply elem_of_cons in H as [H|H];
              [try discriminate H; try (injection H as -> ->; by eauto)|]).
      by apply elem_of_nil in H.
    + right. rewrite ?Hgc.
      assert (∀ si', Some si = Some si' →
                     err si' = None ∧ hs si' = hashOf (Http.Body req)) as Hgood.
      { intros si' [= <-]. split.
        - destruct (err si); [destruct Hsi; by left|done].
        - destruct (decide (hs si = hashOf (Http.Body req))); [done|].
          destruct Hsi; by right. }
      case_bd_goal; exec;
        rewrite Close_spec; cbn; rewrite Hw, Hf, Htmp, Hb; cbn;
        rewrite tmp_restored, <- !app_assoc, drop_app_length;
        (split_and!;
         first [done | exact Hgood
               | eexists; split_and!; try reflexivity; done]).
  - rewrite keepRevs_default, Hgc. unfold storeMeta. exec.
    destruct (storeMetaErr ρ) as [e|] eqn:Hsm; exec.
    + left. rewrite Close_spec. cbn. rewrite Hw, Hf, Htmp. cbn.
      rewrite tmp_restored, <- !app_assoc, drop_app_length.
      split_and!; try done; [|none_in|by intros (_ & _ & _ & ?)].
      intros p r H.
      repeat (apply elem_of_cons in H as [H|H];
              [try discriminate H; try (injection H as -> ->; by eauto)|]).
      by apply elem_of_nil in H.
    + right. rewrite ?Hgc.
      case_bd_goal; exec;
        rewrite Close_spec; cbn; rewrite Hw, Hf, Htmp, Hb; cbn;
        rewrite tmp_restored, <- !app_assoc, drop_app_length;
        (split_and!;
         first [done | eexists; split_and!; try reflexivity; done]).
Qed.

Ltac put_user_cases req σ0 :=
  let H := fresh "H" in
  pose proof (putUserFile_outcome req σ0) as H; cbv zeta in H;
  destruct H
    as [(Hc & Hs & Hσ)
       |[(Hc & Hs & Hf & Ht & Hsm & Hgo & Hno)
        |(Hc & Hs & Hf & Ht & Hb & Hyes & o & Htr & Ho & Hgood)]].

(** X1: a PUT on a user path is answered 201, 400 or 500; unless the
    answer is 201 the File Metadata of every path is what it was, and
    in every case the temp file of the upload is gone. *)
Theorem put_user_all_or_nothing req σ0 :
  Http.Method req = "PUT" →
  Str.HasPrefix (Http.URLPath req) "/.cbfs/" = false →
  let st := run (httpHandler req) σ0 in
  (Http.status (w st) = Some 201 ∨ Http.status (w st) = Some 400 ∨
   Http.status (w st) = Some 500) ∧
  (Http.status (w st) ≠ Some 201 → files (σ st) = files σ0) ∧
  tmpfiles (σ st) = tmpfiles σ0.
Proof.
  intros Hm Hp. cbv zeta. rewrite (httpHandler_PUT _ Hm), (doPut_user _ Hp).
  put_user_cases req σ0; rewrite Hs.
  - rewrite Hσ. split_and!; auto.
  - split_and!; auto.
  - split_and!; auto. done.
Qed.

(** X2: a PUT on a user path is answered 201 exactly when the path has
    no double slash, the body was written under its digest (no I/O
    error, the digest asserted in X-CBFS-Hash, if any, is the computed
    one), the Ownership Record was written, the replication result, if
    there is one, is free of error and names the same digest, and the
    path metadata was stored. *)
Theorem put_user_created_iff req σ0 :
  Http.Method req = "PUT" →
  Str.HasPrefix (Http.URLPath req) "/.cbfs/" = false →
  Http.status (w (run (httpHandler req) σ0)) = Some 201 ↔
  Str.Contains (Http.URLPath req) "//" = false ∧
  localWriteOK (Http.Get (Http.ReqHeader req) "X-CBFS-Hash")
    (Http.Body req) σ0 ∧
  ownershipErr ρ = None ∧
  replicaOK (Http.Body req) ∧
  storeMetaErr ρ = None.
Proof.
  intros Hm Hp. rewrite (httpHandler_PUT _ Hm), (doPut_user _ Hp).
  put_user_cases req σ0; rewrite Hs.
  - split; [done|]. intros [? _]. congruence.
  - split; [done|]. intros [_ ?]. done.
  - split; [|done]. intros _. split; [done|]. exact Hyes.
Qed.

(** X3: after a PUT on a user path answered 201, the File Metadata of
    the resolved path names the digest and the length of the body, the
    headers of the request and the time of the request; the blob of
    that digest is on the local disk; the File Metadata of every other
    path is what it was. *)
Theorem put_user_commits_record req σ0 :
  Http.Method req = "PUT" →
  Str.HasPrefix (Http.URLPath req) "/.cbfs/" = false →
  let st := run (httpHandler req) σ0 in
  Http.status (w st) = Some 201 →
  (∃ m, files (σ st) !! resolvePath req = Some m ∧
        OID m = hashOf (Http.Body req) ∧
        Length m = Str.len (Http.Body req) ∧
        Headers m = Http.ReqHeader req ∧
        Modified m = now ρ ∧
        is_Some (blobs (σ st) !! OID m)) ∧
  (∀ p, p ≠ resolvePath req → files (σ st) !! p = files σ0 !! p).
Proof.
  intros Hm Hp. cbv zeta. rewrite (httpHandler_PUT _ Hm), (doPut_user _ Hp).
  put_user_cases req σ0; rewrite Hs; [done|done|]. intros _.
  rewrite Hf. split.
  - eexists. rewrite lookup_insert_eq. split; [reflexivity|]. cbn.
    split_and!; try done; rewrite Hb; by eexists.
  - intros p Hne. by rewrite lookup_insert_ne.
Qed.

Lemma callsOf_unchanged {A} (m : M A) σ0 :
  σ (run m σ0) = σ0 → callsOf m σ0 = [].
Proof. intros H. unfold callsOf. rewrite H. apply drop_all. Qed.

(** X4: in a PUT on a user path, [storeMeta] is only ever called for
    the resolved path, and with the number of revisions to keep that
    X-CBFS-KeepRevs gives when it is a decimal integer, of either sign,
    and the configuration's default_version_count otherwise (header
    absent, empty or malformed). *)
Theorem put_user_keep_revs req σ0 p r :
  Http.Method req = "PUT" →
  Str.HasPrefix (Http.URLPath req) "/.cbfs/" = false →
  StoreMeta_ p r ∈ callsOf (httpHandler req) σ0 →
  p = resolvePath req ∧
  r = default (DefaultVersionCount (globalConfig σ0))
        (Strconv.Atoi (Http.Get (Http.ReqHeader req) "X-CBFS-KeepRevs")).
Proof.
  intros Hm Hp. rewrite (httpHandler_PUT _ Hm), (doPut_user _ Hp).
  put_user_cases req σ0.
  - rewrite (callsOf_unchanged _ _ Hσ). intros H. absent H.
  - intros H. destruct (Hsm _ _ H) as (? & ? & _). done.
  - rewrite Htr. intros H.
    repeat (apply elem_of_cons in H as [H|H];
            [try discriminate H; try (injection H as -> ->; done)|]).
    apply elem_of_app in H as [H|H].
    + case_bd_in H; absent H.
    + absent H.
Qed.

(** X5: a PUT on a user path starts [increaseReplicaCount] exactly when
    it is answered 201 and min_replicas is above 2, and then for the
    digest and length of the body and for min_replicas - 2 further
    copies. *)
Theorem put_user_replica_top_up req σ0 h l k :
  Http.Method req = "PUT" →
  Str.HasPrefix (Http.URLPath req) "/.cbfs/" = false →
  Go_IncreaseReplicaCount h l k ∈ callsOf (httpHandler req) σ0 ↔
  Http.status (w (run (httpHandler req) σ0)) = Some 201 ∧
  MinReplicas (globalConfig σ0) > 2 ∧
  h = hashOf (Http.Body req) ∧ l = Str.len (Http.Body req) ∧
  k = MinReplicas (globalConfig σ0) - 2.
Proof.
  intros Hm Hp. rewrite (httpHandler_PUT _ Hm), (doPut_user _ Hp).
  put_user_cases req σ0; rewrite Hs.
  - rewrite (callsOf_unchanged _ _ Hσ). split; [intros H; absent H|].
    by intros [? _].
  - split; [intros H; by apply Hgo in H|]. by intros [? _].
  - rewrite Htr. split.
    + intros H.
      repeat (apply elem_of_cons in H as [H|H]; [discriminate H|]).
      apply elem_of_app in H as [H|H]; [|absent H].
      case_bd_in H; [|absent H].
      apply list_elem_of_singleton in H. by injection H as -> -> ->.
    + intros (_ & Hmr & -> & -> & ->).
      rewrite bool_decide_eq_true_2 by done.
      do 6 apply list_elem_of_further. apply list_elem_of_here.
Qed.

(** X6: a PUT on a user path is answered 400 exactly when the path
    holds two slashes in a row; the request then changes nothing on the
    node and calls nobody. *)
Theorem put_user_double_slash req σ0 :
  Http.Method req = "PUT" →
  Str.HasPrefix (Http.URLPath req) "/.cbfs/" = false →
  let st := run (httpHandler req) σ0 in
  (Http.status (w st) = Some 400 ↔
   Str.Contains (Http.URLPath req) "//" = true) ∧
  (Http.status (w st) = Some 400 → σ st = σ0).
Proof.
  intros Hm Hp. cbv zeta. rewrite (httpHandler_PUT _ Hm), (doPut_user _ Hp).
  put_user_cases req σ0; rewrite Hs, Hc; done.
Qed.

(** **** The path of a document *)

Lemma stripSlashes_cons c s :
  c ≠ "/"%char → stripSlashes (String c s) = String c s.
Proof.
  intros Hc.
  destruct c as [[] [] [] [] [] [] [] []]; try reflexivity.
  by destruct Hc.
Qed.

Lemma stripSlashes_no_slash s : Str.HasPrefix (stripSlashes s) "/" = false.
Proof.
  induction s as [|c s IH]; [reflexivity|].
  destruct (decide (c = "/"%char)) as [->|Hc]; [exact IH|].
  rewrite (stripSlashes_cons _ _ Hc). cbn [Str.HasPrefix].
  destruct (Ascii.eqb_spec "/"%char c) as [<-|]; [by destruct Hc|done].
Qed.

Lemma stripSlashes_fixed s :
  Str.HasPrefix s "/" = false → stripSlashes s = s.
Proof.
  destruct s as [|c s]; [done|]. cbn [Str.HasPrefix].
  destruct (Ascii.eqb_spec "/"%char c) as [<-|Hc]; [done|].
  intros _. by apply stripSlashes_cons.
Qed.

Lemma last_app_nonempty s t : t ≠ "" → Str.last (s +:+ t) = Str.last t.
Proof.
  intros Ht. induction s as [|c s IH]; [reflexivity|].
  change (String c s +:+ t) with (String c (s +:+ t)).
  cbn [Str.last]. rewrite IH.
  destruct (s +:+ t) eqn:E; [|done].
  destruct s; [|done]. by destruct Ht.
Qed.

Lemma HasPrefix_slash_app s t :
  s ≠ "" → Str.HasPrefix (s +:+ t) "/" = Str.HasPrefix s "/".
Proof. destruct s; [done|]. intros _. reflexivity. Qed.

(** X7: the key that [resolvePath] gives a request is never empty, has
    no leading and no trailing slash, and so is the key of no Ownership
    Record; resolving it again, with or without a leading slash, gives
    the same key. *)
Theorem resolvePath_shape req :
  let p := resolvePath req in
  p ≠ "" ∧
  Str.HasPrefix p "/" = false ∧
  Str.last p ≠ Some "/"%char ∧
  (∀ oid, p ≠ oidkey oid) ∧
  (∀ req', Http.URLPath req' = p ∨ Http.URLPath req' = "/" +:+ p →
           resolvePath req' = p).
Proof.
  cbv zeta.
  assert (resolvePath req ≠ "" ∧
          Str.HasPrefix (resolvePath req) "/" = false ∧
          Str.last (resolvePath req) ≠ Some "/"%char) as (H1 & H2 & H3).
  { unfold resolvePath.
    pose proof (stripSlashes_no_slash (Http.URLPath req)) as Hs.
    destruct (bool_decide_reflect
                (Str.last (stripSlashes (Http.URLPath req)) = Some "/"%char))
      as [Hl|Hl].
    - assert (stripSlashes (Http.URLPath req) ≠ "") as Hne.
      { intros E. rewrite E in Hl. discriminate Hl. }
      split_and!.
      + destruct (stripSlashes (Http.URLPath req)); done.
      + by rewrite HasPrefix_slash_app.
      + by rewrite last_app_nonempty.
    - case_bd_goal; done. }
  split_and!; try done.
  - intros oid E. rewrite E in H2. discriminate H2.
  - intros req' Hreq'. unfold resolvePath at 1.
    assert (stripSlashes (Http.URLPath req') = resolvePath req) as ->.
    { destruct Hreq' as [->| ->];
        [|change (stripSlashes ("/" +:+ resolvePath req))
            with (stripSlashes (resolvePath req))];
        by apply stripSlashes_fixed. }
    rewrite bool_decide_eq_false_2 by done.
    by rewrite bool_decide_eq_false_2.
Qed.

(** **** Replication during an upload *)

(** X8: the replication task of [altStoreFile] hands the body on
    unchanged; it reports nothing exactly when no remote node is known;
    every report names the first remote node; a second report follows
    only an answer other than 201; and the first report is free of
    error with the digest [d] exactly when the request could be built
    and the peer answered 201 with [d] in X-CBFS-Hash (read as empty
    when its body could not be read). *)
Theorem altStoreFile_reports r d :
  let ch := (altStoreFile r).2 in
  let noPeer := ∀ n ns, remoteNodes ρ ≠ inr (n :: ns) in
  (altStoreFile r).1 = r ∧
  (ch = [] ↔ noPeer) ∧
  (∀ si, si ∈ ch → ∃ n ns, remoteNodes ρ = inr (n :: ns) ∧ node si = n) ∧
  (length ch = 2%nat ↔
   ¬ noPeer ∧ newRequestErr ρ = None ∧
   ∃ presp, peerPost ρ = inr presp ∧ postStatusCode presp ≠ 201) ∧
  ((∃ si, head ch = Some si ∧ err si = None ∧ hs si = d) ↔
   ¬ noPeer ∧ newRequestErr ρ = None ∧
   ∃ presp, peerPost ρ = inr presp ∧ postStatusCode presp = 201 ∧
            match postBodyErr presp with
            | None => postHash presp
            | Some _ => ""
            end = d).
Proof.
  cbv zeta. unfold altStoreFile.
  destruct (remoteNodes ρ) as [e|[|n0 ns0]]; cbn.
  - split_and!; try done.
    + intros si H. by apply elem_of_nil in H.
    + split; [done|]. intros [H _]. by destruct H.
    + split; [by intros (? & ? & _)|]. intros [H _]. by destruct H.
  - split_and!; try done.
    + intros si H. by apply elem_of_nil in H.
    + split; [done|]. intros [H _]. by destruct H.
    + split; [by intros (? & ? & _)|]. intros [H _]. by destruct H.
  - assert (¬ ∀ n ns, @inr string _ (n0 :: ns0) ≠ inr (n :: ns)) as Hpeer.
    { intros H. by apply (H n0 ns0). }
    split; [done|].
    destruct (newRequestErr ρ) as [e|]; cbn.
    { split_and!.
      - split; [done|]. intros H. by destruct Hpeer.
      - intros si ->%list_elem_of_singleton. by eexists _, _.
      - split; [done|]. by intros (_ & ? & _).
      - split; [by intros (? & [= <-] & ? & _)|]. by intros (_ & ? & _). }
    destruct (peerPost ρ) as [e|presp]; cbn.
    { split_and!.
      - split; [done|]. intros H. by destruct Hpeer.
      - intros si ->%list_elem_of_singleton. by eexists _, _.
      - split; [done|]. by intros (_ & _ & ? & ? & _).
      - split; [by intros (? & [= <-] & ? & _)|].
        by intros (_ & _ & ? & ? & _). }
    case_bd Hst; cbn.
    + split_and!.
      * split; [done|]. intros H. by destruct Hpeer.
      * intros si [->| ->%list_elem_of_singleton]%elem_of_cons;
          by eexists _, _.
      * split; [|done]. intros _. split_and!; try done. by eexists.
      * split; [by intros (? & [= <-] & ? & _)|].
        intros (_ & _ & ? & [= <-] & ? & _). done.
    + split_and!.
      * split; [done|]. intros H. by destruct Hpeer.
      * intros si ->%list_elem_of_singleton. by eexists _, _.
      * split; [done|]. intros (_ & _ & ? & [= <-] & ?). done.
      * split.
        -- intros (? & [= <-] & _ & Hd). cbn in Hd.
           split_and!; try done. eexists. split_and!; try done.
           destruct (decide (postStatusCode presp = 201)); [done|].
           by destruct Hst.
        -- intros (_ & _ & ? & [= <-] & _ & Hd).
           eexists. split_and!; try done.
Qed.

(** X9: when a remote node is known, a PUT on a user path is answered
    201 only if that request to the peer could be built and the peer
    answered 201 with the digest of the body in X-CBFS-Hash. *)
Theorem put_user_replica_acknowledged req σ0 n ns :
  Http.Method req = "PUT" →
  Str.HasPrefix (Http.URLPath req) "/.cbfs/" = false →
  remoteNodes ρ = inr (n :: ns) →
  Http.status (w (run (httpHandler req) σ0)) = Some 201 →
  newRequestErr ρ = None ∧
  ∃ presp, peerPost ρ = inr presp ∧ postStatusCode presp = 201 ∧
           match postBodyErr presp with
           | None => postHash presp
           | Some _ => ""
           end = hashOf (Http.Body req).
Proof.
  intros Hm Hp Hn H201.
  apply (put_user_created_iff req σ0 Hm Hp) in H201
    as (_ & _ & _ & Hrep & _).
  pose proof (altStoreFile_reports (Http.Body req) (hashOf (Http.Body req)))
    as (_ & Hempty & _ & _ & [Hfirst _]).
  cbv zeta in Hfirst. unfold replicaOK in Hrep.
  destruct (head (altStoreFile (Http.Body req)).2) as [si|] eqn:Hhd.
  - destruct (Hrep si eq_refl) as [He Hh].
    destruct Hfirst as (_ & ? & ?); [by exists si|]. done.
  - apply head_None in Hhd. destruct Hempty as [Hempty _].
    by destruct (Hempty Hhd n ns).
Qed.

(** **** Raw blob uploads: every outcome *)

Lemma httpHandler_POST req :
  Http.Method req = "POST" → httpHandler req = doPost req.
Proof. unfold httpHandler. intros ->. done. Qed.

(** the Ownership Record that [recordBlobOwnership] leaves for [h] *)
Lemma owners_recorded (O : gmap string Ownership.t) h len :
  ∃ o, <[oidkey h :=
           {| Ownership.Length := len;
              Ownership.Nodes :=
                <[serverId := now ρ]>
                  (default ∅ (Ownership.Nodes <$> O !! oidkey h)) |}]> O
         !! oidkey h = Some o ∧
       Ownership.Length o = len ∧
       Ownership.Nodes o !! serverId = Some (now ρ) ∧
       ∀ n, n ≠ serverId →
            Ownership.Nodes o !! n =
              (O !! oidkey h) ≫= (λ o', Ownership.Nodes o' !! n).
Proof.
  eexists. rewrite lookup_insert_eq. split; [reflexivity|]. cbn.
  split; [done|]. split; [apply lookup_insert_eq|].
  intros n Hn. rewrite lookup_insert_ne by done.
  destruct (O !! oidkey h); cbn; [done|apply lookup_empty].
Qed.

Lemma putRawHash_outcome req σ0 :
  let h := minusPrefix (Http.URLPath req) blobPrefix in
  let st := run (putRawHash req) σ0 in
  let d := hashOf (Http.Body req) in
  h ≠ "" →
  files (σ st) = files σ0 ∧ tmpfiles (σ st) = tmpfiles σ0 ∧
  ((Http.status (w st) = Some 500 ∧ owners (σ st) = owners σ0 ∧
    Http.header (w st) = ∅ ∧
    ¬ (localWriteOK h (Http.Body req) σ0 ∧ ownershipErr ρ = None)) ∨
   (Http.status (w st) = Some 201 ∧
    Http.Get (Http.header (w st)) "X-CBFS-Hash" = d ∧
    blobs (σ st) !! d = Some (default (Http.Body req) (blobs σ0 !! d)) ∧
    owners (σ st) =
      <[oidkey h :=
          {| Ownership.Length := Str.len (Http.Body req);
             Ownership.Nodes :=
               <[serverId := now ρ]>
                 (default ∅ (Ownership.Nodes <$> owners σ0 !! oidkey h)) |}]>
        (owners σ0) ∧
    (localWriteOK h (Http.Body req) σ0 ∧ ownershipErr ρ = None))).
Proof.
  cbv zeta. intros Hh. unfold run, putRawHash, localWriteOK.
  rewrite bool_decide_eq_false_2 by done.
  exec.
  destruct (tmpErr ρ) as [e|] eqn:Et.
  { rewrite (NewHashRecord_err _ _ _ Et). exec.
    split_and!; try done. left. split_and!; try done.
    by intros ((? & _) & _). }
  rewrite (NewHashRecord_ok _ _ Et). exec.
  match goal with
  | |- context [Process {| tmpf := ?n; hashin := ?x |} ?r ?s] =>
      assert (tmpfiles (σ s) !! n = Some "") as Hn
        by (cbn; apply lookup_insert_eq);
      destruct (Process_spec n x r s Hn)
        as (hs & len & oerr & s' & HP & Hfr & Htmp & Hres);
      pose proof (Process_ok_iff n x r s Hn) as Hok
  end.
  rewrite HP in Hok |- *. clear HP Hn. cbn in Hok.
  destruct Hfr as (Hw & Hf & Ho & Hsc & Hgc & Hfq).
  cbn in Hw, Hf, Ho, Hsc, Hgc, Hfq, Htmp, Hres.
  destruct oerr as [e|]; exec.
  { rewrite Close_spec. cbn. rewrite Hw, Hf, Ho, Htmp. cbn.
    rewrite tmp_restored.
    split_and!; try done. left. split_and!; try done.
    intros ((_ & Hce & HP') & _). destruct Hok as [_ Hok].
    by specialize (Hok (conj Hce HP')). }
  destruct Hok as [Hok _]. specialize (Hok eq_refl).
  destruct Hok as (Hl1 & Hl2 & Hl3).
  destruct Hres as (-> & -> & Hx & Hb & Hc).
  rewrite recordBlobOwnership_spec.
  destruct (ownershipErr ρ) as [e|] eqn:Eo; exec;
    rewrite Close_spec; cbn; rewrite Hw, Hf, Ho, Htmp; cbn;
    rewrite tmp_restored;
    (split_and!; try done).
  - left. split_and!; try done. by intros (_ & ?).
  - right. rewrite Hb. split_and!; try done.
Qed.

Lemma doPostRawBlob_outcome req σ0 :
  let st := run (doPostRawBlob req) σ0 in
  let d := hashOf (Http.Body req) in
  files (σ st) = files σ0 ∧ tmpfiles (σ st) = tmpfiles σ0 ∧
  ((Http.status (w st) = Some 500 ∧ owners (σ st) = owners σ0 ∧
    Http.header (w st) = ∅ ∧
    ¬ (localWriteOK "" (Http.Body req) σ0 ∧ ownershipErr ρ = None)) ∨
   (Http.status (w st) = Some 201 ∧
    Http.Get (Http.header (w st)) "X-CBFS-Hash" = d ∧
    blobs (σ st) !! d = Some (default (Http.Body req) (blobs σ0 !! d)) ∧
    owners (σ st) =
      <[oidkey d :=
          {| Ownership.Length := Str.len (Http.Body req);
             Ownership.Nodes :=
               <[serverId := now ρ]>
                 (default ∅ (Ownership.Nodes <$> owners σ0 !! oidkey d)) |}]>
        (owners σ0) ∧
    (localWriteOK "" (Http.Body req) σ0 ∧ ownershipErr ρ = None))).
Proof.
  cbv zeta. unfold run, doPostRawBlob, localWriteOK.
  exec.
  destruct (tmpErr ρ) as [e|] eqn:Et.
  { rewrite (NewHashRecord_err _ _ _ Et). exec.
    split_and!; try done. left. split_and!; try done.
    by intros ((? & _) & _). }
  rewrite (NewHashRecord_ok _ _ Et). exec.
  match goal with
  | |- context [Process {| tmpf := ?n; hashin := ?x |} ?r ?s] =>
      assert (tmpfiles (σ s) !! n = Some "") as Hn
        by (cbn; apply lookup_insert_eq);
      destruct (Process_spec n x r s Hn)
        as (hs & len & oerr & s' & HP & Hfr & Htmp & Hres);
      pose proof (Process_ok_iff n x r s Hn) as Hok
  end.
  rewrite HP in Hok |- *. clear HP Hn. cbn in Hok.
  destruct Hfr as (Hw & Hf & Ho & Hsc & Hgc & Hfq).
  cbn in Hw, Hf, Ho, Hsc, Hgc, Hfq, Htmp, Hres.
  destruct oerr as [e|]; exec.
  { rewrite Close_spec. cbn. rewrite Hw, Hf, Ho, Htmp. cbn.
    rewrite tmp_restored.
    split_and!; try done. left. split_and!; try done.
    intros ((_ & Hce & HP') & _). destruct Hok as [_ Hok].
    by specialize (Hok (conj Hce HP')). }
  destruct Hok as [Hok _]. specialize (Hok eq_refl).
  destruct Hok as (Hl1 & Hl2 & Hl3).
  destruct Hres as (-> & -> & Hx & Hb & Hc).
  rewrite recordBlobOwnership_spec.
  destruct (ownershipErr ρ) as [e|] eqn:Eo; exec;
    rewrite Close_spec; cbn; rewrite Hw, Hf, Ho, Htmp; cbn;
    rewrite tmp_restored;
    (split_and!; try done).
  - left. split_and!; try done. by intros (_ & ?).
  - right. rewrite Hb. split_and!; try done.
Qed.

(** X10: a PUT on /.cbfs/blob/<h> is answered 400 exactly when <h> is
    empty, and then nothing is changed; it is answered 201 exactly when
    the body was written under its digest, that digest is <h>, and the
    Ownership Record was written; a 201 carries <h> in X-CBFS-Hash,
    leaves the blob on disk and this node, at the time of the request,
    in the Ownership Record of <h>, with the length of the body; any
    other answer leaves the Ownership Records as they were.  No outcome
    touches the File Metadata or leaves a temp file. *)
Theorem put_blob_outcome req σ0 h :
  Http.Method req = "PUT" →
  Http.URLPath req = blobPrefix +:+ h →
  let st := run (httpHandler req) σ0 in
  (Http.status (w st) = Some 400 ↔ h = "") ∧
  (h = "" → σ st = σ0) ∧
  (Http.status (w st) = Some 201 ↔
   h ≠ "" ∧ localWriteOK h (Http.Body req) σ0 ∧ ownershipErr ρ = None) ∧
  (Http.status (w st) = Some 201 →
   h = hashOf (Http.Body req) ∧
   Http.Get (Http.header (w st)) "X-CBFS-Hash" = h ∧
   blobs (σ st) !! h = Some (default (Http.Body req) (blobs σ0 !! h)) ∧
   ∃ o, owners (σ st) !! oidkey h = Some o ∧
        Ownership.Length o = Str.len (Http.Body req) ∧
        Ownership.Nodes o !! serverId = Some (now ρ)) ∧
  (Http.status (w st) ≠ Some 201 → owners (σ st) = owners σ0) ∧
  files (σ st) = files σ0 ∧ tmpfiles (σ st) = tmpfiles σ0.
Proof.
  intros Hm Hp. cbv zeta.
  rewrite (httpHandler_PUT _ Hm), (doPut_blob _ _ Hp).
  destruct (decide (h = "")) as [->|Hh].
  { unfold run, putRawHash. rewrite Hp, minusPrefix_app. exec.
    split_and!; try done. split; [done|]. by intros [? _]. }
  pose proof (putRawHash_outcome req σ0) as H. cbv zeta in H.
  rewrite Hp, minusPrefix_app in H.
  destruct (H Hh) as (Hf & Ht & [(Hs & Ho & Hhd & Hno)|(Hs & Hx & Hb & Ho & Hyes)]);
    clear H; rewrite Hs.
  - split_and!; try done. split; [done|]. by intros [_ ?].
  - assert (h = hashOf (Http.Body req)) as Hd.
    { destruct Hyes as [(_ & _ & [?|?] & _) _]; done. }
    split_and!; try done.
    intros _. rewrite <- Hd in Hb. rewrite Hx, Ho, <- Hd.
    split_and!; try done.
    destruct (owners_recorded (owners σ0) h (Str.len (Http.Body req)))
      as (o & ? & ? & ? & _).
    by exists o.
Qed.

(** X11: a POST on /.cbfs/blob/ is answered 201 exactly when the body
    was written under its digest and the Ownership Record was written;
    a 201 carries the computed digest in X-CBFS-Hash, leaves the blob
    on disk and this node in the Ownership Record of the digest; any
    other answer is 500, without that header, and leaves the Ownership
    Records as they were. *)
Theorem post_blob_outcome req σ0 :
  Http.Method req = "POST" →
  Http.URLPath req = blobPrefix →
  let st := run (httpHandler req) σ0 in
  let d := hashOf (Http.Body req) in
  (Http.status (w st) = Some 201 ↔
   localWriteOK "" (Http.Body req) σ0 ∧ ownershipErr ρ = None) ∧
  (Http.status (w st) = Some 201 →
   Http.Get (Http.header (w st)) "X-CBFS-Hash" = d ∧
   blobs (σ st) !! d = Some (default (Http.Body req) (blobs σ0 !! d)) ∧
   ∃ o, owners (σ st) !! oidkey d = Some o ∧
        Ownership.Length o = Str.len (Http.Body req) ∧
        Ownership.Nodes o !! serverId = Some (now ρ)) ∧
  (Http.status (w st) ≠ Some 201 →
   Http.status (w st) = Some 500 ∧ Http.header (w st) = ∅ ∧
   owners (σ st) = owners σ0) ∧
  files (σ st) = files σ0 ∧ tmpfiles (σ st) = tmpfiles σ0.
Proof.
  intros Hm Hp. cbv zeta. rewrite (httpHandler_POST _ Hm).
  unfold doPost. rewrite bool_decide_eq_true_2 by done.
  pose proof (doPostRawBlob_outcome req σ0) as H. cbv zeta in H.
  destruct H as (Hf & Ht & [(Hs & Ho & Hhd & Hno)|(Hs & Hx & Hb & Ho & Hyes)]);
    rewrite Hs.
  - split_and!; try done.
  - split_and!; try done.
    intros _. rewrite Hx, Ho. split_and!; try done.
    destruct (owners_recorded (owners σ0) (hashOf (Http.Body req))
                (Str.len (Http.Body req)))
      as (o & ? & ? & ? & _).
    by exists o.
Qed.

(** X12: a POST on any path but /.cbfs/blob/, and a request with a
    method other than PUT, POST, GET, HEAD and DELETE (in capitals), is
    answered 405 with nothing else written and nothing changed. *)
Theorem method_not_allowed req σ0 :
  (Http.Method req = "POST" ∧ Http.URLPath req ≠ blobPrefix) ∨
  (Http.Method req ≠ "PUT" ∧ Http.Method req ≠ "POST" ∧
   Http.Method req ≠ "GET" ∧ Http.Method req ≠ "HEAD" ∧
   Http.Method req ≠ "DELETE") →
  run (httpHandler req) σ0 =
    {| w := Http.WriteHeader 405 Http.emptyResponse; σ := σ0 |}.
Proof.
  intros [[Hm Hp]|(H1 & H2 & H3 & H4 & H5)].
  - rewrite (httpHandler_POST _ Hm). unfold doPost.
    by rewrite bool_decide_eq_false_2.
  - unfold httpHandler. by rewrite !bool_decide_eq_false_2.
Qed.

(** X13: under the reserved prefix /.cbfs/, a PUT anywhere but on the
    configuration, a blob or the userdata of a path, a DELETE anywhere
    but on a blob, and a GET on none of the node's own resources are
    answered 400 with nothing changed. *)
Theorem reserved_namespace_rejected req σ0 :
  Str.HasPrefix (Http.URLPath req) "/.cbfs/" = true →
  let p := Http.URLPath req in
  let rejected :=
    run (httpHandler req) σ0 =
      {| w := Http.WriteHeader 400 Http.emptyResponse; σ := σ0 |} in
  (Http.Method req = "PUT" →
   p ≠ configPrefix → Str.HasPrefix p blobPrefix = false →
   Str.HasPrefix p metaPrefix = false → rejected) ∧
  (Http.Method req = "DELETE" →
   Str.HasPrefix p blobPrefix = false → rejected) ∧
  (Http.Method req = "GET" →
   p ≠ nodePrefix → p ≠ configPrefix →
   Str.HasPrefix p fetchPrefix = false →
   Str.HasPrefix p metaPrefix = false →
   Str.HasPrefix p blobPrefix = false →
   enableViewProxy && Str.HasPrefix p proxyPrefix = false →
   Str.HasPrefix p listPrefix = false →
   Str.HasPrefix p zipPrefix = false →
   Str.HasPrefix p fsckPrefix = false → rejected).
Proof.
  intros Hr. cbv zeta. split_and!.
  - intros Hm H1 H2 H3. rewrite (httpHandler_PUT _ Hm). unfold doPut.
    rewrite bool_decide_eq_false_2 by done. by rewrite H2, H3, Hr.
  - intros Hm H1. rewrite (httpHandler_DELETE _ Hm). unfold doDelete.
    by rewrite H1, Hr.
  - intros Hm H1 H2 H3 H4 H5 H6 H7 H8 H9.
    rewrite (httpHandler_GET _ Hm). unfold doGet. cbv zeta.
    assert (Http.URLPath req ≠ blobPrefix) as H0.
    { intros E. rewrite E in H5. discriminate H5. }
    rewrite !bool_decide_eq_false_2 by done.
    by rewrite H3, H4, H5, H6, H7, H8, H9, Hr.
Qed.

(** **** The configuration and the userdata of a path *)

(** X14: a PUT on /.cbfs/config/ is answered 204 exactly when the body
    decodes to a configuration and the configuration document is
    written; any other answer is 500 and changes nothing.  After a 204
    the stored document is the decoded configuration; the cached
    configuration is that one too when the refresh works, and what it
    was when the refresh fails, which the answer does not show. *)
Theorem put_config_outcome req σ0 :
  Http.Method req = "PUT" →
  Http.URLPath req = configPrefix →
  let st := run (httpHandler req) σ0 in
  (Http.status (w st) = Some 204 ↔
   ∃ conf, decodeConfig (Http.Body req) = inr conf ∧ storeConfigErr ρ = None) ∧
  (Http.status (w st) ≠ Some 204 →
   Http.status (w st) = Some 500 ∧ σ st = σ0) ∧
  (∀ conf, decodeConfig (Http.Body req) = inr conf →
           storeConfigErr ρ = None →
           storedConfig (σ st) = Some conf ∧
           globalConfig (σ st) =
             match updateConfigErr ρ with
             | None => conf
             | Some _ => globalConfig σ0
             end).
Proof.
  intros Hm Hp. cbv zeta.
  rewrite (httpHandler_PUT _ Hm), (doPut_config _ Hp).
  unfold run, putConfig, StoreConfig, updateConfig.
  destruct (decodeConfig (Http.Body req)) as [e|conf]; exec.
  { split_and!; try done. split; [done|]. by intros (? & ? & _). }
  destruct (storeConfigErr ρ) as [e|]; exec.
  { split_and!; try done. split; [done|]. by intros (? & _ & ?). }
  destruct (updateConfigErr ρ) as [e|]; exec.
  - split_and!; try done.
    + split; [|done]. intros _. by exists conf.
    + by intros conf' [= <-] _.
  - split_and!; try done.
    + split; [|done]. intros _. by exists conf.
    + by intros conf' [= <-] _.
Qed.


Lemma doGet_meta req key :
  Http.URLPath req = metaPrefix +:+ key → doGet req = doGetMeta req key.
Proof.
  intros Hp. unfold doGet. rewrite Hp.
  rewrite !bool_decide_eq_false_2 by discriminate.
  by rewrite HasPrefix_refl, minusPrefix_app.
Qed.


(** **** Reading a document *)

Lemma copied_Get (hdr : Http.Header) :
  Http.Get (filter (λ kv, isResponseHeader kv.1 = true) hdr ∪ ∅) "Content-Type"
  = Http.Get hdr "Content-Type".
Proof.
  unfold Http.Get.
  change (Http.CanonicalHeaderKey "Content-Type") with "Content-Type".
  by rewrite copied_lookup.
Qed.

(** X17: a HEAD request changes nothing on the node, whatever its path.
    It is answered 404 exactly when the record of the resolved path
    cannot be read, and 400 exactly when the record is read and rev is
    given.  Otherwise it is answered 200 without a body, with the
    revision number, the oldest retained revision, the modification
    time and the quoted digest of the record, its length as
    Content-Length, and the Content-Type stored with it. *)
Theorem head_outcome req σ0 :
  Http.Method req = "HEAD" →
  let st := run (httpHandler req) σ0 in
  let rh := Http.header (w st) in
  σ st = σ0 ∧
  (Http.status (w st) = Some 404 ↔
   getErr ρ ≠ None ∨ files σ0 !! resolvePath req = None) ∧
  (Http.status (w st) = Some 400 ↔
   getErr ρ = None ∧ is_Some (files σ0 !! resolvePath req) ∧
   Http.FormValue req "rev" ≠ "") ∧
  (∀ got, getErr ρ = None → files σ0 !! resolvePath req = Some got →
          Http.FormValue req "rev" = "" →
          Http.status (w st) = Some 200 ∧
          Http.body (w st) = "" ∧ Http.served (w st) = None ∧
          Http.Get rh "X-CBFS-Revno" = Strconv.Itoa (Revno got) ∧
          Http.Get rh "X-CBFS-OldestRev" = Strconv.Itoa (oldestRevOf got) ∧
          Http.Get rh "Last-Modified" = formatTime (Modified got) ∧
          Http.Get rh "Etag" = quoted (OID got) ∧
          Http.Get rh "Content-Length" = Strconv.Itoa (Length got) ∧
          Http.Get rh "Content-Type" = Http.Get (Headers got) "Content-Type").
Proof.
  intros Hm. cbv zeta. rewrite (httpHandler_HEAD _ Hm).
  unfold run, doHead, couchbase_Get, copyResponseHeaders. exec.
  destruct (getErr ρ) as [e|]; exec.
  { split_and!; try done.
    - split; [|done]. intros _. by left.
    - split; [done|]. by intros (? & _). }
  destruct (files σ0 !! resolvePath req) as [got|]; exec.
  2:{ split_and!; try done.
      - split; [|done]. intros _. by right.
      - split; [done|]. by intros (_ & [? ?] & _). }
  case_bd Hrev; exec.
  - split_and!; try done.
    split; [done|]. by intros [?|?].
  - assert (Http.FormValue req "rev" = "") as Hrev'.
    { destruct (decide (Http.FormValue req "rev" = "")); [done|].
      by destruct Hrev. }
    split_and!; try done.
    + split; [done|]. by intros [?|?].
    + split; [done|]. by intros (_ & _ & ?).
    + intros got' _ [= <-] _. split_and!; try done.
      * by do 4 other_header; rewrite Get_Set.
      * by do 3 other_header; rewrite Get_Set.
      * by do 2 other_header; rewrite Get_Set.
      * by other_header; rewrite Get_Set.
      * by rewrite Get_Set.
      * do 5 other_header. apply copied_Get.
Qed.

(** X18: a GET on a user path is answered 404 when the record of the
    resolved path cannot be read, and 400 with the text Invalid revno
    when the record is read and rev is given but is not a decimal
    integer; neither changes anything on the node. *)
Theorem get_user_doc_refused req σ0 :
  Http.Method req = "GET" →
  Str.HasPrefix (Http.URLPath req) "/.cbfs/" = false →
  let st := run (httpHandler req) σ0 in
  (getErr ρ ≠ None ∨ files σ0 !! resolvePath req = None →
   Http.status (w st) = Some 404 ∧ σ st = σ0) ∧
  (getErr ρ = None → is_Some (files σ0 !! resolvePath req) →
   Http.FormValue req "rev" ≠ "" →
   Strconv.Atoi (Http.FormValue req "rev") = None →
   Http.status (w st) = Some 400 ∧ Http.body (w st) = "Invalid revno" ∧
   σ st = σ0).
Proof.
  intros Hm Hp. cbv zeta. rewrite (httpHandler_GET _ Hm), (doGet_user _ Hp).
  unfold run, doGetUserDoc, couchbase_Get. exec.
  destruct (getErr ρ) as [e|]; exec; [done|].
  destruct (files σ0 !! resolvePath req) as [got|]; exec.
  - split; [by intros [?|?]|]. intros _ _ Hrev Ha.
    rewrite bool_decide_eq_true_2 by done. rewrite Ha. done.
  - split; [done|]. by intros _ [? ?].
Qed.

(** X19: a GET on a user path, without rev and without precondition
    and range headers, whose record is read and whose blob is on the
    local disk, is answered 200 with that blob as its body, its length
    as Content-Length, the quoted digest as entity tag, the revision
    number, the oldest retained revision and the Content-Type stored
    with the record; it starts the access record and changes nothing
    else. *)
Theorem get_user_doc_served_locally req σ0 got content :
  Http.Method req = "GET" →
  Str.HasPrefix (Http.URLPath req) "/.cbfs/" = false →
  getErr ρ = None →
  files σ0 !! resolvePath req = Some got →
  Http.FormValue req "rev" = "" →
  Http.unconditional req →
  blobs σ0 !! OID got = Some content →
  let st := run (httpHandler req) σ0 in
  let rh := Http.header (w st) in
  Http.status (w st) = Some 200 ∧ Http.body (w st) = content ∧
  Http.Get rh "Etag" = quoted (OID got) ∧
  Http.Get rh "X-CBFS-Revno" = Strconv.Itoa (Revno got) ∧
  Http.Get rh "X-CBFS-OldestRev" = Strconv.Itoa (oldestRevOf got) ∧
  Http.Get rh "Content-Length" = Strconv.Itoa (Str.len content) ∧
  (is_Some (Headers got !! "Content-Type") →
   rh !! "Content-Type" = Headers got !! "Content-Type") ∧
  σ st = with_calls (calls σ0 ++ [Go_RecordBlobAccess (OID got)]) σ0.
Proof.
  intros Hm Hp Hg Hf Hrev Hu Hb. cbv zeta.
  rewrite (httpHandler_GET _ Hm), (doGet_user _ Hp).
  rewrite (doGetUserDoc_current req σ0 got Hg Hf Hrev). cbv zeta.
  rewrite bool_decide_eq_false_2 by (by apply unconditional_no_match).
  assert (Http.Method req ≠ "HEAD") as Hmh by (by rewrite Hm).
  match goal with
  | |- context [serveBlob req ?p ?o ?h ?m ?s] =>
      pose proof (serveBlob_local req p o h m s content Hb Hu Hmh) as H;
        cbv zeta in H;
        destruct H as (Hσ & H200 & Hbd & _ & Het & Hcl & Hty & _ & Hoth);
        [done|done|done|done|]
  end.
  split_and!; try done.
  - rewrite Hoth by (vm_compute; discriminate). cbn.
    other_header. apply Get_Set.
  - rewrite Hoth by (vm_compute; discriminate). cbn. apply Get_Set.
  - intros [v Hv]. by rewrite Hty, Hv.
Qed.

Lemma doGet_blob req oid :
  Http.URLPath req = blobPrefix +:+ oid → oid ≠ "" →
  doGet req = doServeRawBlob req oid.
Proof.
  intros Hp Hoid. unfold doGet. rewrite Hp.
  rewrite bool_decide_eq_false_2.
  2:{ destruct oid; [done|discriminate]. }
  rewrite !bool_decide_eq_false_2 by discriminate. cbv zeta.
  change (Str.HasPrefix (blobPrefix +:+ oid) fetchPrefix) with false.
  change (Str.HasPrefix (blobPrefix +:+ oid) metaPrefix) with false.
  by rewrite HasPrefix_refl, minusPrefix_app.
Qed.

(** X20: a GET on /.cbfs/blob/<oid>, without precondition and range
    headers, whose blob is on the local disk is answered 200 with the
    blob as its body, as application/octet-stream and without a
    Last-Modified; it starts the access record and changes nothing
    else.  When the blob is not there, whatever the headers, the answer
    is 404, no peer is asked and nothing is served, and the node has
    itself taken off the Ownership Record of <oid>: the record, if it
    is still there, no longer lists this node, and the blobs, the File
    Metadata and the other Ownership Records are what they were. *)
Theorem get_blob_outcome req σ0 oid :
  Http.Method req = "GET" →
  Http.URLPath req = blobPrefix +:+ oid →
  oid ≠ "" →
  let st := run (httpHandler req) σ0 in
  (∀ content, blobs σ0 !! oid = Some content → Http.unconditional req →
     Http.status (w st) = Some 200 ∧ Http.body (w st) = content ∧
     Http.Get (Http.header (w st)) "Content-Type" = "application/octet-stream" ∧
     Http.Get (Http.header (w st)) "Last-Modified" = "" ∧
     σ st = with_calls (calls σ0 ++ [Go_RecordBlobAccess oid]) σ0) ∧
  (blobs σ0 !! oid = None →
     Http.status (w st) = Some 404 ∧ Http.served (w st) = None ∧
     callsOf (httpHandler req) σ0 = [RemoveBlobOwnershipRecord_ oid serverId] ∧
     blobs (σ st) = blobs σ0 ∧ files (σ st) = files σ0 ∧
     (∀ o, owners (σ st) !! oidkey oid = Some o →
           Ownership.Nodes o !! serverId = None) ∧
     (∀ k, k ≠ oidkey oid → owners (σ st) !! k = owners σ0 !! k)).
Proof.
  intros Hm Hp Hoid. cbv zeta.
  rewrite (httpHandler_GET _ Hm), (doGet_blob _ _ Hp Hoid).
  unfold callsOf, run, doServeRawBlob, openBlob, removeBlobOwnershipRecord.
  exec.
  destruct (blobs σ0 !! oid) as [c|]; exec.
  { split; [|done]. intros content [= <-] Hu.
    assert (Http.Method req ≠ "HEAD") as Hmh by (by rewrite Hm).
    match goal with
    | |- context [ServeContent req ?n ?m ?c ?s1] =>
        pose proof (ServeContent_unconditional req n m c s1 Hu Hmh) as H;
          cbv zeta in H;
          destruct H as (Hσ & H200 & Hbd & _ & _ & Hty & Hlm & _);
          [done|done|done|]
    end.
    split_and!; try done.
    unfold Http.Get.
    change (Http.CanonicalHeaderKey "Content-Type") with "Content-Type".
    by rewrite Hty. }
  split; [done|]. intros _.
  destruct (owners σ0 !! oidkey oid) as [o|] eqn:Ho; exec.
  2:{ rewrite drop_app_length. split_and!; try done.
      intros o. by rewrite Ho. }
  case_bd Hempty; exec; rewrite drop_app_length.
  - split_and!; try done.
    + intros o'. by rewrite lookup_delete_eq.
    + intros k Hk. by rewrite lookup_delete_ne.
  - split_and!; try done.
    + intros o'. rewrite lookup_insert_eq. intros [= <-]. cbn.
      apply lookup_delete_eq.
    + intros k Hk. by rewrite lookup_insert_ne.
Qed.

(** **** Read miss: the peers *)

Lemma tryNodes_all_fail oid o hdr cachePerc nl s :
  (∀ n r, n ∈ nl → peerGet ρ n = inr r → getStatusCode r ≠ 200) →
  tryNodes oid o hdr cachePerc nl s =
    (Some ("Can't locate blob " +:+ oid),
     {| w := Http.Write ("Cannot locate blob " +:+ oid)
               (Http.WriteHeader 500 (w s));
        σ := σ s |}).
Proof.
  forget_unused.
  induction nl as [|sid nl IH]; intros Hbad; [reflexivity|].
  cbn [tryNodes].
  assert (∀ n r, n ∈ nl → peerGet ρ n = inr r → getStatusCode r ≠ 200)
    as Hbad'.
  { intros n r Hn. apply Hbad. by apply list_elem_of_further. }
  destruct (peerGet ρ sid) as [e|presp] eqn:Hsid; [by apply IH|].
  rewrite bool_decide_eq_true_2; [by apply IH|].
  apply (Hbad sid presp); [apply list_elem_of_here|done].
Qed.

Lemma tryNodes_skips oid o hdr cachePerc bad sid rest presp s :
  (∀ n r, n ∈ bad → peerGet ρ n = inr r → getStatusCode r ≠ 200) →
  peerGet ρ sid = inr presp → getStatusCode presp = 200 →
  tryNodes oid o hdr cachePerc (bad ++ sid :: rest) s =
    (copyResponseHeaders hdr;; WriteHeader 200;;
     cache ← cacheAdmission cachePerc o;
     copyFromPeer oid presp cache) s.
Proof.
  forget_unused.
  intros Hbad Hsid H200.
  induction bad as [|b bad IH]; cbn [tryNodes app].
  { rewrite Hsid. by rewrite bool_decide_eq_false_2 by (by intros ?). }
  assert (∀ n r, n ∈ bad → peerGet ρ n = inr r → getStatusCode r ≠ 200)
    as Hbad'.
  { intros n r Hn. apply Hbad. by apply list_elem_of_further. }
  destruct (peerGet ρ b) as [e|pb] eqn:Hb; [by apply IH|].
  rewrite bool_decide_eq_true_2; [by apply IH|].
  apply (Hbad b pb); [apply list_elem_of_here|done].
Qed.

(** the calls of the admission test *)
Lemma cacheAdmission_calls cachePerc o s :
  cacheAdmission cachePerc o s =
    (bool_decide (cachePerc = 100 ∨
                  (randIntn100 ρ < cachePerc ∧
                   freeSpace ρ > uint64 (Ownership.Length o))),
     {| w := w s;
        σ := with_calls
               (calls (σ s) ++
                if bool_decide (cachePerc = 100) then []
                else if bool_decide (cachePerc > randIntn100 ρ)
                     then [RandIntn_; AvailableSpace_] else [RandIntn_])
               (σ s) |}).
Proof.
  forget_unused.
  unfold cacheAdmission, randIntn, availableSpace. exec.
  case_bd H100; exec.
  { rewrite app_nil_r. rewrite bool_decide_eq_true_2 by (by left).
    by destruct s as [? []]. }
  case_bd Hdraw; exec.
  - rewrite <- app_assoc. f_equal.
    apply bool_decide_ext. split; [intros; right; lia|].
    intros [?|[? ?]]; [done|lia].
  - f_equal. symmetry. apply bool_decide_eq_false_2.
    intros [?|[? ?]]; [done|lia].
Qed.

Lemma copyFromPeer_uncached oid presp s :
  copyFromPeer oid presp false s =
    (getBodyErr presp,
     {| w := Http.Write (getBody presp) (w s); σ := σ s |}).
Proof.
  forget_unused.
  unfold copyFromPeer. exec. by destruct (getBodyErr presp).
Qed.

Lemma tmp_written (T : gmap nat string) b :
  alter (λ c, c +:+ b) (fresh (dom T)) (<[fresh (dom T) := ""]> T)
  = <[fresh (dom T) := b]> T.
Proof. by rewrite alter_insert_eq. Qed.

Lemma tmp_finished (T : gmap nat string) b :
  delete (fresh (dom T)) (<[fresh (dom T) := b]> T) = T.
Proof. rewrite delete_insert_eq. apply delete_id, fresh_tmp. Qed.

(** [copyFromPeer] with a Digest Writer asked for *)
Lemma copyFromPeer_cached oid presp s :
  let n := fresh (dom (tmpfiles (σ s))) in
  let b := getBody presp in
  let r := copyFromPeer oid presp true s in
  let linked :=
    tmpErr ρ = None ∧ getBodyErr presp = None ∧
    (oid = "" ∨ oid = hashOf b) ∧
    (is_Some (blobs (σ s) !! hashOf b) ∨ linkErr ρ = None) in
  r.1 = getBodyErr presp ∧
  w r.2 = Http.Write b (w s) ∧
  files (σ r.2) = files (σ s) ∧ owners (σ r.2) = owners (σ s) ∧
  fetchQueue (σ r.2) = fetchQueue (σ s) ∧
  tmpfiles (σ r.2) =
    (if bool_decide (tmpErr ρ = None ∧ getBodyErr presp ≠ None)
     then <[n := b]> (tmpfiles (σ s)) else tmpfiles (σ s)) ∧
  blobs (σ r.2) =
    (if bool_decide (linked ∧ blobs (σ s) !! hashOf b = None)
     then <[hashOf b := b]> (blobs (σ s)) else blobs (σ s)) ∧
  calls (σ r.2) =
    calls (σ s) ++ [NewHashRecord_ oid] ++
    (if bool_decide (tmpErr ρ = None ∧ getBodyErr presp = None)
     then [Finish_ n] else []) ++
    (if bool_decide linked
     then [Go_RecordBlobOwnership oid (Str.len b)] else []).
Proof.
  forget_unused. cbv zeta.
  unfold copyFromPeer, NewHashRecord, hashRecord_Write, Finish, dropTmp. exec.
  destruct (tmpErr ρ) as [e|]; exec.
  { destruct (getBodyErr presp); done. }
  rewrite tmp_written.
  destruct (getBodyErr presp) as [e|] eqn:Hbe; exec.
  { done. }
  rewrite lookup_insert_eq. exec.
  case_bd Hx; exec.
  { rewrite tmp_finished.
    rewrite !bool_decide_eq_false_2; [by rewrite <- !app_assoc| |].
    - intros (_ & _ & [?|?] & _); by destruct Hx.
    - intros [(_ & _ & [?|?] & _) _]; by destruct Hx. }
  assert (oid = "" ∨ oid = hashOf (getBody presp)) as Hx'.
  { destruct (decide (oid = "")); [by left|right].
    destruct (decide (oid = hashOf (getBody presp))); [done|].
    by destruct Hx. }
  case_bd Hb; exec.
  { rewrite tmp_finished.
    rewrite (bool_decide_eq_true_2 (_ ∧ _ ∧ _ ∧ _))
      by (split_and!; try done; by left).
    rewrite bool_decide_eq_false_2.
    2:{ intros [_ Hn]. rewrite Hn in Hb. by destruct Hb. }
    by rewrite <- !app_assoc. }
  apply eq_None_not_Some in Hb.
  destruct (linkErr ρ) as [e|]; exec; rewrite tmp_finished.
  - rewrite !bool_decide_eq_false_2; [by rewrite <- !app_assoc| |].
    + intros (_ & _ & _ & [[? Hs]|?]); [|done]. by rewrite Hb in Hs.
    + intros [(_ & _ & _ & [[? Hs]|?]) _]; [|done]. by rewrite Hb in Hs.
  - rewrite !bool_decide_eq_true_2; [by rewrite <- !app_assoc| |];
      split_and!; try done; by right.
Qed.


(** a read miss, from the Ownership Record to the peer that answers *)
Lemma getBlobFromRemote_served oid hdr cachePerc s o bad sid rest presp :
  getErr ρ = None →
  owners (σ s) !! oidkey oid = Some o →
  ResolveRemoteNodes o = bad ++ sid :: rest →
  (∀ n r, n ∈ bad → peerGet ρ n = inr r → getStatusCode r ≠ 200) →
  peerGet ρ sid = inr presp → getStatusCode presp = 200 →
  getBlobFromRemote oid hdr cachePerc s =
    copyFromPeer oid presp
      (bool_decide (cachePerc = 100 ∨
                    (randIntn100 ρ < cachePerc ∧
                     freeSpace ρ > uint64 (Ownership.Length o))))
      {| w := Http.WriteHeader 200
                {| Http.status := Http.status (w s);
                   Http.header :=
                     filter (λ kv, isResponseHeader kv.1 = true) hdr
                       ∪ Http.header (w s);
                   Http.body := Http.body (w s);
                   Http.served := Http.served (w s) |};
         σ := with_calls
                (calls (σ s) ++
                 if bool_decide (cachePerc = 100) then []
                 else if bool_decide (cachePerc > randIntn100 ρ)
                      then [RandIntn_; AvailableSpace_] else [RandIntn_])
                (σ s) |}.
Proof.
  forget_unused.
  intros Hg Ho Hnl Hbad Hsid H200.
  unfold getBlobFromRemote, couchbase_GetOwnership. rewrite Hg. exec.
  rewrite Ho. exec. rewrite Hnl.
  rewrite (tryNodes_skips _ _ _ _ _ _ _ _ _ Hbad Hsid H200).
  unfold copyResponseHeaders. exec.
  by rewrite cacheAdmission_calls.
Qed.

(** X21: a read miss for a digest whose Ownership Record cannot be read
    is answered 404 without a body; one whose owners all fail, by a
    transport error or a status other than 200, or that has no live
    owner but this node, is answered 500 with the text Cannot locate
    blob.  Both return an error and change nothing on the node. *)
Theorem remote_read_unavailable oid hdr cachePerc σ0 :
  let r := getBlobFromRemote oid hdr cachePerc
             {| w := Http.emptyResponse; σ := σ0 |} in
  (getErr ρ ≠ None ∨ owners σ0 !! oidkey oid = None →
   Http.status (w r.2) = Some 404 ∧ Http.body (w r.2) = "" ∧
   is_Some r.1 ∧ σ r.2 = σ0) ∧
  (∀ o, getErr ρ = None → owners σ0 !! oidkey oid = Some o →
        (∀ n presp, n ∈ ResolveRemoteNodes o → peerGet ρ n = inr presp →
                    getStatusCode presp ≠ 200) →
        Http.status (w r.2) = Some 500 ∧
        Http.body (w r.2) = "Cannot locate blob " +:+ oid ∧
        Http.header (w r.2) = ∅ ∧
        is_Some r.1 ∧ σ r.2 = σ0).
Proof.
  forget_unused. cbv zeta.
  unfold getBlobFromRemote, couchbase_GetOwnership. exec.
  destruct (getErr ρ) as [e|]; exec.
  { split; [|done]. intros _. split_and!; done. }
  destruct (owners σ0 !! oidkey oid) as [o|]; exec.
  - split; [by intros [?|?]|]. intros o' _ [= <-] Hbad.
    rewrite (tryNodes_all_fail _ _ _ _ _ _ Hbad). cbn.
    split_and!; done.
  - split; [|done]. intros _. split_and!; done.
Qed.


(** split on a test in [H], with the decision procedure as it stands
    there *)
Ltac case_at H :=
  match type of H with
  | context [@bool_decide ?P ?d] =>
      let E := fresh "E" in
      destruct (@bool_decide_reflect P d) as [E|E]
  end.

Ltac in_calls H :=
  repeat (apply elem_of_cons in H as [H|H];
          [try discriminate H; try (injection H as ?; subst)|]);
  try (by apply elem_of_nil in H).

Ltac here :=
  repeat first [apply list_elem_of_here | apply list_elem_of_further].


(** X24: on a read miss whose peer answers 200 but whose body breaks
    off, the client has got status 200 and the bytes delivered so far,
    the error is returned, nothing is linked into the blob directory and
    no ownership is recorded; a Digest Writer that was opened is neither
    finished nor closed, and its temp file, holding those bytes, stays
    behind. *)
Theorem remote_read_truncated
    oid hdr cachePerc σ0 o bad sid rest presp e :
  getErr ρ = None →
  owners σ0 !! oidkey oid = Some o →
  ResolveRemoteNodes o = bad ++ sid :: rest →
  (∀ n r, n ∈ bad → peerGet ρ n = inr r → getStatusCode r ≠ 200) →
  peerGet ρ sid = inr presp → getStatusCode presp = 200 →
  getBodyErr presp = Some e →
  let r := getBlobFromRemote oid hdr cachePerc
             {| w := Http.emptyResponse; σ := σ0 |} in
  let tr := callsOf (getBlobFromRemote oid hdr cachePerc) σ0 in
  let opened :=
    (cachePerc = 100 ∨
     (randIntn100 ρ < cachePerc ∧
      freeSpace ρ > uint64 (Ownership.Length o))) ∧
    tmpErr ρ = None in
  r.1 = Some e ∧
  Http.status (w r.2) = Some 200 ∧ Http.body (w r.2) = getBody presp ∧
  blobs (σ r.2) = blobs σ0 ∧
  (∀ l, Go_RecordBlobOwnership oid l ∉ tr) ∧
  (∀ n, (Finish_ n ∉ tr) ∧ (Close_ n ∉ tr)) ∧
  (opened →
   tmpfiles (σ r.2) =
     <[fresh (dom (tmpfiles σ0)) := getBody presp]> (tmpfiles σ0)) ∧
  (¬ opened → tmpfiles (σ r.2) = tmpfiles σ0).
Proof.
  forget_unused.
  intros Hg Ho Hnl Hbad Hsid H200 Hbe. cbv zeta.
  unfold callsOf, run.
  rewrite (getBlobFromRemote_served _ _ _ _ o bad sid rest presp)
    by done.
  case_bd Hadm.
  2:{ rewrite copyFromPeer_uncached. cbn.
      rewrite drop_app_length.
      split_and!; try done.
      - intros l H. repeat case_at H; in_calls H.
      - intros n. split; intros H; repeat case_at H; in_calls H.
      - by intros [? _]. }
  match goal with
  | |- context [copyFromPeer ?a ?b true ?s] =>
      pose proof (copyFromPeer_cached a b s) as H;
        cbv zeta in H;
        destruct H as (Hr & Hw & _ & _ & _ & Ht & Hb & Hc);
        destruct (copyFromPeer a b true s) as [r s']
  end.
  cbn in Hr, Hw, Ht, Hb, Hc |- *. rewrite Hr, Hw, Ht, Hb, Hc, Hbe.
  rewrite (bool_decide_eq_false_2 (_ ∧ Some e = None))
    by (by intros [_ ?]).
  rewrite (bool_decide_eq_false_2 (_ ∧ Some e = None ∧ _))
    by (by intros (_ & ? & _)).
  rewrite (bool_decide_eq_false_2 ((_ ∧ Some e = None ∧ _) ∧ _))
    by (by intros [(_ & ? & _) _]).
  rewrite <- app_assoc, drop_app_length. cbn.
  split_and!; try done.
  - intros l H. apply elem_of_app in H as [H|H].
    { repeat case_at H; in_calls H. }
    in_calls H.
  - intros n. split; intros H; (apply elem_of_app in H as [H|H];
      [repeat case_at H; in_calls H|in_calls H]).
  - intros [_ Ht']. rewrite bool_decide_eq_true_2; done.
  - intros Hno. rewrite bool_decide_eq_false_2; [done|].
    intros [? _]. by apply Hno.
Qed.

(** **** Fetch requests, deletions *)

(** X25: a GET on /.cbfs/fetch/<oid> whose Ownership Record cannot be
    read is answered 404 without a body and changes nothing; and the
    answer to any fetch request does not depend on the blob directory:
    a blob that the node holds already is queued like any other. *)
Theorem fetch_request_outcome req σ0 oid :
  Http.Method req = "GET" →
  Http.URLPath req = fetchPrefix +:+ oid →
  let st := run (httpHandler req) σ0 in
  (getErr ρ ≠ None ∨ owners σ0 !! oidkey oid = None →
   Http.status (w st) = Some 404 ∧ Http.body (w st) = "" ∧ σ st = σ0) ∧
  (∀ b, w (run (httpHandler req) (with_blobs b σ0)) = w st ∧
        fetchQueue (σ (run (httpHandler req) (with_blobs b σ0)))
          = fetchQueue (σ st)).
Proof.
  intros Hm Hp. cbv zeta.
  rewrite (httpHandler_GET _ Hm), (doGet_fetch _ _ Hp).
  unfold run, doFetchDoc, couchbase_GetOwnership, availableSpace,
    queueBlobFetch. exec.
  destruct (getErr ρ) as [e|]; exec; [done|].
  destruct (owners σ0 !! oidkey oid) as [o|]; exec.
  - split; [by intros [?|?]|]. intros b. case_bd_goal; done.
  - done.
Qed.

(** X26: a DELETE on /.cbfs/blob/<oid> is answered 400 exactly when the
    Ownership Record of <oid> is read and its most recent reference is
    less than an hour old: a record that is absent or cannot be read
    does not protect the blob.  In every other case [removeObject] is
    called, once and alone; the answer is 204 exactly when the blob was
    there and 404 exactly when it was not, and the blob is gone. *)
Theorem delete_blob_outcome req σ0 oid :
  Http.Method req = "DELETE" →
  Http.URLPath req = blobPrefix +:+ oid →
  let st := run (httpHandler req) σ0 in
  let recent :=
    getErr ρ = None ∧
    ∃ ob, owners σ0 !! oidkey oid = Some ob ∧
          now ρ - (mostRecent ob).2 < Time.Hour in
  (Http.status (w st) = Some 400 ↔ recent) ∧
  (¬ recent →
   callsOf (httpHandler req) σ0 = [RemoveObject_ oid] ∧
   (Http.status (w st) = Some 204 ↔ is_Some (blobs σ0 !! oid)) ∧
   (Http.status (w st) = Some 404 ↔ blobs σ0 !! oid = None) ∧
   blobs (σ st) = delete oid (blobs σ0)).
Proof.
  intros Hm Hp. cbv zeta.
  rewrite (httpHandler_DELETE _ Hm), (doDelete_blob _ _ Hp).
  unfold callsOf, run, doDeleteOID, getBlobOwnership, couchbase_GetOwnership,
    removeObject.
  rewrite Hp, minusPrefix_app. exec.
  assert (∀ (P : Prop),
    ¬ P →
    let st := (rerr ← (call (RemoveObject_ oid);;
                       σ' ← getWorld;
                       match blobs σ' !! oid with
                       | Some _ =>
                           world (λ σ1, with_blobs (delete oid (blobs σ1)) σ1);;
                           mret None
                       | None => mret (Some "NotFound")
                       end);
               match rerr with
               | None => WriteHeader 204
               | Some e => WriteHeader 404;; Write e
               end) {| w := Http.emptyResponse; σ := σ0 |} in
    (Http.status (w st.2) = Some 400 ↔ P) ∧
    (¬ P →
     drop (length (calls σ0)) (calls (σ st.2)) = [RemoveObject_ oid] ∧
     (Http.status (w st.2) = Some 204 ↔ is_Some (blobs σ0 !! oid)) ∧
     (Http.status (w st.2) = Some 404 ↔ blobs σ0 !! oid = None) ∧
     blobs (σ st.2) = delete oid (blobs σ0))) as Hdel.
  { intros P HP. exec.
    destruct (blobs σ0 !! oid) as [c|] eqn:Hb; exec;
      rewrite drop_app_length;
      (split; [done|]); intros _; split_and!; try done;
      try (split; [done|]; first [by exists c | by intros [? ?]]);
      try (symmetry; by apply delete_id). }
  destruct (getErr ρ) as [e|]; exec.
  { apply Hdel. by intros [? _]. }
  destruct (owners σ0 !! oidkey oid) as [ob|]; exec.
  2:{ apply Hdel. by intros (_ & ? & ? & _). }
  destruct (mostRecent ob) as [n t] eqn:Hmr. cbn.
  case_bd Hage; exec.
  - apply Since_lt_Hour in Hage. split.
    + split; [|done]. intros _. split; [done|]. exists ob.
      rewrite Hmr. done.
    + intros Hno. destruct Hno. split; [done|]. exists ob. by rewrite Hmr.
  - apply Hdel. intros (_ & ob' & [= <-] & Hlt). rewrite Hmr in Hlt.
    apply Hage, Since_lt_Hour. done.
Qed.

Lemma doDelete_user req :
  Str.HasPrefix (Http.URLPath req) "/.cbfs/" = false →
  doDelete req = doDeleteUserDoc req.
Proof.
  intros Hp. unfold doDelete.
  rewrite (user_path_not_reserved _ blobPrefix eq_refl Hp).
  by rewrite Hp.
Qed.

(** X27: a DELETE on a user path is answered 204 exactly when the
    record of the resolved path is there and the store deletes it; that
    record is then gone and nothing else on the node has changed: no
    blob is removed, no Ownership Record touched.  Any other answer is
    404 and changes nothing. *)
Theorem delete_user_doc_outcome req σ0 :
  Http.Method req = "DELETE" →
  Str.HasPrefix (Http.URLPath req) "/.cbfs/" = false →
  let st := run (httpHandler req) σ0 in
  (Http.status (w st) = Some 204 ↔
   deleteErr ρ = None ∧ is_Some (files σ0 !! resolvePath req)) ∧
  (Http.status (w st) = Some 204 →
   σ st = with_files (delete (resolvePath req) (files σ0)) σ0) ∧
  (Http.status (w st) ≠ Some 204 →
   Http.status (w st) = Some 404 ∧ σ st = σ0).
Proof.
  intros Hm Hp. cbv zeta.
  rewrite (httpHandler_DELETE _ Hm), (doDelete_user _ Hp).
  unfold run, doDeleteUserDoc, couchbase_Delete. exec.
  destruct (deleteErr ρ) as [e|]; exec.
  { split_and!; try done. split; [done|]. by intros [? _]. }
  destruct (files σ0 !! resolvePath req) as [got|]; exec.
  - split_and!; done.
  - split_and!; try done. try (split; [done|]; by intros [_ [? ?]]).
Qed.

(** **** What a second request rests on *)

Lemma put_user_committed req σ0 :
  Http.Method req = "PUT" →
  Str.HasPrefix (Http.URLPath req) "/.cbfs/" = false →
  let st := run (httpHandler req) σ0 in
  let h := hashOf (Http.Body req) in
  Http.status (w st) = Some 201 →
  (∃ m, files (σ st) !! resolvePath req = Some m ∧
        OID m = h ∧ Headers m = Http.ReqHeader req ∧ Modified m = now ρ) ∧
  blobs (σ st) !! h = Some (default (Http.Body req) (blobs σ0 !! h)).
Proof.
  intros Hm Hp. cbv zeta. rewrite (httpHandler_PUT _ Hm), (doPut_user _ Hp).
  put_user_cases req σ0; rewrite Hs; [done|done|]. intros _.
  rewrite Hf. split; [|done].
  eexists. rewrite lookup_insert_eq. split; [reflexivity|]. done.
Qed.

Lemma get_user_doc_local req σ0 got content :
  Http.Method req = "GET" →
  Str.HasPrefix (Http.URLPath req) "/.cbfs/" = false →
  getErr ρ = None →
  files σ0 !! resolvePath req = Some got →
  Http.FormValue req "rev" = "" →
  Http.unconditional req →
  blobs σ0 !! OID got = Some content →
  let st := run (httpHandler req) σ0 in
  let rh := Http.header (w st) in
  Http.status (w st) = Some 200 ∧ Http.body (w st) = content ∧
  Http.Get rh "Etag" = quoted (OID got) ∧
  Http.Get rh "Content-Length" = Strconv.Itoa (Str.len content) ∧
  (Modified got ≠ Time.zero → Modified got ≠ 0 →
   Http.Get rh "Last-Modified" = formatTime (Modified got)) ∧
  (is_Some (Headers got !! "Content-Type") →
   rh !! "Content-Type" = Headers got !! "Content-Type").
Proof.
  intros Hm Hp Hg Hf Hrev Hu Hb. cbv zeta.
  rewrite (httpHandler_GET _ Hm), (doGet_user _ Hp).
  rewrite (doGetUserDoc_current req σ0 got Hg Hf Hrev). cbv zeta.
  rewrite bool_decide_eq_false_2 by (by apply unconditional_no_match).
  assert (Http.Method req ≠ "HEAD") as Hmh by (by rewrite Hm).
  match goal with
  | |- context [serveBlob req ?p ?o ?h ?m ?s] =>
      pose proof (serveBlob_local req p o h m s content Hb Hu Hmh) as H;
        cbv zeta in H;
        destruct H as (_ & H200 & Hbd & _ & Het & Hcl & Hty & Hlm & _);
        [done|done|done|done|]
  end.
  split_and!; try done.
  - intros Hz He0. rewrite Hlm. rewrite bool_decide_eq_false_2; [done|].
    by intros [?|?].
  - intros [v Hv]. by rewrite Hty, Hv.
Qed.

Lemma delete_user_committed req σ0 :
  Http.Method req = "DELETE" →
  Str.HasPrefix (Http.URLPath req) "/.cbfs/" = false →
  let st := run (httpHandler req) σ0 in
  Http.status (w st) = Some 204 →
  σ st = with_files (delete (resolvePath req) (files σ0)) σ0.
Proof.
  intros Hm Hp. cbv zeta.
  rewrite (httpHandler_DELETE _ Hm), (doDelete_user _ Hp).
  unfold run, doDeleteUserDoc, couchbase_Delete. exec.
  destruct (deleteErr ρ) as [e|]; exec; [done|].
  destruct (files σ0 !! resolvePath req) as [got|]; exec; done.
Qed.

(** a path without record, under each of the three methods *)
Lemma user_doc_absent req σ0 :
  Str.HasPrefix (Http.URLPath req) "/.cbfs/" = false →
  files σ0 !! resolvePath req = None →
  Http.Method req = "GET" ∨ Http.Method req = "HEAD" ∨
  Http.Method req = "DELETE" →
  let st := run (httpHandler req) σ0 in
  Http.status (w st) = Some 404 ∧ σ st = σ0.
Proof.
  intros Hp Hf [Hm|[Hm|Hm]]; cbv zeta.
  - rewrite (httpHandler_GET _ Hm), (doGet_user _ Hp).
    unfold run, doGetUserDoc, couchbase_Get. exec.
    destruct (getErr ρ); exec; [done|]. rewrite Hf. done.
  - rewrite (httpHandler_HEAD _ Hm).
    unfold run, doHead, couchbase_Get. exec.
    destruct (getErr ρ); exec; [done|]. rewrite Hf. done.
  - rewrite (httpHandler_DELETE _ Hm), (doDelete_user _ Hp).
    unfold run, doDeleteUserDoc, couchbase_Delete. exec.
    destruct (deleteErr ρ); exec; [done|]. rewrite Hf. done.
Qed.

Lemma put_meta_committed req σ0 key :
  Http.Method req = "PUT" →
  Http.URLPath req = metaPrefix +:+ key →
  let st := run (httpHandler req) σ0 in
  Http.status (w st) = Some 201 →
  ∃ m r, decodeRaw (Http.Body req) = inr r ∧
         files (σ st) !! key = Some m ∧ Userdata m = Some r.
Proof.
  intros Hm Hp. cbv zeta.
  rewrite (httpHandler_PUT _ Hm), (doPut_meta _ _ Hp).
  unfold run, putMeta, couchbase_Get, couchbase_Set. exec.
  destruct (getErr ρ) as [e|]; exec; [done|].
  destruct (files σ0 !! key) as [got|]; exec; [|done].
  destruct (decodeRaw (Http.Body req)) as [e|r]; exec; [done|].
  destruct (setErr ρ) as [e|]; exec; [done|].
  intros _. eexists _, r. split; [done|].
  rewrite lookup_insert_eq. done.
Qed.

Lemma get_meta_found req σ0 key got :
  Http.Method req = "GET" →
  Http.URLPath req = metaPrefix +:+ key →
  getErr ρ = None →
  files σ0 !! key = Some got →
  let st := run (httpHandler req) σ0 in
  Http.status (w st) = Some 200 ∧
  Http.body (w st) = default "{}" (Userdata got) ∧ σ st = σ0.
Proof.
  intros Hm Hp Hg Hf. cbv zeta.
  rewrite (httpHandler_GET _ Hm), (doGet_meta _ _ Hp).
  unfold run, doGetMeta, couchbase_Get. rewrite Hg. exec. rewrite Hf. done.
Qed.
End Node.

Example Atoi_42 : Strconv.Atoi "42" = Some 42.
Proof. reflexivity. Qed.
Example Atoi_neg : Strconv.Atoi "-7" = Some (-7).
Proof. reflexivity. Qed.
Example Atoi_bad : Strconv.Atoi "4x" = None ∧ Strconv.Atoi "" = None ∧ Strconv.Atoi "-" = None.
Proof. repeat split; reflexivity. Qed.
Example Atoi_range : Strconv.Atoi "9223372036854775808" = None.
Proof. reflexivity. Qed.
Example Itoa_12 : Strconv.Itoa 12 = "12" ∧ Strconv.Itoa (-3) = "-3".
Proof. split; vm_compute; reflexivity. Qed.
Example canon_keeprevs : Http.CanonicalHeaderKey "X-CBFS-KeepRevs" = "X-Cbfs-Keeprevs".
Proof. reflexivity. Qed.
Example canon_inm : Http.CanonicalHeaderKey "If-None-Match" = "If-None-Match".
Proof. reflexivity. Qed.

(** ** One request after another *)

Section RoundTrips.

(** the surroundings of the first and of the second request *)
Variables ρ1 ρ2 : Env.
(** the node, as in the section above *)
Variable hashOf : string → string.
Variable serverId : string.
Variable cachePercentage : Z.
Variable enableViewProxy : bool.
Variable decodeRaw : string → string + string.
Variable decodeConfig : string → string + CBFSConfig.
Variable formatTime : Z → string.
Variable detectContentType : string → string → string.
Variable serveConditional
  : Http.Request → string → Z → string →
    Http.ResponseWriter → Http.ResponseWriter.
Variable doList doListNodes doGetConfig : Http.Request → M unit.
Variable proxyViewRequest doListDocs doZipDocs dofsck
  : Http.Request → string → M unit.

(** the handler, and a property of it, in surroundings [ρ] *)
Local Abbreviation node ρ :=
  (httpHandler ρ hashOf serverId cachePercentage enableViewProxy
     decodeRaw decodeConfig formatTime detectContentType serveConditional
     doList doListNodes doGetConfig
     proxyViewRequest doListDocs doZipDocs dofsck).
Local Abbreviation inNode thm ρ :=
  (thm ρ hashOf serverId cachePercentage enableViewProxy
     decodeRaw decodeConfig formatTime detectContentType serveConditional
     doList doListNodes doGetConfig
     proxyViewRequest doListDocs doZipDocs dofsck).

(** X28: after a PUT on a user path answered 201, on a node where the
    digest of the body names no other content, a GET without rev and
    without precondition and range headers on a path that resolves to
    the same key, whatever happens to the node's surroundings in
    between short of a failing read of the record, is answered 200 with
    the body of the PUT, its quoted digest as entity tag, its length as
    Content-Length and the Content-Type of the PUT. *)
Theorem put_then_get_round_trip put get σ0 :
  Http.Method put = "PUT" → Http.Method get = "GET" →
  Str.HasPrefix (Http.URLPath put) "/.cbfs/" = false →
  Str.HasPrefix (Http.URLPath get) "/.cbfs/" = false →
  resolvePath get = resolvePath put →
  Http.FormValue get "rev" = "" → Http.unconditional get →
  getErr ρ2 = None →
  (∀ c, blobs σ0 !! hashOf (Http.Body put) = Some c → c = Http.Body put) →
  let st1 := run (node ρ1 put) σ0 in
  Http.status (w st1) = Some 201 →
  let st2 := run (node ρ2 get) (σ st1) in
  Http.status (w st2) = Some 200 ∧
  Http.body (w st2) = Http.Body put ∧
  Http.Get (Http.header (w st2)) "Etag" = quoted (hashOf (Http.Body put)) ∧
  Http.Get (Http.header (w st2)) "Content-Length"
    = Strconv.Itoa (Str.len (Http.Body put)) ∧
  (is_Some (Http.ReqHeader put !! "Content-Type") →
   Http.header (w st2) !! "Content-Type"
     = Http.ReqHeader put !! "Content-Type").
Proof.
  intros Hm1 Hm2 Hp1 Hp2 Hres Hrev Hu Hg Hinv st1 H201 st2.
  destruct (inNode put_user_committed ρ1 put σ0 Hm1 Hp1 H201)
    as [(m & Hfm & Hoid & Hhdr & Hmod) Hblob].
  fold st1 in Hfm, Hblob.
  assert (blobs (σ st1) !! OID m = Some (Http.Body put)) as Hb.
  { rewrite Hoid, Hblob.
    destruct (blobs σ0 !! hashOf (Http.Body put)) as [c|] eqn:Hc; [|done].
    cbn. by rewrite (Hinv c eq_refl). }
  rewrite <- Hres in Hfm.
  destruct (inNode get_user_doc_local ρ2 get (σ st1) m (Http.Body put)
              Hm2 Hp2 Hg Hfm Hrev Hu Hb)
    as (H1 & H2 & H3 & H4 & _ & H6).
  fold st2 in H1, H2, H3, H4, H6.
  rewrite Hoid in H3. rewrite Hhdr in H6. done.
Qed.

(** X29: after a DELETE on a user path answered 204, which removed no
    blob and touched no Ownership Record, a GET, a HEAD and another
    DELETE on a path that resolves to the same key are answered 404 and
    change nothing. *)
Theorem delete_then_gone del req σ0 :
  Http.Method del = "DELETE" →
  Str.HasPrefix (Http.URLPath del) "/.cbfs/" = false →
  Str.HasPrefix (Http.URLPath req) "/.cbfs/" = false →
  resolvePath req = resolvePath del →
  Http.Method req = "GET" ∨ Http.Method req = "HEAD" ∨
  Http.Method req = "DELETE" →
  let st1 := run (node ρ1 del) σ0 in
  Http.status (w st1) = Some 204 →
  let st2 := run (node ρ2 req) (σ st1) in
  blobs (σ st1) = blobs σ0 ∧ owners (σ st1) = owners σ0 ∧
  Http.status (w st2) = Some 404 ∧ σ st2 = σ st1.
Proof.
  intros Hm1 Hp1 Hp2 Hres Hm2 st1 H204 st2.
  pose proof (inNode delete_user_committed ρ1 del σ0 Hm1 Hp1 H204) as Hσ.
  fold st1 in Hσ.
  assert (files (σ st1) !! resolvePath req = None) as Hgone.
  { rewrite Hσ, Hres. cbn. apply lookup_delete_eq. }
  destruct (inNode user_doc_absent ρ2 req (σ st1) Hp2 Hgone Hm2)
    as [H404 Hsame].
  fold st2 in H404, Hsame. rewrite Hσ in Hsame |- *. done.
Qed.

(** X30: after a PUT on /.cbfs/meta/<key> answered 201, a GET on
    /.cbfs/meta/<key> that reads the record is answered 200 with the
    userdata that the body of the PUT decoded to, and changes
    nothing. *)
Theorem put_meta_then_get_meta put get σ0 key :
  Http.Method put = "PUT" → Http.Method get = "GET" →
  Http.URLPath put = metaPrefix +:+ key →
  Http.URLPath get = metaPrefix +:+ key →
  getErr ρ2 = None →
  let st1 := run (node ρ1 put) σ0 in
  Http.status (w st1) = Some 201 →
  let st2 := run (node ρ2 get) (σ st1) in
  ∃ r, decodeRaw (Http.Body put) = inr r ∧
       Http.status (w st2) = Some 200 ∧ Http.body (w st2) = r ∧
       σ st2 = σ st1.
Proof.
  intros Hm1 Hm2 Hp1 Hp2 Hg st1 H201 st2.
  destruct (inNode put_meta_committed ρ1 put σ0 key Hm1 Hp1 H201)
    as (m & r & Hd & Hfm & Hu).
  fold st1 in Hfm.
  destruct (inNode get_meta_found ρ2 get (σ st1) key m Hm2 Hp2 Hg Hfm)
    as (H200 & Hbody & Hsame).
  fold st2 in H200, Hbody, Hsame.
  exists r. rewrite Hu in Hbody. done.
Qed.

End RoundTrips.

(** ** The node at sample requests *)

(** the handler of a sample node in surroundings [ρ], with the cache
    percentage [c] *)
Local Abbreviation sampleHandler ρ c :=
  (httpHandler ρ Sample.hashOf Sample.serverId c false
     Sample.decodeRaw Sample.decodeConfig Sample.formatTime Sample.detectContentType
     Sample.serveConditional
     Sample.elsewhere Sample.elsewhere Sample.elsewhere
     Sample.elsewhere2 Sample.elsewhere2 Sample.elsewhere2 Sample.elsewhere2).

Local Ltac member :=
  repeat first [apply list_elem_of_here | apply list_elem_of_further].

(** evaluate a property at its sample input and leave its hypotheses *)
Local Ltac at_sample H :=
  cbv zeta; cbv zeta in H; vm_compute in H |- *; apply H.

(** a single node stores [/foo/bar] and serves it back *)
Example put_then_get :
  let put := Sample.request "PUT" "/foo/bar"
               {[ "Content-Type" := ["text/plain"] ]} ∅ "hello" in
  let st1 := run (sampleHandler Sample.quiet 100 put) Sample.empty in
  let get := Sample.request "GET" "/foo/bar" ∅ ∅ "" in
  let st2 := run (sampleHandler Sample.quiet 100 get) (σ st1) in
  Http.status (w st1) = Some 201 ∧
  Revno <$> files (σ st1) !! "foo/bar" = Some 1 ∧
  blobs (σ st1) !! "d5" = Some "hello" ∧
  tmpfiles (σ st1) = ∅ ∧
  Http.status (w st2) = Some 200 ∧
  Http.body (w st2) = "hello" ∧
  Http.srvContent <$> Http.served (w st2) = Some "hello" ∧
  Http.header (w st2) !! "Content-Type" = Some ["text/plain"] ∧
  Http.header (w st2) !! "Content-Length" = Some ["5"] ∧
  Http.header (w st2) !! "Etag" = Some [quoted "d5"].
Proof. cbv zeta. repeat split; vm_compute; reflexivity. Qed.

(** a replicated PUT whose peer stored the same digest *)
Example put_replicated :
  let ρ := Sample.withPeer
             (inr {| postStatusCode := 201; postStatus := "201 Created";
                     postHash := "d5"; postBodyErr := None |}) in
  let put := Sample.request "PUT" "/x" ∅ ∅ "hello" in
  let st := run (sampleHandler ρ 100 put) Sample.empty in
  Http.status (w st) = Some 201 ∧
  callsOf (sampleHandler ρ 100 put) Sample.empty =
    [NewHashRecord_ ""; Process_ 0; Finish_ 0; RecordBlobOwnership_ "d5" 5;
     AwaitPeer_ (Some {| node := "n2:8484"; hs := "d5"; err := None |});
     StoreMeta_ "x" 3; Close_ 0].
Proof. cbv zeta. split; vm_compute; reflexivity. Qed.

(** a replicated PUT whose peer stored another digest: the request fails
    and the path is not written *)
Example put_replica_diverges :
  let ρ := Sample.withPeer
             (inr {| postStatusCode := 201; postStatus := "201 Created";
                     postHash := "d9"; postBodyErr := None |}) in
  let put := Sample.request "PUT" "/x" ∅ ∅ "hello" in
  let st := run (sampleHandler ρ 100 put) Sample.empty in
  Http.status (w st) = Some 500 ∧
  files (σ st) = ∅ ∧
  blobs (σ st) !! "d5" = Some "hello".
Proof. cbv zeta. repeat split; vm_compute; reflexivity. Qed.

(** a blob last referenced two hours ago is removed on DELETE *)
Example delete_old_blob :
  let del := Sample.request "DELETE" "/.cbfs/blob/d5" ∅ ∅ "" in
  let st := run (sampleHandler Sample.quiet 100 del) (Sample.ownedAt 0) in
  Http.status (w st) = Some 204 ∧ blobs (σ st) !! "d5" = None.
Proof. cbv zeta. split; vm_compute; reflexivity. Qed.

(** a raw upload under its own digest *)
Example put_raw_blob :
  let put := Sample.request "PUT" "/.cbfs/blob/d5" ∅ ∅ "hello" in
  let st := run (sampleHandler Sample.quiet 100 put) Sample.empty in
  Http.status (w st) = Some 201 ∧
  Http.header (w st) !! "X-Cbfs-Hash" = Some ["d5"] ∧
  blobs (σ st) !! "d5" = Some "hello" ∧
  is_Some (owners (σ st) !! "/d5").
Proof.
  cbv zeta. repeat split; try (vm_compute; reflexivity).
  vm_compute. eexists. reflexivity.
Qed.

(** a replicated PUT whose peer answers 500 *)
Lemma put_user_replica_failure_witness :
  let ρ := Sample.withPeer (inr Sample.peerRefuses) in
  let req := Sample.request "PUT" "/foo/bar" ∅ ∅ "hello" in
  let st := run (sampleHandler ρ 100 req) Sample.empty in
  Http.status (w st) = Some 500 ∧
  files (σ st) = files Sample.empty ∧
  (∀ path revs,
     StoreMeta_ path revs ∉ callsOf (sampleHandler ρ 100 req) Sample.empty) ∧
  is_Some (blobs (σ st) !! Sample.hashOf "hello").
Proof.
  pose proof (put_user_replica_failure
           (Sample.withPeer (inr Sample.peerRefuses)) Sample.hashOf
           Sample.serverId 100 false Sample.decodeRaw Sample.decodeConfig
           Sample.formatTime Sample.detectContentType
     Sample.serveConditional Sample.elsewhere Sample.elsewhere
           Sample.elsewhere Sample.elsewhere2 Sample.elsewhere2
           Sample.elsewhere2 Sample.elsewhere2
           (Sample.request "PUT" "/foo/bar" ∅ ∅ "hello") Sample.empty
           Sample.refused) as H.
  at_sample H.
  - reflexivity.
  - reflexivity.
  - member.
  - left. discriminate.
Defined.

Lemma put_user_ownership_precedes_replica_witness :
  let ρ := Sample.withPeer (inr Sample.peerRefuses) in
  let req := Sample.request "PUT" "/foo/bar" ∅ ∅ "hello" in
  let st := run (sampleHandler ρ 100 req) Sample.empty in
  Http.status (w st) = Some 500 ∧
  callsOf (sampleHandler ρ 100 req) Sample.empty =
    [NewHashRecord_ ""; Process_ 0; Finish_ 0;
     RecordBlobOwnership_ "d5" 5; AwaitPeer_ (Some Sample.refused);
     Close_ 0] ∧
  ∃ o, owners (σ st) !! oidkey "d5" = Some o ∧
       Ownership.Nodes o !! Sample.serverId = Some (now ρ) ∧
       Ownership.Length o = 5.
Proof.
  pose proof (put_user_ownership_precedes_replica
           (Sample.withPeer (inr Sample.peerRefuses)) Sample.hashOf
           Sample.serverId 100 false Sample.decodeRaw Sample.decodeConfig
           Sample.formatTime Sample.detectContentType
     Sample.serveConditional Sample.elsewhere Sample.elsewhere
           Sample.elsewhere Sample.elsewhere2 Sample.elsewhere2
           Sample.elsewhere2 Sample.elsewhere2
           (Sample.request "PUT" "/foo/bar" ∅ ∅ "hello") Sample.empty
           Sample.refused) as H.
  at_sample H.
  - reflexivity.
  - reflexivity.
  - member.
  - left. discriminate.
Defined.

(** five bytes uploaded under the digest of nine *)
Lemma put_blob_digest_mismatch_witness :
  let req := Sample.request "PUT" "/.cbfs/blob/d9" ∅ ∅ "hello" in
  let st := run (sampleHandler Sample.quiet 100 req) Sample.empty in
  Http.status (w st) = Some 500 ∧
  tmpfiles (σ st) = tmpfiles Sample.empty ∧
  owners (σ st) = owners Sample.empty ∧
  blobs (σ st) = blobs Sample.empty.
Proof.
  pose proof (put_blob_digest_mismatch
           Sample.quiet Sample.hashOf
           Sample.serverId 100 false Sample.decodeRaw Sample.decodeConfig
           Sample.formatTime Sample.detectContentType
     Sample.serveConditional Sample.elsewhere Sample.elsewhere
           Sample.elsewhere Sample.elsewhere2 Sample.elsewhere2
           Sample.elsewhere2 Sample.elsewhere2
           (Sample.request "PUT" "/.cbfs/blob/d9" ∅ ∅ "hello") Sample.empty
           "d9") as H.
  at_sample H.
  - reflexivity.
  - reflexivity.
  - discriminate.
  - discriminate.
Defined.

(** a read miss with the draw 0 below the percentage 50 and six bytes free
    for a blob of five *)
Lemma remote_read_cache_admission_witness :
  NewHashRecord_ "d5" ∈
    callsOf (getBlobFromRemote (Sample.miss 0 6) Sample.hashOf Sample.serverId
               "d5" ∅ 50) Sample.missing ↔
  50 = 100 ∨ (0 < 50 ∧ 6 > uint64 5).
Proof.
  pose proof (remote_read_cache_admission (Sample.miss 0 6) Sample.hashOf
                Sample.serverId "d5" ∅ 50 Sample.missing
                {| Ownership.Length := 5;
                   Ownership.Nodes := {[ "n2" := 0 ]} |}) as H.
  at_sample H.
  - reflexivity.
  - reflexivity.
  - eexists _, _. split; [member|]. split; reflexivity.
Defined.

(** C3 as stated fails where the free space equals the length: with the
    draw below the percentage and exactly five bytes free for a blob of
    five, the peer serves the read and no Digest Writer is opened. *)
Lemma cache_admission_equal_space_counterexample :
  let ρ := Sample.miss 0 5 in
  let o := {| Ownership.Length := 5; Ownership.Nodes := {[ "n2" := 0 ]} |} in
  owners Sample.missing !! oidkey "d5" = Some o ∧
  (∃ sid presp, sid ∈ ResolveRemoteNodes ρ Sample.serverId o ∧
                peerGet ρ sid = inr presp ∧ getStatusCode presp = 200) ∧
  ¬ (NewHashRecord_ "d5" ∈
       callsOf (getBlobFromRemote ρ Sample.hashOf Sample.serverId "d5" ∅ 50)
               Sample.missing ↔
     50 = 100 ∨ (randIntn100 ρ < 50 ∧ freeSpace ρ >= Ownership.Length o)).
Proof.
  cbv zeta. split; [reflexivity|]. split.
  { eexists "n2", _. split; [vm_compute; member|]. split; reflexivity. }
  intros [_ H].
  assert (NewHashRecord_ "d5" ∈ [RandIntn_; AvailableSpace_]) as Hin.
  { apply H. right. vm_compute. split; [reflexivity|discriminate]. }
  repeat (apply elem_of_cons in Hin as [Hin|Hin]; [discriminate Hin|]).
  by apply elem_of_nil in Hin.
Qed.

(** a fetch request with room for the blob *)
Lemma fetch_space_checked_by_handler_witness :
  let req := Sample.request "GET" "/.cbfs/fetch/d5" ∅ ∅ "" in
  let st := run (sampleHandler Sample.quiet 100 req) Sample.missing in
  AvailableSpace_ ∈ callsOf (sampleHandler Sample.quiet 100 req) Sample.missing ∧
  Http.status (w st) = Some 202 ∧
  fetchQueue (σ st) = [("d5", "")].
Proof.
  pose proof (fetch_space_checked_by_handler
                Sample.quiet Sample.hashOf
                Sample.serverId 100 false Sample.decodeRaw Sample.decodeConfig
                Sample.formatTime Sample.detectContentType
     Sample.serveConditional Sample.elsewhere Sample.elsewhere
                Sample.elsewhere Sample.elsewhere2 Sample.elsewhere2
                Sample.elsewhere2 Sample.elsewhere2
                (Sample.request "GET" "/.cbfs/fetch/d5" ∅ ∅ "") Sample.missing
                "d5"
                {| Ownership.Length := 5;
                   Ownership.Nodes := {[ "n2" := 0 ]} |}) as H.
  cbv zeta in H |- *.
  destruct H as (H1 & _ & H3); [reflexivity..|].
  split; [exact H1|]. apply H3. vm_compute. discriminate.
Defined.

(** C4 as stated fails when the node is short of space: the Ownership
    Record of [d5] exists, four bytes are free for its five, and the
    handler, which asked for the free space itself, answers 500 and queues
    nothing. *)
Lemma fetch_without_space_counterexample :
  let ρ := Sample.miss 0 4 in
  let req := Sample.request "GET" "/.cbfs/fetch/d5" ∅ ∅ "" in
  let st := run (sampleHandler ρ 100 req) Sample.missing in
  is_Some (owners Sample.missing !! oidkey "d5") ∧
  Http.status (w st) = Some 500 ∧
  Http.status (w st) ≠ Some 202 ∧
  callsOf (sampleHandler ρ 100 req) Sample.missing = [AvailableSpace_] ∧
  fetchQueue (σ st) = [].
Proof.
  cbv zeta. split; [by eexists|]. vm_compute. repeat split. discriminate.
Qed.

(** userdata stored for [p], and a configuration stored *)
Lemma put_meta_201_put_config_204_witness :
  (let req := Sample.request "PUT" "/.cbfs/meta/p" ∅ ∅ "{}" in
   let st := run (sampleHandler Sample.quiet 100 req) Sample.stored in
   Http.status (w st) = Some 201 ∧
   Userdata <$> files (σ st) !! "p" = Some (Some "{}")) ∧
  (let req := Sample.request "PUT" "/.cbfs/config/" ∅ ∅ "{}" in
   let st := run (sampleHandler Sample.quiet 100 req) Sample.empty in
   Http.status (w st) = Some 204 ∧
   storedConfig (σ st) =
     Some {| DefaultVersionCount := 3; MinReplicas := 2 |}).
Proof.
  split; cbv zeta.
  - pose proof (put_meta_201_put_config_204
                  Sample.quiet Sample.hashOf
                  Sample.serverId 100 false Sample.decodeRaw
                  Sample.decodeConfig
                  Sample.formatTime Sample.detectContentType
     Sample.serveConditional Sample.elsewhere Sample.elsewhere
                  Sample.elsewhere Sample.elsewhere2 Sample.elsewhere2
                  Sample.elsewhere2 Sample.elsewhere2
                  (Sample.request "PUT" "/.cbfs/meta/p" ∅ ∅ "{}")
                  Sample.stored eq_refl) as [H _].
    apply (H "p" Sample.meta2 "{}"); reflexivity.
  - pose proof (put_meta_201_put_config_204
                  Sample.quiet Sample.hashOf
                  Sample.serverId 100 false Sample.decodeRaw
                  Sample.decodeConfig
                  Sample.formatTime Sample.detectContentType
     Sample.serveConditional Sample.elsewhere Sample.elsewhere
                  Sample.elsewhere Sample.elsewhere2 Sample.elsewhere2
                  Sample.elsewhere2 Sample.elsewhere2
                  (Sample.request "PUT" "/.cbfs/config/" ∅ ∅ "{}")
                  Sample.empty eq_refl) as [_ H].
    apply H; reflexivity.
Defined.

(** C5 as stated fails for /.cbfs/meta/: the PUT below succeeds, the
    userdata of [p] is replaced, and the status is 201, not 204. *)
Lemma put_meta_status_counterexample :
  let req := Sample.request "PUT" "/.cbfs/meta/p" ∅ ∅ "{}" in
  let st := run (sampleHandler Sample.quiet 100 req) Sample.stored in
  Userdata <$> files (σ st) !! "p" = Some (Some "{}") ∧
  Http.status (w st) = Some 201 ∧
  Http.status (w st) ≠ Some 204.
Proof.
  cbv zeta. vm_compute. repeat split. discriminate.
Qed.



(** the current revision of [p] asked for with its own entity tag *)
Lemma get_if_none_match_304_witness :
  let req := Sample.request "GET" "/p"
               {[ "If-None-Match" := [quoted "d5"] ]} ∅ "" in
  let st := run (sampleHandler Sample.quiet 100 req) Sample.stored in
  Http.status (w st) = Some 304 ∧
  Http.body (w st) = "" ∧
  Http.served (w st) = None.
Proof.
  pose proof (get_if_none_match_304
                Sample.quiet Sample.hashOf
                Sample.serverId 100 false Sample.decodeRaw
                Sample.decodeConfig
                Sample.formatTime Sample.detectContentType
     Sample.serveConditional Sample.elsewhere Sample.elsewhere
                Sample.elsewhere Sample.elsewhere2 Sample.elsewhere2
                Sample.elsewhere2 Sample.elsewhere2
                (Sample.request "GET" "/p"
                   {[ "If-None-Match" := [quoted "d5"] ]} ∅ "")
                Sample.stored Sample.meta2) as H.
  cbv zeta in H |- *. apply H.
  - reflexivity.
  - reflexivity.
  - reflexivity.
  - reflexivity.
  - discriminate.
  - reflexivity.
  - left. reflexivity.
Defined.

(** C7 as stated fails when the request names a revision that is not
    retained: [p] exists, the entity tag is the current one, and the answer
    to rev=9 is 410. *)
Lemma get_if_none_match_purged_rev_counterexample :
  let req := Sample.request "GET" "/p"
               {[ "If-None-Match" := [quoted "d5"] ]} {[ "rev" := ["9"] ]} "" in
  let st := run (sampleHandler Sample.quiet 100 req) Sample.stored in
  files Sample.stored !! resolvePath req = Some Sample.meta2 ∧
  Http.Get (Http.ReqHeader req) "If-None-Match" = quoted (OID Sample.meta2) ∧
  Http.status (w st) = Some 410 ∧
  Http.status (w st) ≠ Some 304.
Proof.
  cbv zeta. repeat split; try reflexivity. vm_compute. discriminate.
Qed.

(** a blob whose record was touched 3500 seconds ago *)
Lemma delete_recent_blob_refused_witness :
  let req := Sample.request "DELETE" "/.cbfs/blob/d5" ∅ ∅ "" in
  let σ0 := Sample.ownedAt (3700 * 1000000000) in
  let st := run (sampleHandler Sample.quiet 100 req) σ0 in
  Http.status (w st) = Some 400 ∧
  blobs (σ st) = blobs σ0 ∧
  callsOf (sampleHandler Sample.quiet 100 req) σ0 = [].
Proof.
  pose proof (delete_recent_blob_refused
                Sample.quiet Sample.hashOf
                Sample.serverId 100 false Sample.decodeRaw
                Sample.decodeConfig
                Sample.formatTime Sample.detectContentType
     Sample.serveConditional Sample.elsewhere Sample.elsewhere
                Sample.elsewhere Sample.elsewhere2 Sample.elsewhere2
                Sample.elsewhere2 Sample.elsewhere2
                (Sample.request "DELETE" "/.cbfs/blob/d5" ∅ ∅ "")
                (Sample.ownedAt (3700 * 1000000000)) "d5"
                {| Ownership.Length := 5;
                   Ownership.Nodes := {[ "n2" := 3700 * 1000000000 ]} |}) as H.
  cbv zeta in H |- *. apply H.
  - reflexivity.
  - reflexivity.
  - reflexivity.
  - reflexivity.
  - vm_compute. reflexivity.
Defined.

(** HEAD with rev=3 on a path that was never stored *)
Lemma head_rev_on_missing_path_witness :
  let req := Sample.request "HEAD" "/nothing" ∅ {[ "rev" := ["3"] ]} "" in
  let st := run (sampleHandler Sample.quiet 100 req) Sample.empty in
  Http.status (w st) = Some 404.
Proof.
  pose proof (head_rev_on_missing_path
                Sample.quiet Sample.hashOf
                Sample.serverId 100 false Sample.decodeRaw
                Sample.decodeConfig
                Sample.formatTime Sample.detectContentType
     Sample.serveConditional Sample.elsewhere Sample.elsewhere
                Sample.elsewhere Sample.elsewhere2 Sample.elsewhere2
                Sample.elsewhere2 Sample.elsewhere2
                (Sample.request "HEAD" "/nothing" ∅ {[ "rev" := ["3"] ]} "")
                Sample.empty eq_refl) as [H _].
  cbv zeta. apply H.
  - discriminate.
  - reflexivity.
Defined.

(** ** Further properties at sample requests *)

(** a property of the handler at the sample node in surroundings [ρ] *)
Local Abbreviation atNode thm ρ :=
  (thm ρ Sample.hashOf Sample.serverId 100 false
     Sample.decodeRaw Sample.decodeConfig Sample.formatTime
     Sample.detectContentType Sample.serveConditional
     Sample.elsewhere Sample.elsewhere Sample.elsewhere
     Sample.elsewhere2 Sample.elsewhere2 Sample.elsewhere2 Sample.elsewhere2).

(** [PUT /foo/bar] of five bytes on an empty node *)
Lemma put_user_all_or_nothing_witness :
  let req := Sample.request "PUT" "/foo/bar" ∅ ∅ "hello" in
  let st := run (sampleHandler Sample.quiet 100 req) Sample.empty in
  (Http.status (w st) = Some 201 ∨ Http.status (w st) = Some 400 ∨
   Http.status (w st) = Some 500) ∧
  (Http.status (w st) ≠ Some 201 → files (σ st) = files Sample.empty) ∧
  tmpfiles (σ st) = tmpfiles Sample.empty.
Proof.
  pose proof (atNode put_user_all_or_nothing Sample.quiet
                (Sample.request "PUT" "/foo/bar" ∅ ∅ "hello") Sample.empty)
    as H.
  cbv zeta in H |- *. apply H; reflexivity.
Defined.

(** the same upload with a digest asserted that is not the body's: the
    answer is not 201 *)
Lemma put_user_created_iff_witness :
  let req := Sample.request "PUT" "/foo/bar"
               {[ "X-Cbfs-Hash" := ["d9"] ]} ∅ "hello" in
  Http.status (w (run (sampleHandler Sample.quiet 100 req) Sample.empty))
    ≠ Some 201.
Proof.
  pose proof (atNode put_user_created_iff Sample.quiet
                (Sample.request "PUT" "/foo/bar"
                   {[ "X-Cbfs-Hash" := ["d9"] ]} ∅ "hello") Sample.empty)
    as H.
  cbv zeta. intros H201. apply H in H201; [|reflexivity..].
  destruct H201 as (_ & (_ & _ & [Hx|Hx] & _) & _);
    vm_compute in Hx; discriminate Hx.
Defined.

(** what [PUT /docs/] of five bytes leaves under [docs/index.html] *)
Lemma put_user_commits_record_witness :
  let req := Sample.request "PUT" "/docs/"
               {[ "Content-Type" := ["text/plain"] ]} ∅ "hello" in
  let st := run (sampleHandler Sample.quiet 100 req) Sample.empty in
  (∃ m, files (σ st) !! "docs/index.html" = Some m ∧
        OID m = "d5" ∧ Length m = 5 ∧
        Headers m = {[ "Content-Type" := ["text/plain"] ]} ∧
        Modified m = now Sample.quiet ∧
        is_Some (blobs (σ st) !! OID m)) ∧
  (∀ p, p ≠ "docs/index.html" → files (σ st) !! p = files Sample.empty !! p).
Proof.
  pose proof (atNode put_user_commits_record Sample.quiet
                (Sample.request "PUT" "/docs/"
                   {[ "Content-Type" := ["text/plain"] ]} ∅ "hello")
                Sample.empty) as H.
  cbv zeta in H |- *. apply H; reflexivity.
Defined.

(** an upload that asks for five revisions to be kept *)
Lemma put_user_keep_revs_witness :
  let req := Sample.request "PUT" "/foo/bar"
               {[ "X-Cbfs-Keeprevs" := ["5"] ]} ∅ "hello" in
  StoreMeta_ "foo/bar" 5 ∈ callsOf (sampleHandler Sample.quiet 100 req) Sample.empty ∧
  "foo/bar" = resolvePath req ∧
  5 = default (DefaultVersionCount (globalConfig Sample.empty))
        (Strconv.Atoi (Http.Get (Http.ReqHeader req) "X-CBFS-KeepRevs")).
Proof.
  assert (StoreMeta_ "foo/bar" 5
            ∈ callsOf (sampleHandler Sample.quiet 100
                         (Sample.request "PUT" "/foo/bar"
                            {[ "X-Cbfs-Keeprevs" := ["5"] ]} ∅ "hello"))
                      Sample.empty) as Hin.
  { vm_compute. member. }
  cbv zeta. split; [exact Hin|].
  apply (atNode put_user_keep_revs Sample.quiet
           (Sample.request "PUT" "/foo/bar"
              {[ "X-Cbfs-Keeprevs" := ["5"] ]} ∅ "hello") Sample.empty
           "foo/bar" 5); [reflexivity|reflexivity|exact Hin].
Defined.

(** an upload on a node configured for three replicas *)
Lemma put_user_replica_top_up_witness :
  let req := Sample.request "PUT" "/foo/bar" ∅ ∅ "hello" in
  Go_IncreaseReplicaCount "d5" 5 1
    ∈ callsOf (sampleHandler Sample.quiet 100 req) Sample.threefold.
Proof.
  pose proof (atNode put_user_replica_top_up Sample.quiet
                (Sample.request "PUT" "/foo/bar" ∅ ∅ "hello")
                Sample.threefold "d5" 5 1) as H.
  cbv zeta. apply H; [reflexivity|reflexivity|].
  vm_compute. repeat split.
Defined.

(** a path with two slashes in a row *)
Lemma put_user_double_slash_witness :
  let req := Sample.request "PUT" "/a//b" ∅ ∅ "hello" in
  let st := run (sampleHandler Sample.quiet 100 req) Sample.empty in
  (Http.status (w st) = Some 400 ↔
   Str.Contains (Http.URLPath req) "//" = true) ∧
  (Http.status (w st) = Some 400 → σ st = Sample.empty).
Proof.
  pose proof (atNode put_user_double_slash Sample.quiet
                (Sample.request "PUT" "/a//b" ∅ ∅ "hello") Sample.empty)
    as H.
  cbv zeta in H |- *. apply H; reflexivity.
Defined.

(** a replicated upload whose peer stored the same digest *)
Lemma put_user_replica_acknowledged_witness :
  let ρ := Sample.withPeer (inr (Sample.peerStored "d5")) in
  newRequestErr ρ = None ∧
  ∃ presp, peerPost ρ = inr presp ∧ postStatusCode presp = 201 ∧
           match postBodyErr presp with
           | None => postHash presp
           | Some _ => ""
           end = Sample.hashOf "hello".
Proof.
  pose proof (atNode put_user_replica_acknowledged
                (Sample.withPeer (inr (Sample.peerStored "d5")))
                (Sample.request "PUT" "/x" ∅ ∅ "hello") Sample.empty
                "n2:8484" []) as H.
  cbv zeta. apply H; reflexivity.
Defined.

(** five bytes uploaded under their own digest *)
Lemma put_blob_outcome_witness :
  let req := Sample.request "PUT" "/.cbfs/blob/d5" ∅ ∅ "hello" in
  let st := run (sampleHandler Sample.quiet 100 req) Sample.empty in
  Http.status (w st) = Some 201 ∧
  Http.Get (Http.header (w st)) "X-CBFS-Hash" = "d5" ∧
  blobs (σ st) !! "d5" = Some "hello" ∧
  files (σ st) = files Sample.empty ∧ tmpfiles (σ st) = tmpfiles Sample.empty.
Proof.
  pose proof (atNode put_blob_outcome Sample.quiet
                (Sample.request "PUT" "/.cbfs/blob/d5" ∅ ∅ "hello")
                Sample.empty "d5") as H.
  cbv zeta in H |- *.
  destruct H as (_ & _ & _ & H201 & _ & Hf & Ht); [reflexivity..|].
  destruct H201 as (_ & Hx & Hb & _); [reflexivity|].
  split; [reflexivity|]. split; [exact Hx|]. split; [exact Hb|].
  split; [exact Hf|exact Ht].
Defined.

(** five bytes posted without a digest *)
Lemma post_blob_outcome_witness :
  let req := Sample.request "POST" "/.cbfs/blob/" ∅ ∅ "hello" in
  let st := run (sampleHandler Sample.quiet 100 req) Sample.empty in
  Http.status (w st) = Some 201 ∧
  Http.Get (Http.header (w st)) "X-CBFS-Hash" = Sample.hashOf "hello" ∧
  blobs (σ st) !! Sample.hashOf "hello" = Some "hello".
Proof.
  pose proof (atNode post_blob_outcome Sample.quiet
                (Sample.request "POST" "/.cbfs/blob/" ∅ ∅ "hello")
                Sample.empty) as H.
  cbv zeta in H |- *.
  destruct H as (_ & H201 & _); [reflexivity..|].
  destruct H201 as (Hx & Hb & _); [reflexivity|].
  split; [reflexivity|]. split; [exact Hx|exact Hb].
Defined.

(** a method in small letters *)
Lemma method_not_allowed_witness :
  run (sampleHandler Sample.quiet 100 (Sample.request "get" "/p" ∅ ∅ ""))
      Sample.stored =
    {| w := Http.WriteHeader 405 Http.emptyResponse; σ := Sample.stored |}.
Proof.
  apply (atNode method_not_allowed Sample.quiet
           (Sample.request "get" "/p" ∅ ∅ "") Sample.stored).
  right. repeat split; discriminate.
Defined.

(** a PUT on the fetch queue and a DELETE on the configuration *)
Lemma reserved_namespace_rejected_witness :
  Http.status
    (w (run (sampleHandler Sample.quiet 100
               (Sample.request "PUT" "/.cbfs/fetch/d5" ∅ ∅ "hello"))
            Sample.stored)) = Some 400 ∧
  σ (run (sampleHandler Sample.quiet 100
            (Sample.request "DELETE" "/.cbfs/config/" ∅ ∅ ""))
         Sample.stored) = Sample.stored.
Proof.
  split.
  - pose proof (atNode reserved_namespace_rejected Sample.quiet
                  (Sample.request "PUT" "/.cbfs/fetch/d5" ∅ ∅ "hello")
                  Sample.stored eq_refl) as H.
    cbv zeta in H. destruct H as (H & _ & _).
    rewrite H; [reflexivity|reflexivity|discriminate|reflexivity..].
  - pose proof (atNode reserved_namespace_rejected Sample.quiet
                  (Sample.request "DELETE" "/.cbfs/config/" ∅ ∅ "")
                  Sample.stored eq_refl) as H.
    cbv zeta in H. destruct H as (_ & H & _).
    rewrite H; reflexivity.
Defined.

(** a configuration stored while the refresh works *)
Lemma put_config_outcome_witness :
  let req := Sample.request "PUT" "/.cbfs/config/" ∅ ∅ "{}" in
  let st := run (sampleHandler Sample.quiet 100 req) Sample.empty in
  Http.status (w st) = Some 204 ∧
  storedConfig (σ st) = Some {| DefaultVersionCount := 3; MinReplicas := 2 |} ∧
  globalConfig (σ st) = {| DefaultVersionCount := 3; MinReplicas := 2 |}.
Proof.
  pose proof (atNode put_config_outcome Sample.quiet
                (Sample.request "PUT" "/.cbfs/config/" ∅ ∅ "{}")
                Sample.empty eq_refl eq_refl) as H.
  cbv zeta in H |- *. destruct H as (H204 & _ & Hconf).
  split.
  - apply H204. eexists. split; reflexivity.
  - apply (Hconf {| DefaultVersionCount := 3; MinReplicas := 2 |});
      reflexivity.
Defined.



(** HEAD on [p] at its second revision *)
Lemma head_outcome_witness :
  let req := Sample.request "HEAD" "/p" ∅ ∅ "" in
  let st := run (sampleHandler Sample.quiet 100 req) Sample.stored in
  σ st = Sample.stored ∧ Http.status (w st) = Some 200 ∧
  Http.Get (Http.header (w st)) "Etag" = quoted "d5" ∧
  Http.Get (Http.header (w st)) "X-CBFS-Revno" = "2" ∧
  Http.Get (Http.header (w st)) "X-CBFS-OldestRev" = "1" ∧
  Http.Get (Http.header (w st)) "Content-Length" = "5" ∧
  Http.Get (Http.header (w st)) "Content-Type" = "text/html".
Proof.
  pose proof (atNode head_outcome Sample.quiet
                (Sample.request "HEAD" "/p" ∅ ∅ "") Sample.stored eq_refl)
    as H.
  cbv zeta in H |- *. destruct H as (Hσ & _ & _ & H200).
  split; [exact Hσ|].
  destruct (H200 Sample.meta2)
    as (H1 & _ & _ & H4 & H5 & _ & H7 & H8 & H9); [reflexivity..|].
  split; [exact H1|]. split; [exact H7|]. split; [exact H4|].
  split; [exact H5|]. split; [exact H8|exact H9].
Defined.

(** a path never stored, and a rev that is no number *)
Lemma get_user_doc_refused_witness :
  Http.status
    (w (run (sampleHandler Sample.quiet 100
               (Sample.request "GET" "/nothing" ∅ ∅ "")) Sample.stored))
    = Some 404 ∧
  Http.status
    (w (run (sampleHandler Sample.quiet 100
               (Sample.request "GET" "/p" ∅ {[ "rev" := ["two"] ]} ""))
            Sample.stored)) = Some 400.
Proof.
  split.
  - pose proof (atNode get_user_doc_refused Sample.quiet
                  (Sample.request "GET" "/nothing" ∅ ∅ "") Sample.stored
                  eq_refl eq_refl) as H.
    cbv zeta in H. destruct H as [H _]. apply H. right. reflexivity.
  - pose proof (atNode get_user_doc_refused Sample.quiet
                  (Sample.request "GET" "/p" ∅ {[ "rev" := ["two"] ]} "")
                  Sample.stored eq_refl eq_refl) as H.
    cbv zeta in H. destruct H as [_ H].
    apply H; [reflexivity|by eexists|discriminate|reflexivity].
Defined.

(** [p] read back from the local disk *)
Lemma get_user_doc_served_locally_witness :
  let req := Sample.request "GET" "/p" ∅ ∅ "" in
  let st := run (sampleHandler Sample.quiet 100 req) Sample.stored in
  Http.status (w st) = Some 200 ∧ Http.body (w st) = "hello" ∧
  Http.Get (Http.header (w st)) "Etag" = quoted "d5" ∧
  Http.Get (Http.header (w st)) "Content-Length" = "5" ∧
  Http.header (w st) !! "Content-Type" = Some ["text/html"].
Proof.
  pose proof (atNode get_user_doc_served_locally Sample.quiet
                (Sample.request "GET" "/p" ∅ ∅ "") Sample.stored
                Sample.meta2 "hello") as H.
  cbv zeta in H |- *.
  destruct H as (H1 & H2 & H3 & _ & _ & H6 & H7 & _);
    [reflexivity|reflexivity|reflexivity|reflexivity|reflexivity
    |repeat constructor|reflexivity|].
  split; [exact H1|]. split; [exact H2|]. split; [exact H3|].
  split; [exact H6|]. rewrite H7; [reflexivity|by eexists].
Defined.

(** the blob [d5] read by digest, where it is and where it is not *)
Lemma get_blob_outcome_witness :
  let req := Sample.request "GET" "/.cbfs/blob/d5" ∅ ∅ "" in
  (let st := run (sampleHandler Sample.quiet 100 req) Sample.stored in
   Http.status (w st) = Some 200 ∧ Http.body (w st) = "hello") ∧
  (let st := run (sampleHandler Sample.quiet 100 req) Sample.missing in
   Http.status (w st) = Some 404 ∧
   callsOf (sampleHandler Sample.quiet 100 req) Sample.missing =
     [RemoveBlobOwnershipRecord_ "d5" Sample.serverId]).
Proof.
  cbv zeta. split.
  - pose proof (atNode get_blob_outcome Sample.quiet
                  (Sample.request "GET" "/.cbfs/blob/d5" ∅ ∅ "")
                  Sample.stored "d5" eq_refl eq_refl) as H.
    cbv zeta in H. destruct H as [H _]; [discriminate|].
    destruct (H "hello") as (H1 & H2 & _);
      [reflexivity|repeat constructor|].
    split; [exact H1|exact H2].
  - pose proof (atNode get_blob_outcome Sample.quiet
                  (Sample.request "GET" "/.cbfs/blob/d5" ∅ ∅ "")
                  Sample.missing "d5" eq_refl eq_refl) as H.
    cbv zeta in H. destruct H as [_ H]; [discriminate|].
    destruct H as (H1 & _ & H3 & _); [reflexivity|].
    split; [exact H1|exact H3].
Defined.



(** a read miss whose peer breaks off after two bytes *)
Lemma remote_read_truncated_witness :
  let r := getBlobFromRemote (Sample.broken 0 6) Sample.hashOf
             Sample.serverId "d5" ∅ 50
             {| w := Http.emptyResponse; σ := Sample.missing |} in
  r.1 = Some "unexpected EOF" ∧
  Http.status (w r.2) = Some 200 ∧ Http.body (w r.2) = "he" ∧
  blobs (σ r.2) = blobs Sample.missing ∧
  tmpfiles (σ r.2) = {[ 0%nat := "he" ]}.
Proof.
  pose proof (remote_read_truncated (Sample.broken 0 6)
                Sample.hashOf Sample.serverId "d5" ∅ 50 Sample.missing
                {| Ownership.Length := 5;
                   Ownership.Nodes := {[ "n2" := 0 ]} |}
                [] "n2" []
                {| getStatusCode := 200; getStatus := "200 OK";
                   getBody := "he"; getBodyErr := Some "unexpected EOF" |}
                "unexpected EOF") as H.
  cbv zeta in H |- *.
  destruct H as (H1 & H2 & H3 & H4 & _ & _ & H7 & _);
    [reflexivity|reflexivity|reflexivity| |reflexivity|reflexivity
    |reflexivity|].
  - intros n r Hn. by apply elem_of_nil in Hn.
  - split; [exact H1|]. split; [exact H2|]. split; [exact H3|].
    split; [exact H4|].
    rewrite H7; [reflexivity|]. split; [|reflexivity].
    right. vm_compute. split; reflexivity.
Defined.

(** a fetch request for a digest without Ownership Record *)
Lemma fetch_request_outcome_witness :
  let req := Sample.request "GET" "/.cbfs/fetch/d5" ∅ ∅ "" in
  let st := run (sampleHandler Sample.quiet 100 req) Sample.stored in
  Http.status (w st) = Some 404 ∧ Http.body (w st) = "" ∧
  σ st = Sample.stored.
Proof.
  pose proof (atNode fetch_request_outcome Sample.quiet
                (Sample.request "GET" "/.cbfs/fetch/d5" ∅ ∅ "")
                Sample.stored "d5" eq_refl eq_refl) as H.
  cbv zeta in H |- *. destruct H as [H _]. apply H. right. reflexivity.
Defined.

(** a blob last referenced two hours ago *)
Lemma delete_blob_outcome_witness :
  let req := Sample.request "DELETE" "/.cbfs/blob/d5" ∅ ∅ "" in
  let st := run (sampleHandler Sample.quiet 100 req) (Sample.ownedAt 0) in
  callsOf (sampleHandler Sample.quiet 100 req) (Sample.ownedAt 0)
    = [RemoveObject_ "d5"] ∧
  (Http.status (w st) = Some 204 ↔
   is_Some (blobs (Sample.ownedAt 0) !! "d5")) ∧
  blobs (σ st) = delete "d5" (blobs (Sample.ownedAt 0)).
Proof.
  pose proof (atNode delete_blob_outcome Sample.quiet
                (Sample.request "DELETE" "/.cbfs/blob/d5" ∅ ∅ "")
                (Sample.ownedAt 0) "d5" eq_refl eq_refl) as H.
  cbv zeta in H |- *. destruct H as [_ H].
  destruct H as (H1 & H2 & _ & H4).
  { intros (_ & ob & Hob & Hlt). vm_compute in Hob.
    injection Hob as <-. vm_compute in Hlt. discriminate Hlt. }
  split; [exact H1|]. split; [exact H2|exact H4].
Defined.

(** [p] deleted *)
Lemma delete_user_doc_outcome_witness :
  let req := Sample.request "DELETE" "/p" ∅ ∅ "" in
  let st := run (sampleHandler Sample.quiet 100 req) Sample.stored in
  Http.status (w st) = Some 204 ∧
  σ st = with_files (delete "p" (files Sample.stored)) Sample.stored.
Proof.
  pose proof (atNode delete_user_doc_outcome Sample.quiet
                (Sample.request "DELETE" "/p" ∅ ∅ "")
                Sample.stored eq_refl eq_refl) as H.
  cbv zeta in H |- *. destruct H as (_ & H & _).
  split; [reflexivity|]. apply H. reflexivity.
Defined.

(** a property of two requests at the sample node, in surroundings
    [ρ1] and then [ρ2] *)
Local Abbreviation atNodes thm ρ1 ρ2 :=
  (thm ρ1 ρ2 Sample.hashOf Sample.serverId 100 false
     Sample.decodeRaw Sample.decodeConfig Sample.formatTime
     Sample.detectContentType Sample.serveConditional
     Sample.elsewhere Sample.elsewhere Sample.elsewhere
     Sample.elsewhere2 Sample.elsewhere2 Sample.elsewhere2 Sample.elsewhere2).

(** [PUT /docs/] and then [GET //docs/index.html], when a peer has
    appeared in between *)
Lemma put_then_get_round_trip_witness :
  let put := Sample.request "PUT" "/docs/"
               {[ "Content-Type" := ["text/plain"] ]} ∅ "hello" in
  let get := Sample.request "GET" "//docs/index.html" ∅ ∅ "" in
  let st1 := run (sampleHandler Sample.quiet 100 put) Sample.empty in
  let st2 := run (sampleHandler (Sample.miss 0 6) 100 get) (σ st1) in
  Http.status (w st2) = Some 200 ∧
  Http.body (w st2) = "hello" ∧
  Http.Get (Http.header (w st2)) "Etag" = quoted (Sample.hashOf "hello") ∧
  Http.header (w st2) !! "Content-Type" = Some ["text/plain"].
Proof.
  pose proof (atNodes put_then_get_round_trip Sample.quiet (Sample.miss 0 6)
                (Sample.request "PUT" "/docs/"
                   {[ "Content-Type" := ["text/plain"] ]} ∅ "hello")
                (Sample.request "GET" "//docs/index.html" ∅ ∅ "")
                Sample.empty) as H.
  cbv zeta in H |- *.
  destruct H as (H1 & H2 & H3 & _ & H5);
    [reflexivity|reflexivity|reflexivity|reflexivity|reflexivity
    |reflexivity|repeat constructor|reflexivity| |reflexivity|].
  - intros c Hc. vm_compute in Hc. discriminate Hc.
  - split; [exact H1|]. split; [exact H2|]. split; [exact H3|].
    rewrite H5; [reflexivity|]. by eexists.
Defined.

(** [p] deleted and then asked for with HEAD *)
Lemma delete_then_gone_witness :
  let del := Sample.request "DELETE" "/p" ∅ ∅ "" in
  let req := Sample.request "HEAD" "/p" ∅ ∅ "" in
  let st1 := run (sampleHandler Sample.quiet 100 del) Sample.stored in
  let st2 := run (sampleHandler Sample.quiet 100 req) (σ st1) in
  blobs (σ st1) = blobs Sample.stored ∧ owners (σ st1) = owners Sample.stored ∧
  Http.status (w st2) = Some 404 ∧ σ st2 = σ st1.
Proof.
  pose proof (atNodes delete_then_gone Sample.quiet Sample.quiet
                (Sample.request "DELETE" "/p" ∅ ∅ "")
                (Sample.request "HEAD" "/p" ∅ ∅ "") Sample.stored) as H.
  cbv zeta in H |- *.
  apply H; [reflexivity|reflexivity|reflexivity|reflexivity| |reflexivity].
  right. left. reflexivity.
Defined.

(** userdata stored for [p] and read back *)
Lemma put_meta_then_get_meta_witness :
  let put := Sample.request "PUT" "/.cbfs/meta/p" ∅ ∅ "[1]" in
  let get := Sample.request "GET" "/.cbfs/meta/p" ∅ ∅ "" in
  let st1 := run (sampleHandler Sample.quiet 100 put) Sample.stored in
  let st2 := run (sampleHandler Sample.quiet 100 get) (σ st1) in
  ∃ r, Sample.decodeRaw "[1]" = inr r ∧
       Http.status (w st2) = Some 200 ∧ Http.body (w st2) = r ∧
       σ st2 = σ st1.
Proof.
  pose proof (atNodes put_meta_then_get_meta Sample.quiet Sample.quiet
                (Sample.request "PUT" "/.cbfs/meta/p" ∅ ∅ "[1]")
                (Sample.request "GET" "/.cbfs/meta/p" ∅ ∅ "")
                Sample.stored "p") as H.
  cbv zeta in H |- *. apply H; reflexivity.
Defined.
